(** * Document checklist engine (HubSpot extension [DocumentList]) *)

(** A shallow embedding of the rule-evaluation and reconciliation code of
    [src/DocumentList/src/app/extensions/DocumentList.tsx] and
    [src/DocumentList/src/app/app.functions/updateDocuments.js].

    Conventions of the embedding.
    - A JavaScript string is a [string]: the sequence of its bytes.  The
      whitespace class of [trim] and of the regular expression [\s], and the
      case mapping of [toLowerCase], are the ECMAScript ones restricted to the
      ASCII range; bytes above 127 are neither blank nor cased.
    - A JavaScript object used as a dictionary ([Record<string, any>], the
      [tabConfig] of a document, the outgoing [properties] batch) is an
      association list in enumeration order, which the key scan of the
      evaluator and the routers depend on; the first binding of a key is
      its binding.  Members inherited from [Object.prototype] are not
      modelled.
    - A value of type [any] is a [JsValue]: a scalar or a native list of
      scalars.  Numbers are integers, but for the quotient of
      [calculateProgress], which is computed in IEEE 754 binary64 as the
      code computes it ([Double]).
    - [DocumentList.tsx] and [updateDocuments.js] each come in two texts.
      [DocumentList] and [UpdateDocuments] embed the first, with the
      per-view [tabConfig]; [LegacyDocumentList] and [UpdateDocumentsLoop]
      embed the view router and the save of the second.
    - The catalog [documents.json] is not part of the sources: functions
      that read [DOCUMENTS_CONFIG] take it as an argument. *)

From Stdlib Require Import List String Ascii ZArith Bool Arith Lia Permutation.
From Stdlib Require Import Numbers.DecimalString.
From Stdlib Require Import Floats.SpecFloat.
Import ListNotations.

Local Open Scope string_scope.
Local Open Scope bool_scope.

(** ** JavaScript strings and values *)

Module Js.

(** [\s] within ASCII: TAB, LF, VT, FF, CR and SPACE. *)
Definition isWhiteSpace (c : ascii) : bool :=
  let n := nat_of_ascii c in
  ((9 <=? n)%nat && (n <=? 13)%nat) || (n =? 32)%nat.

Definition lowerChar (c : ascii) : ascii :=
  let n := nat_of_ascii c in
  if ((65 <=? n)%nat && (n <=? 90)%nat) then ascii_of_nat (n + 32) else c.

(** [s.toLowerCase()] *)
Fixpoint toLowerCase (s : string) : string :=
  match s with
  | EmptyString => EmptyString
  | String c r => String (lowerChar c) (toLowerCase r)
  end.

Definition isEmpty (s : string) : bool :=
  match s with EmptyString => true | String _ _ => false end.

Fixpoint trimStart (s : string) : string :=
  match s with
  | EmptyString => EmptyString
  | String c r => if isWhiteSpace c then trimStart r else s
  end.

Fixpoint trimEnd (s : string) : string :=
  match s with
  | EmptyString => EmptyString
  | String c r =>
      let r' := trimEnd r in
      if isWhiteSpace c && isEmpty r' then EmptyString else String c r'
  end.

(** A text that does not start with a blank. *)
Definition startsClean (s : string) : Prop :=
  match s with
  | EmptyString => True
  | String c _ => isWhiteSpace c = false
  end.

(** [s.trim()] *)
Definition trim (s : string) : string := trimEnd (trimStart s).

(** [hay.includes(needle)] *)
Fixpoint includes (hay needle : string) : bool :=
  prefix needle hay ||
  match hay with
  | EmptyString => false
  | String _ r => includes r needle
  end.

(** [s.split(sep)] for a separator of one character. *)
Fixpoint split (sep : ascii) (s : string) : list string :=
  match s with
  | EmptyString => [EmptyString]
  | String c r =>
      if Ascii.eqb c sep then EmptyString :: split sep r
      else match split sep r with
           | h :: t => String c h :: t
           | [] => [String c EmptyString]
           end
  end.

Fixpoint collapseFrom (inRun : bool) (s : string) : string :=
  match s with
  | EmptyString => EmptyString
  | String c r =>
      if isWhiteSpace c
      then (if inRun then collapseFrom true r
            else String " " (collapseFrom true r))
      else String c (collapseFrom false r)
  end.

(** [s.replace(/\s+/g, ' ')] *)
Definition collapseWhiteSpace (s : string) : string := collapseFrom false s.

(** [arr.join(sep)] on strings. *)
Fixpoint join (sep : string) (l : list string) : string :=
  match l with
  | [] => EmptyString
  | [x] => x
  | x :: r => x ++ sep ++ join sep r
  end.

Inductive JsScalar : Type :=
| SUndefined
| SNull
| SBool (b : bool)
| SNum (n : Z)
| SStr (s : string).

Inductive JsValue : Type :=
| JsPrim (p : JsScalar)
| JsArr (items : list JsScalar).

Definition undefined : JsValue := JsPrim SUndefined.

Definition truthyScalar (p : JsScalar) : bool :=
  match p with
  | SUndefined | SNull => false
  | SBool b => b
  | SNum n => negb (n =? 0)%Z
  | SStr s => negb (isEmpty s)
  end.

(** The condition of [if (v)] and of [v ? a : b]. *)
Definition truthy (v : JsValue) : bool :=
  match v with
  | JsPrim p => truthyScalar p
  | JsArr _ => true
  end.

Definition scalarToString (p : JsScalar) : string :=
  match p with
  | SUndefined => "undefined"
  | SNull => "null"
  | SBool true => "true"
  | SBool false => "false"
  | SNum n => NilZero.string_of_int (Z.to_int n)
  | SStr s => s
  end.

(** An element of an array under [join]: [null] and [undefined] print as
    the empty string. *)
Definition elementToString (p : JsScalar) : string :=
  match p with
  | SUndefined | SNull => EmptyString
  | _ => scalarToString p
  end.

(** [String(v)] *)
Definition toString (v : JsValue) : string :=
  match v with
  | JsPrim p => scalarToString p
  | JsArr items => join "," (map elementToString items)
  end.

Definition isUndefined (v : JsValue) : bool :=
  match v with JsPrim SUndefined => true | _ => false end.

(** A dictionary object. *)
Definition Dict (A : Type) : Type := list (string * A).

Fixpoint lookup {A : Type} (k : string) (d : Dict A) : option A :=
  match d with
  | [] => None
  | (k', v) :: r => if String.eqb k' k then Some v else lookup k r
  end.

(** [Object.keys(d)] *)
Definition keys {A : Type} (d : Dict A) : list string := map fst d.

(** [k in d] *)
Definition has {A : Type} (k : string) (d : Dict A) : bool :=
  match lookup k d with Some _ => true | None => false end.

(** [d[k] = v] *)
Fixpoint set {A : Type} (k : string) (v : A) (d : Dict A) : Dict A :=
  match d with
  | [] => [(k, v)]
  | (k', v') :: r =>
      if String.eqb k' k then (k', v) :: r else (k', v') :: set k v r
  end.

(** [delete d[k]] *)
Definition remove {A : Type} (k : string) (d : Dict A) : Dict A :=
  filter (fun kv => negb (String.eqb (fst kv) k)) d.

(** [bag[k]] on a [Record<string, any>]: a missing key reads [undefined]. *)
Definition get (bag : Dict JsValue) (k : string) : JsValue :=
  match lookup k bag with Some v => v | None => undefined end.

End Js.

Import Js.

(** ** JavaScript numbers

    A Number is an IEEE 754 binary64 value: [spec_float] at precision 53
    with round-to-nearest, ties to even. *)

Module Double.

Definition prec : Z := 53.
Definition emax : Z := 1024.

(** The Number of an integer (exact below [2^53]). *)
Definition ofInteger (n : Z) : spec_float :=
  binary_normalize prec emax n 0 false.

(** [x / y] and [x * y] *)
Definition div (x y : spec_float) : spec_float := SFdiv prec emax x y.
Definition mul (x y : spec_float) : spec_float := SFmul prec emax x y.

(** [Math.round(x)] of a finite [x], as an integer: the integer closest
    to [x], and the one nearer to positive infinity when two are equally
    close.  [Math.round] keeps a NaN or an infinity as it is; they have no
    integer and read [0] here, and no quotient of two counts is one. *)
Definition round (x : spec_float) : Z :=
  match x with
  | S754_finite sign m e =>
      let half := Z.shiftl 1 (- e - 1) in
      if (0 <=? e)%Z
      then (if sign then - Z.shiftl (Z.pos m) e else Z.shiftl (Z.pos m) e)%Z
      else if sign
           then (- Z.shiftr (Z.pos m + half - 1) (- e))%Z
           else Z.shiftr (Z.pos m + half) (- e)
  | _ => 0%Z
  end.

End Double.

(** ** Data model *)

(** [interface DocumentCondition].  The operator is whatever string the
    catalog carries; the evaluator switches on it. *)
Record DocumentCondition : Type := mkCondition {
  property : string;
  operator : string;
  value : string
}.

(** The property bag of a record. *)
Definition Properties : Type := Dict JsValue.

(** ** Condition evaluator *)

Module Evaluator.

(** [Object.keys(properties).find(k => k.toLowerCase() ===
    condition.property.toLowerCase())] *)
Definition findKeyIgnoringCase (properties : Properties) (name : string)
  : option string :=
  find (fun k => String.eqb (toLowerCase k) (toLowerCase name))
       (keys properties).

(** The first lines of [evaluateCondition]: exact key, then the scan. *)
Definition resolveProperty (properties : Properties) (name : string)
  : JsValue :=
  let propertyValue := get properties name in
  if isUndefined propertyValue then
    match findKeyIgnoringCase properties name with
    | Some foundKey =>
        if isEmpty foundKey then propertyValue else get properties foundKey
    | None => propertyValue
    end
  else propertyValue.

Definition normalizeForComparison (str : string) : string :=
  collapseWhiteSpace (trim str).

(** [text.split(sep).map(v => normalizeForComparison(v)).filter(v => v !== '')] *)
Definition separatedValues (sep : ascii) (text : string) : list string :=
  filter (fun v => negb (isEmpty v))
         (map normalizeForComparison (split sep text)).

Definition evaluateIn (propertyValue : JsValue)
    (propValueStr conditionValue : string) : bool :=
  if negb (truthy propertyValue) || isEmpty propValueStr then false
  else
    let normalizedConditionValue := trim conditionValue in
    let normalizedPropertyValue := trim propValueStr in
    match propertyValue with
    | JsArr items =>
        existsb (fun val =>
                   String.eqb (trim (scalarToString val)) normalizedConditionValue)
                items
    | JsPrim _ =>
        let normalizedCondition := normalizeForComparison normalizedConditionValue in
        if includes normalizedPropertyValue ";" then
          let values := separatedValues ";" normalizedPropertyValue in
          existsb (fun val => String.eqb val normalizedCondition) values
        else if includes normalizedPropertyValue "," then
          let values := separatedValues "," normalizedPropertyValue in
          existsb (fun val => String.eqb val normalizedCondition) values
        else
          String.eqb (normalizeForComparison normalizedPropertyValue)
                     normalizedCondition
    end.

Definition evaluateCondition (condition : DocumentCondition)
    (properties : Properties) : bool :=
  let propertyValue := resolveProperty properties (property condition) in
  let propValueStr :=
    if truthy propertyValue then trim (toString propertyValue)
    else EmptyString in
  let conditionValue := trim (value condition) in
  let op := operator condition in
  if String.eqb op "equals" then
    String.eqb propValueStr conditionValue
  else if String.eqb op "not_equals" then
    negb (String.eqb propValueStr conditionValue)
  else if String.eqb op "contains" then
    includes (toLowerCase propValueStr) (toLowerCase conditionValue)
  else if String.eqb op "not_contains" then
    negb (includes (toLowerCase propValueStr) (toLowerCase conditionValue))
  else if String.eqb op "in" then
    evaluateIn propertyValue propValueStr conditionValue
  else true.

(** A property is absent from the bag when no key equals its name up to
    letter case (the exact lookup is the special case of equal case). *)
Definition absentFrom (properties : Properties) (name : string) : Prop :=
  forall k, In k (keys properties) -> toLowerCase k <> toLowerCase name.

End Evaluator.

(** ** Catalog and runtime documents ([DocumentList.tsx], tabConfig layout) *)

Module DocumentList.

Import Evaluator.

(** [interface TabConfig]; a field absent from the JSON catalog is [None]. *)
Record TabConfig : Type := mkTabConfig {
  order : option Z;
  conditions : option (list DocumentCondition)
}.

(** [interface DocumentConfig] *)
Record DocumentConfig : Type := mkDocumentConfig {
  config_id : string;
  config_name : string;
  config_requiredProperty : string;
  config_providedProperty : string;
  config_tabConfig : option (Dict TabConfig)
}.

(** [interface Document], with the two fields that [fetchDocumentValues]
    adds to each entry.  [tabConfig] is always an object at run time:
    [INITIAL_DOCUMENTS] stores [config.tabConfig || {}]. *)
Record Document : Type := mkDocument {
  id : string;
  name : string;
  required : bool;
  provided : bool;
  requiredProperty : string;
  providedProperty : string;
  tabConfig : Dict TabConfig;
  _requiredFromHubSpot : option bool;
  _shouldBeRequired : option bool
}.

(** [{ ...doc, required: b }] *)
Definition withRequired (doc : Document) (b : bool) : Document :=
  mkDocument (id doc) (name doc) b (provided doc) (requiredProperty doc)
             (providedProperty doc) (tabConfig doc)
             (_requiredFromHubSpot doc) (_shouldBeRequired doc).

(** [{ ...doc, provided: b }] *)
Definition withProvided (doc : Document) (b : bool) : Document :=
  mkDocument (id doc) (name doc) (required doc) b (requiredProperty doc)
             (providedProperty doc) (tabConfig doc)
             (_requiredFromHubSpot doc) (_shouldBeRequired doc).

Definition initialDocument (config : DocumentConfig) : Document :=
  mkDocument (config_id config) (config_name config) false false
             (config_requiredProperty config) (config_providedProperty config)
             (match config_tabConfig config with Some t => t | None => [] end)
             None None.

(** [INITIAL_DOCUMENTS], from the catalog of [documents.json]. *)
Definition INITIAL_DOCUMENTS (DOCUMENTS_CONFIG : list DocumentConfig)
  : list Document :=
  map initialDocument DOCUMENTS_CONFIG.

Inductive DossierState : Type := TO_BUILD | INCOMPLETE | COMPLETE.

(** [DOSSIER_STATES] *)
Definition DOSSIER_STATES (s : DossierState) : string :=
  match s with
  | TO_BUILD => "À construire"
  | INCOMPLETE => "En construction"
  | COMPLETE => "Complet"
  end.

Definition documentBelongsToTab (doc : Document) (tabId : string) : bool :=
  has tabId (tabConfig doc).

Definition getOrderForTab (doc : Document) (tabId : string) : Z :=
  match lookup tabId (tabConfig doc) with
  | Some config =>
      match order config with Some n => n | None => 9999%Z end
  | None => 9999%Z
  end.

Definition conditionsOrEmpty (config : TabConfig) : list DocumentCondition :=
  match conditions config with Some cs => cs | None => [] end.

Definition getConditionsForTab (doc : Document) (tabId : string)
  : list DocumentCondition :=
  match lookup tabId (tabConfig doc) with
  | Some config => conditionsOrEmpty config
  | None => []
  end.

(** [Object.values(doc.tabConfig).forEach(config => { if (config.conditions)
    allConditions.push(...config.conditions) })] *)
Definition getAllConditions (doc : Document) : list DocumentCondition :=
  fold_left (fun allConditions config =>
               match conditions config with
               | Some cs => (allConditions ++ cs)%list
               | None => allConditions
               end)
            (map snd (tabConfig doc)) [].

Definition toBool (v : JsValue) : bool :=
  match v with
  | JsPrim (SBool b) => b
  | JsPrim SNull | JsPrim SUndefined => false
  | JsPrim (SStr s) =>
      if isEmpty s then false
      else
        let lower := trim (toLowerCase s) in
        if String.eqb lower "true" || String.eqb lower "1"
           || String.eqb lower "yes" || String.eqb lower "oui"
        then true
        else false
  | JsPrim (SNum n) => negb (n =? 0)%Z
  | JsArr _ => true
  end.

Definition checkCompletion (docs : list Document) : bool :=
  let incompleteRequired :=
    find (fun doc => required doc && negb (provided doc)) docs in
  let hasRequiredDocs := existsb required docs in
  match incompleteRequired with
  | Some _ => false
  | None => hasRequiredDocs
  end.

Definition calculateDossierState (docs : list Document) : DossierState :=
  let hasRequiredDocs := existsb required docs in
  if negb hasRequiredDocs then TO_BUILD
  else
    let anyProvided := existsb provided docs in
    if anyProvided then
      let allRequiredProvided :=
        negb (existsb (fun doc => required doc && negb (provided doc)) docs) in
      if allRequiredProvided then COMPLETE else INCOMPLETE
    else TO_BUILD.

(** *** Requirement resolver *)

(** The [Map<string, DocumentCondition[]>] of [checkDocumentConditions],
    in insertion order. *)
Definition ConditionGroups : Type := Dict (list DocumentCondition).

Fixpoint pushInto (k : string) (c : DocumentCondition) (m : ConditionGroups)
  : ConditionGroups :=
  match m with
  | [] => []
  | (k', l) :: r =>
      if String.eqb k' k then (k', (l ++ [c])%list) :: r
      else (k', l) :: pushInto k c r
  end.

(** One round of the [forEach]: create the group when the key is new, then
    push the condition into it. *)
Definition addCondition (m : ConditionGroups) (condition : DocumentCondition)
  : ConditionGroups :=
  let m' :=
    if has (property condition) m then m
    else Js.set (property condition) [] m in
  pushInto (property condition) condition m'.

Definition groupByProperty (conds : list DocumentCondition) : ConditionGroups :=
  fold_left addCondition conds [].

(** The test that puts a condition in the group of the property [k]. *)
Definition sameProperty (k : string) (c : DocumentCondition) : bool :=
  String.eqb (property c) k.

(** The conditions [checkDocumentConditions] evaluates: those of the tab
    when a (truthy) tab id is given, those of all tabs otherwise. *)
Definition conditionsFor (doc : Document) (tabId : option string)
  : list DocumentCondition :=
  match tabId with
  | Some t => if isEmpty t then getAllConditions doc
              else getConditionsForTab doc t
  | None => getAllConditions doc
  end.

Definition checkDocumentConditions (doc : Document) (properties : Properties)
    (tabId : option string) : bool :=
  let conds := conditionsFor doc tabId in
  match conds with
  | [] => true
  | _ :: _ =>
      let conditionsByProperty := groupByProperty conds in
      forallb (fun entry =>
                 existsb (fun condition => evaluateCondition condition properties)
                         (snd entry))
              conditionsByProperty
  end.

Definition hasConditions (doc : Document) : bool :=
  (0 <? List.length (getAllConditions doc))%nat.

(** The body of [INITIAL_DOCUMENTS.map(doc => ...)] in
    [fetchDocumentValues]. *)
Definition fetchedDocument (properties : Properties) (doc : Document)
  : Document :=
  let requiredRaw := get properties (requiredProperty doc) in
  let providedRaw := get properties (providedProperty doc) in
  let requiredFromHubSpot := toBool requiredRaw in
  let provided' := toBool providedRaw in
  let conditionsMet := checkDocumentConditions doc properties None in
  let hasConds := hasConditions doc in
  let required' :=
    if hasConds then
      if conditionsMet then true
      else if provided' then requiredFromHubSpot else false
    else requiredFromHubSpot in
  mkDocument (id doc) (name doc) required' provided'
             (requiredProperty doc) (providedProperty doc) (tabConfig doc)
             (Some requiredFromHubSpot)
             (Some (if hasConds
                    then (if conditionsMet then true else requiredFromHubSpot)
                    else requiredFromHubSpot)).

Definition fetchedDocuments (DOCUMENTS_CONFIG : list DocumentConfig)
    (properties : Properties) : list Document :=
  map (fetchedDocument properties) (INITIAL_DOCUMENTS DOCUMENTS_CONFIG).

(** *** Component state read by the handlers *)

Record State : Type := mkState {
  documents : list Document;
  recordProperties : Properties;
  selectedTab : string;
  searchTerm : string;
  natureDemande : string
}.

Inductive Field : Type := FieldRequired | FieldProvided.

(** The callback given to [prevDocs.map] in [handleCheckboxToggle]. *)
Definition toggleDocument (st : State) (documentId : string) (field : Field)
    (checked : bool) (doc : Document) : Document :=
  if String.eqb (id doc) documentId then
    match field with
    | FieldRequired =>
        let conditionsMet :=
          checkDocumentConditions doc (recordProperties st) None in
        let hasConds := hasConditions doc in
        let isAutreTab := String.eqb (selectedTab st) "autre" in
        if hasConds && negb isAutreTab then
          if conditionsMet && negb checked then doc
          else if negb conditionsMet && checked then doc
          else withRequired doc conditionsMet
        else withRequired doc checked
    | FieldProvided => withProvided doc checked
    end
  else doc.

(** What the state updater of [handleCheckboxToggle] computes from
    [prevDocs]: the new list and the two aggregates it stores. *)
Record ToggleOutcome : Type := mkToggleOutcome {
  newDocs : list Document;
  newCompletionStatus : bool;
  newDossierState : DossierState
}.

Definition handleCheckboxToggle (st : State) (documentId : string)
    (field : Field) (checked : bool) : ToggleOutcome :=
  let docs := map (toggleDocument st documentId field checked) (documents st) in
  mkToggleOutcome docs (checkCompletion docs) (calculateDossierState docs).

(** *** View router *)

Definition normalize (str : string) : string :=
  collapseWhiteSpace (trim str).

(** The predicate of [tabConfig.conditions.some(...)]. *)
Definition isCategoryCondition (normalizedValue : string)
    (condition : DocumentCondition) : bool :=
  String.eqb (property condition) "sous_categorie"
  && String.eqb (operator condition) "equals"
  && String.eqb (normalize (value condition)) normalizedValue.

(** The inner loop over [Object.entries(doc.tabConfig)]. *)
Fixpoint firstMatchingTab (normalizedValue : string)
    (entries : Dict TabConfig) : option string :=
  match entries with
  | [] => None
  | (tabId, config) :: rest =>
      match conditions config with
      | None => firstMatchingTab normalizedValue rest
      | Some cs =>
          if existsb (isCategoryCondition normalizedValue) cs
          then Some tabId
          else firstMatchingTab normalizedValue rest
      end
  end.

(** The outer loop over [DOCUMENTS_CONFIG]. *)
Fixpoint firstMatchingDocument (normalizedValue : string)
    (docs : list DocumentConfig) : option string :=
  match docs with
  | [] => None
  | doc :: rest =>
      match config_tabConfig doc with
      | None => firstMatchingDocument normalizedValue rest
      | Some entries =>
          match firstMatchingTab normalizedValue entries with
          | Some tabId => Some tabId
          | None => firstMatchingDocument normalizedValue rest
          end
      end
  end.

Definition getTabForNatureDemande (DOCUMENTS_CONFIG : list DocumentConfig)
    (natureDemandeValue : string) : option string :=
  if isEmpty natureDemandeValue then None
  else firstMatchingDocument (normalize natureDemandeValue) DOCUMENTS_CONFIG.

(** A view hosts the category condition; a document has such a view. *)
Definition hostsCategory (normalizedValue : string) (config : TabConfig)
  : bool :=
  match conditions config with
  | Some cs => existsb (isCategoryCondition normalizedValue) cs
  | None => false
  end.

Definition docHostsCategory (normalizedValue : string) (doc : DocumentConfig)
  : bool :=
  match config_tabConfig doc with
  | Some entries =>
      existsb (fun entry => hostsCategory normalizedValue (snd entry)) entries
  | None => false
  end.

(** The preference as the specification words it: the condition set of
    the view holds the category condition and nothing else. *)
Definition onlyCategoryCondition (normalizedValue : string)
    (config : TabConfig) : bool :=
  match conditions config with
  | Some [c] => isCategoryCondition normalizedValue c
  | _ => false
  end.

Definition PrefersSingleConditionView
    (router : list DocumentConfig -> string -> option string) : Prop :=
  forall catalog natureDemandeValue doc entries t config,
    natureDemandeValue <> EmptyString ->
    In doc catalog ->
    config_tabConfig doc = Some entries ->
    In (t, config) entries ->
    onlyCategoryCondition (normalize natureDemandeValue) config = true ->
    exists doc' entries' t' config',
      router catalog natureDemandeValue = Some t'
      /\ In doc' catalog
      /\ config_tabConfig doc' = Some entries'
      /\ In (t', config') entries'
      /\ onlyCategoryCondition (normalize natureDemandeValue) config' = true.

Definition getActiveTabId (DOCUMENTS_CONFIG : list DocumentConfig)
    (st : State) : option string :=
  if isEmpty (natureDemande st) then None
  else getTabForNatureDemande DOCUMENTS_CONFIG (natureDemande st).

(** *** Visibility filter *)

(** A tab id as a condition: [null] and the empty string are falsy. *)
Definition truthyTab (tabId : option string) : option string :=
  match tabId with
  | Some t => if isEmpty t then None else Some t
  | None => None
  end.

(** [propsForConditions] of [getVisibleDocuments]. *)
Definition propsForConditions (st : State) : Properties :=
  if negb (isEmpty (natureDemande st))
     && negb (truthy (get (recordProperties st) "sous_categorie"))
  then Js.set "sous_categorie" (JsPrim (SStr (natureDemande st)))
              (recordProperties st)
  else recordProperties st.

(** The callback given to [documents.filter]. *)
Definition isVisible (st : State) (activeTabId : option string)
    (props : Properties) (doc : Document) : bool :=
  let conditionsMet := checkDocumentConditions doc props (truthyTab activeTabId) in
  if String.eqb (selectedTab st) "autre" then
    if required doc || provided doc then
      match truthyTab activeTabId with
      | Some t =>
          if conditionsMet && documentBelongsToTab doc t then false else true
      | None => true
      end
    else
      match truthyTab activeTabId with
      | None => false
      | Some t =>
          if negb (documentBelongsToTab doc t) then false
          else negb conditionsMet
      end
  else
    let tabToCheck :=
      match truthyTab activeTabId with
      | Some t => if String.eqb (selectedTab st) t then t else selectedTab st
      | None => selectedTab st
      end in
    if negb (documentBelongsToTab doc tabToCheck) then false
    else conditionsMet || (required doc && provided doc).

(** [Array.prototype.sort] with the comparator [orderA - orderB]: a stable
    sort on the order key. *)
Fixpoint insertByOrder (key : Document -> Z) (x : Document)
    (sorted : list Document) : list Document :=
  match sorted with
  | [] => [x]
  | y :: rest =>
      if (key x <=? key y)%Z then x :: y :: rest
      else y :: insertByOrder key x rest
  end.

Definition sortByOrder (key : Document -> Z) (l : list Document)
  : list Document :=
  fold_right (insertByOrder key) [] l.

Definition getVisibleDocuments (DOCUMENTS_CONFIG : list DocumentConfig)
    (st : State) : list Document :=
  match documents st with
  | [] => []
  | _ :: _ =>
      let activeTabId := getActiveTabId DOCUMENTS_CONFIG st in
      let props := propsForConditions st in
      let visible := filter (isVisible st activeTabId props) (documents st) in
      let filtered :=
        if negb (isEmpty (trim (searchTerm st))) then
          filter (fun doc =>
                    includes (toLowerCase (name doc))
                             (toLowerCase (searchTerm st)))
                 visible
        else visible in
      sortByOrder (fun doc => getOrderForTab doc (selectedTab st)) filtered
  end.

(** *** Completion calculator *)

(** The filter of [requiredDocs] in [calculateProgress]. *)
Definition countsAsRequired (recordProperties : Properties) (doc : Document)
  : bool :=
  if required doc then true
  else if hasConditions doc
       then checkDocumentConditions doc recordProperties None
       else false.

(** [Math.round((providedCount / requiredCount) * 100)], in binary64 as
    the code computes it: the quotient is rounded, then the product. *)
Definition roundedPercent (providedCount requiredCount : nat) : nat :=
  Z.to_nat
    (Double.round
       (Double.mul
          (Double.div (Double.ofInteger (Z.of_nat providedCount))
                      (Double.ofInteger (Z.of_nat requiredCount)))
          (Double.ofInteger 100))).

Record Progress : Type := mkProgress {
  progress_provided : nat;
  progress_required : nat;
  percentage : nat
}.

Definition calculateProgress (recordProperties : Properties)
    (docs : list Document) : Progress :=
  let requiredDocs := filter (countsAsRequired recordProperties) docs in
  let providedDocs := filter provided requiredDocs in
  let requiredCount := List.length requiredDocs in
  let providedCount := List.length providedDocs in
  let pct :=
    if (0 <? requiredCount)%nat
    then roundedPercent providedCount requiredCount
    else 100 in
  mkProgress providedCount requiredCount pct.



End DocumentList.

(** ** View router of the legacy catalog layout

    The second text of [DocumentList.tsx] keeps, for each document, one
    list of conditions and a [tab] that is a name or a list of names. *)

Module LegacyDocumentList.

Import Evaluator.

(** [tab: string | string[]] *)
Inductive TabField : Type :=
| TabOne (t : string)
| TabMany (ts : list string).

(** [order?: number | number[]] *)
Inductive OrderField : Type :=
| OrderOne (n : Z)
| OrderMany (ns : list Z).

(** [interface DocumentConfig] *)
Record DocumentConfig : Type := mkDocumentConfig {
  id : string;
  name : string;
  requiredProperty : string;
  providedProperty : string;
  tab : TabField;
  order : option OrderField;
  conditions : option (list DocumentCondition)
}.

(** [Array.isArray(tab) ? tab[0] : tab]; an empty list has no first item. *)
Definition getTabValue (t : TabField) : option string :=
  match t with
  | TabOne s => Some s
  | TabMany ts => hd_error ts
  end.

(** [Array.isArray(doc.tab) ? doc.tab : [doc.tab]] *)
Definition tabsOf (t : TabField) : list string :=
  match t with
  | TabOne s => [s]
  | TabMany ts => ts
  end.

Definition normalize (str : string) : string :=
  collapseWhiteSpace (trim str).

Definition isCategoryCondition (normalizedValue : string)
    (condition : DocumentCondition) : bool :=
  String.eqb (property condition) "sous_categorie"
  && String.eqb (operator condition) "equals"
  && String.eqb (normalize (value condition)) normalizedValue.

(** The predicate of [DOCUMENTS_CONFIG.filter] that builds [matchingDocs]. *)
Definition isMatchingDoc (normalizedValue : string) (doc : DocumentConfig)
  : bool :=
  match conditions doc with
  | None => false
  | Some [] => false
  | Some cs => existsb (isCategoryCondition normalizedValue) cs
  end.

(** [doc.conditions.filter(c => c.property === 'sous_categorie' &&
    c.operator === 'equals')] *)
Definition sousConditions (doc : DocumentConfig) : list DocumentCondition :=
  filter (fun c => String.eqb (property c) "sous_categorie"
                   && String.eqb (operator c) "equals")
         (match conditions doc with Some cs => cs | None => [] end).

Definition hasSingleCondition (doc : DocumentConfig) : bool :=
  (List.length (sousConditions doc) =? 1)%nat.

Definition hasString (x : string) (l : list string) : bool :=
  existsb (String.eqb x) l.

(** The predicate that selects [naturalisationDoc]. *)
Definition isNaturalisationDoc (doc : DocumentConfig) : bool :=
  let tabs := tabsOf (tab doc) in
  hasString "naturalisation_mariage" tabs && negb (hasString "decret" tabs).

Definition hasSeveralTabs (t : TabField) : bool :=
  match t with
  | TabOne _ => false
  | TabMany ts => (1 <? List.length ts)%nat
  end.

(** The branch taken when [docToUse.tab] lists more than one tab. *)
Definition chooseAmongTabs (normalizedValue : string)
    (matchingDocs : list DocumentConfig) (docToUse : DocumentConfig)
  : option string :=
  let naturalisationDoc := find isNaturalisationDoc matchingDocs in
  let lowered := toLowerCase normalizedValue in
  if (match naturalisationDoc with Some _ => true | None => false end)
     && includes lowered "naturalisation"
  then Some "naturalisation_mariage"
  else if includes lowered "décret" || includes lowered "decret"
       then Some "decret"
       else getTabValue (tab docToUse).

Definition getTabForNatureDemande (DOCUMENTS_CONFIG : list DocumentConfig)
    (natureDemandeValue : string) : option string :=
  if isEmpty natureDemandeValue then None
  else
    let normalizedValue := normalize natureDemandeValue in
    let matchingDocs := filter (isMatchingDoc normalizedValue) DOCUMENTS_CONFIG in
    match matchingDocs with
    | [] => None
    | first :: _ =>
        let docWithSingleCondition := find hasSingleCondition matchingDocs in
        let docToUse :=
          match docWithSingleCondition with
          | Some d => d
          | None => first
          end in
        if hasSeveralTabs (tab docToUse)
        then chooseAmongTabs normalizedValue matchingDocs docToUse
        else getTabValue (tab docToUse)
    end.

(** The document the router prefers among the matching ones: the first
    with exactly one category condition, else the first. *)
Definition Preferred (matchingDocs : list DocumentConfig)
    (chosen : DocumentConfig) : Prop :=
  (exists before after,
     matchingDocs = (before ++ chosen :: after)%list
     /\ Forall (fun d => hasSingleCondition d = false) before
     /\ hasSingleCondition chosen = true)
  \/ (Forall (fun d => hasSingleCondition d = false) matchingDocs
      /\ hd_error matchingDocs = Some chosen).

End LegacyDocumentList.

(** ** Field names in the error payload of the record store *)

Module ErrorPayload.

(** The double quote. *)
Definition quote : ascii := "034"%char.

Definition prefixIgnoringCase (p s : string) : bool :=
  prefix (toLowerCase p) (toLowerCase s).

Fixpoint drop (n : nat) (s : string) : string :=
  match n, s with
  | O, _ => s
  | S k, String _ r => drop k r
  | S _, EmptyString => EmptyString
  end.

(** A text without a quote. *)
Definition noQuote (s : string) : Prop :=
  forall c, In c (list_ascii_of_string s) -> c <> quote.

(** The longest run of characters other than the quote, and what follows. *)
Fixpoint spanNotQuote (s : string) : string * string :=
  match s with
  | EmptyString => (EmptyString, EmptyString)
  | String c r =>
      if Ascii.eqb c quote then (EmptyString, s)
      else let (run, rest) := spanNotQuote r in (String c run, rest)
  end.

(** A quoted name at the head of [s] (a quote, one or more characters
    other than the quote, a quote): the captured name and the text after
    the closing quote. *)
Definition quotedName (s : string) : option (string * string) :=
  match s with
  | String c r =>
      if Ascii.eqb c quote then
        let (run, rest) := spanNotQuote r in
        if isEmpty run then None
        else match rest with
             | String _ after => Some (run, after)
             | EmptyString => None
             end
      else None
  | EmptyString => None
  end.

(** The last position of [hay] at which [needle] starts, letter case
    ignored. *)
Fixpoint lastIndexIgnoringCase (needle hay : string) : option nat :=
  match hay with
  | EmptyString => if prefixIgnoringCase needle hay then Some 0 else None
  | String _ r =>
      match lastIndexIgnoringCase needle r with
      | Some i => Some (S i)
      | None => if prefixIgnoringCase needle hay then Some 0 else None
      end
  end.

(** A pattern tried at the head of a text: the captured name and the
    length of the match. *)
Definition MatchAt : Type := string -> option (string * nat).

(** First pattern: a quoted name followed by the words
    [ does not exist], letter case respected. *)
Definition quotedDoesNotExist : MatchAt := fun s =>
  match quotedName s with
  | Some (name, after) =>
      if prefix " does not exist" after
      then Some (name, 1 + length name + 1 + 15)
      else None
  | None => None
  end.

(** Second pattern: the word [property], a blank, a quoted name and the
    words [ does not exist], letter case ignored. *)
Definition propertyDoesNotExist : MatchAt := fun s =>
  if prefixIgnoringCase "property " s then
    match quotedName (drop 9 s) with
    | Some (name, after) =>
        if prefixIgnoringCase " does not exist" after
        then Some (name, 9 + (1 + length name + 1 + 15))
        else None
    | None => None
    end
  else None.

(** Third pattern: a quoted name, any characters other than the quote,
    and the words [does not exist], letter case ignored.  The greedy run
    stops at the last place where the words follow. *)
Definition quotedThenDoesNotExist : MatchAt := fun s =>
  match quotedName s with
  | Some (name, after) =>
      let (run, _) := spanNotQuote after in
      match lastIndexIgnoringCase "does not exist" run with
      | Some i => Some (name, 1 + length name + 1 + i + 14)
      | None => None
      end
  | None => None
  end.

(** The loop [while ((match = pattern.exec(text)) !== null)] of a global
    pattern: the captures of the successive matches, each search starting
    where the last match ended.  [skip] counts the characters of the
    current match still to pass. *)
Fixpoint execAllFrom (pattern : MatchAt) (skip : nat) (text : string)
  : list string :=
  match text with
  | EmptyString => []
  | String _ r =>
      match skip with
      | S k => execAllFrom pattern k r
      | O =>
          match pattern text with
          | Some (name, len) => name :: execAllFrom pattern (len - 1) r
          | None => execAllFrom pattern 0 r
          end
      end
  end.

Definition execAll (pattern : MatchAt) (text : string) : list string :=
  execAllFrom pattern 0 text.

(** A [Set<string>] in insertion order. *)
Definition StringSet : Type := list string.

Definition setAdd (failed : StringSet) (x : string) : StringSet :=
  if existsb (String.eqb x) failed then failed else (failed ++ [x])%list.

Definition setAddAll (failed : StringSet) (xs : list string) : StringSet :=
  fold_left setAdd xs failed.

(** Run each pattern of a list over a text and collect the names. *)
Definition collectMatches (patterns : list MatchAt) (text : string)
    (failed : StringSet) : StringSet :=
  fold_left (fun acc pattern => setAddAll acc (execAll pattern text))
            patterns failed.

(** [err.context.propertyName]: a name or a list of names. *)
Inductive PropertyName : Type :=
| NameOne (s : string)
| NameMany (names : list string).

(** One entry of [body.errors]; a member that is missing is [None]. *)
Record ErrorEntry : Type := mkErrorEntry {
  context_propertyName : option PropertyName;
  entry_name : option string;
  entry_message : option string
}.

(** [error.body] *)
Inductive Body : Type :=
| BodyAbsent
| BodyString (s : string)
| BodyObject (errors : option (list ErrorEntry)) (message : option string).

Definition bodyTruthy (b : Body) : bool :=
  match b with
  | BodyAbsent => false
  | BodyString s => negb (isEmpty s)
  | BodyObject _ _ => true
  end.

(** The exception thrown by [basicApi.update]. *)
Record ApiError : Type := mkApiError {
  statusCode : option Z;
  code : option Z;
  body : Body;
  error_message : string
}.

Definition isStatus (n : Z) (field : option Z) : bool :=
  match field with
  | Some m => (m =? n)%Z
  | None => false
  end.

(** The names under [err.context.propertyName], when the member is there and
    truthy. *)
Definition contextNames (entry : ErrorEntry) : list string :=
  match context_propertyName entry with
  | Some (NameMany names) => names
  | Some (NameOne s) => if isEmpty s then [] else [s]
  | None => []
  end.

Definition truthyString (o : option string) : option string :=
  match o with
  | Some s => if isEmpty s then None else Some s
  | None => None
  end.

(** A name captured by one of the patterns in a text, and in the message
    of an entry. *)
Definition matchedIn (patterns : list MatchAt) (text x : string) : Prop :=
  exists pattern, In pattern patterns /\ In x (execAll pattern text).

Definition namedInMessage (patterns : list MatchAt) (entry : ErrorEntry)
    (x : string) : Prop :=
  exists m, truthyString (entry_message entry) = Some m
            /\ matchedIn patterns m x.

End ErrorPayload.

(** ** Full save of the document flags ([updateDocuments.js]) *)

(** What the two texts of [updateDocuments.js] share: the outgoing batch,
    the record store and the value returned to the caller. *)
Module Store.

Import ErrorPayload.

(** The [properties] object sent to the store. *)
Definition Batch : Type := Dict JsValue.

(** The value [basicApi.update] resolves to; only its [id] is read. *)
Record UpdateResponse : Type := mkUpdateResponse {
  response_id : option string
}.

Inductive Response : Type :=
| Updated (response : UpdateResponse)
| Thrown (error : ApiError).

(** The record store as seen by one run of the function: the answer to
    the call number [n] (from 0) made with a given batch. *)
Definition RecordStore : Type := nat -> Batch -> Response.

(** The [message] of a result: a fixed text, or the text the function
    formats from the error it caught. *)
Inductive Message : Type :=
| Text (s : string)
| FormattedFrom (error : ApiError).

Inductive Data : Type :=
| NoData
| EmptyObject
| ResponseData (response : UpdateResponse).

Record Result : Type := mkResult {
  status : string;
  message : Message;
  data : Data
}.

(** What the entry point reads from its [context]: the outcome of each
    chain of alternatives. *)
Record Context : Type := mkContext {
  token : option string;
  hs_object_id : JsValue;
  documents : option (Dict JsValue)
}.

Definition tokenMissing (ctx : Context) : bool :=
  match token ctx with
  | Some t => isEmpty t
  | None => true
  end.

(** [String(id)], then the part after the last dash when there is one. *)
Definition objectInstanceId (ctx : Context) : string :=
  let s := toString (hs_object_id ctx) in
  if includes s "-" then last (split "-" s) EmptyString else s.

(** One round of the loop that fills [properties] from [documents]. *)
Definition addProperty (documents : Dict JsValue) (properties : Batch)
    (key : string) : Batch :=
  match get documents key with
  | JsPrim (SBool b) =>
      Js.set key (JsPrim (SStr (if b then "true" else "false"))) properties
  | JsPrim SNull | JsPrim SUndefined => properties
  | JsPrim (SStr s) =>
      if isEmpty s then properties else Js.set key (JsPrim (SStr s)) properties
  | v => Js.set key v properties
  end.

Definition buildProperties (documents : Dict JsValue) : Batch :=
  fold_left (addProperty documents) (keys documents) [].

Definition isEmptyBatch (properties : Batch) : bool :=
  match properties with [] => true | _ :: _ => false end.

Definition updatedSuccessfully (response : UpdateResponse) : Result :=
  mkResult "success" (Text "Documents updated successfully")
           (ResponseData response).

Definition objectNotFound : Result :=
  mkResult "success" (Text "Object not found, update skipped") NoData.

Definition noPropertiesToUpdate : Result :=
  mkResult "success" (Text "No properties to update") EmptyObject.

Definition caught (error : ApiError) : Result :=
  mkResult "error" (FormattedFrom error) NoData.

End Store.

(** *** First text: nested retries *)

Module UpdateDocuments.

Import ErrorPayload Store.

Definition patterns : list MatchAt :=
  [quotedDoesNotExist; propertyDoesNotExist; quotedThenDoesNotExist].

(** The callback of [firstErr.body.errors.forEach]. *)
Definition addFromEntry (failedProperties : StringSet) (err : ErrorEntry)
  : StringSet :=
  let s1 := setAddAll failedProperties (contextNames err) in
  let s2 := match truthyString (entry_name err) with
            | Some n => setAdd s1 n
            | None => s1
            end in
  match truthyString (entry_message err) with
  | Some m => collectMatches patterns m s2
  | None => s2
  end.

(** [failedProperties] after the first failure. *)
Definition failedPropertiesOf (b : Body) : StringSet :=
  match b with
  | BodyString s => collectMatches patterns s []
  | BodyObject (Some errors) _ => fold_left addFromEntry errors []
  | _ => []
  end.

(** [moreFailedProps] after the failure of the first retry. *)
Definition moreFailedPropsOf (b : Body) : StringSet :=
  match b with
  | BodyObject (Some errors) _ =>
      fold_left (fun acc err => setAddAll acc (contextNames err)) errors []
  | _ => []
  end.

(** [names.forEach(prop => { if (properties[prop] !== undefined)
    delete properties[prop] })] *)
Definition deleteDefined (names : StringSet) (properties : Batch) : Batch :=
  fold_left (fun acc prop =>
               if isUndefined (get acc prop) then acc else remove prop acc)
            names properties.

Definition updateSkipped : Result :=
  mkResult "success" (Text "Update skipped - all properties do not exist")
           EmptyObject.

(** Each step returns the result with the batches it sent, in order. *)
Definition secondRetry (store : RecordStore) (properties : Batch)
  : Result * list Batch :=
  match store 2 properties with
  | Updated response => (updatedSuccessfully response, [properties])
  | Thrown error => (caught error, [properties])
  end.

Definition firstRetry (store : RecordStore) (properties : Batch)
  : Result * list Batch :=
  match store 1 properties with
  | Updated response => (updatedSuccessfully response, [properties])
  | Thrown retryErr =>
      if isStatus 400 (statusCode retryErr) && bodyTruthy (body retryErr) then
        let moreFailedProps := moreFailedPropsOf (body retryErr) in
        let properties' := deleteDefined moreFailedProps properties in
        if negb (isEmptyBatch properties') then
          let (result, sent) := secondRetry store properties' in
          (result, properties :: sent)
        else (updateSkipped, [properties])
      else (caught retryErr, [properties])
  end.

Definition updateWithRetry (store : RecordStore) (properties : Batch)
  : Result * list Batch :=
  match store 0 properties with
  | Updated response => (updatedSuccessfully response, [properties])
  | Thrown firstErr =>
      if isStatus 404 (statusCode firstErr) || isStatus 404 (code firstErr)
      then (objectNotFound, [properties])
      else if isStatus 400 (statusCode firstErr) && bodyTruthy (body firstErr)
      then
        let failedProperties := failedPropertiesOf (body firstErr) in
        match failedProperties with
        | _ :: _ =>
            let properties' := deleteDefined failedProperties properties in
            if negb (isEmptyBatch properties') then
              let (result, sent) := firstRetry store properties' in
              (result, properties :: sent)
            else (updateSkipped, [properties])
        | [] => (caught firstErr, [properties])
        end
      else (caught firstErr, [properties])
  end.

(** [exports.main] *)
Definition main (store : RecordStore) (ctx : Context) : Result * list Batch :=
  if tokenMissing ctx then
    (mkResult "error" (Text "API key not found") NoData, [])
  else
    match documents ctx with
    | None =>
        (mkResult "error"
           (Text "Missing required parameters (object ID, token, or documents)")
           NoData, [])
    | Some docs =>
        if isEmpty (objectInstanceId ctx) then
          (mkResult "error"
             (Text "Missing required parameters (object ID, token, or documents)")
             NoData, [])
        else
          let properties := buildProperties docs in
          if isEmptyBatch properties then (noPropertiesToUpdate, [])
          else updateWithRetry store properties
    end.

End UpdateDocuments.

(** *** Second text: a loop with a retry counter *)

Module UpdateDocumentsLoop.

Import ErrorPayload Store.

Definition patterns : list MatchAt :=
  [quotedDoesNotExist; propertyDoesNotExist].

(** The callback of [body.errors.forEach]. *)
Definition addFromEntry (failed : StringSet) (err : ErrorEntry) : StringSet :=
  let s1 := setAddAll failed (contextNames err) in
  match truthyString (entry_message err) with
  | Some m => collectMatches patterns m s1
  | None => s1
  end.

Definition extractFailedProperties (error : ApiError) : StringSet :=
  match body error with
  | BodyAbsent => []
  | BodyString s => if isEmpty s then [] else collectMatches patterns s []
  | BodyObject (Some errors) _ => fold_left addFromEntry errors []
  | BodyObject None _ => []
  end.

(** [failed.forEach(prop => delete properties[prop])] *)
Definition deleteAll (names : StringSet) (properties : Batch) : Batch :=
  fold_left (fun acc prop => remove prop acc) names properties.

Definition updateSkipped : Result :=
  mkResult "success" (Text "Update skipped - properties do not exist")
           EmptyObject.

(** The message built when the loop ends without success. *)
Definition failedAfterRetries (properties : Batch) : Result :=
  let remainingProps := keys properties in
  mkResult "error"
    (Text ("Update failed after retries. Remaining properties: "
           ++ join ", " (firstn 5 remainingProps)
           ++ (if (5 <? List.length remainingProps)%nat then "..."
               else EmptyString)))
    NoData.

(** [while (retries > 0 && !updateSuccess)]: [attempt] counts the calls
    made so far. *)
Fixpoint updateLoop (store : RecordStore) (retries attempt : nat)
    (properties : Batch) : Result * list Batch :=
  match retries with
  | O => (failedAfterRetries properties, [])
  | S retries' =>
      match store attempt properties with
      | Updated response => (updatedSuccessfully response, [properties])
      | Thrown err =>
          if isStatus 404 (statusCode err) then (objectNotFound, [properties])
          else if isStatus 400 (statusCode err) then
            let failed := extractFailedProperties err in
            match failed with
            | _ :: _ =>
                let properties' := deleteAll failed properties in
                if isEmptyBatch properties' then (updateSkipped, [properties])
                else
                  let (result, sent) :=
                    updateLoop store retries' (S attempt) properties' in
                  (result, properties :: sent)
            | [] => (caught err, [properties])
            end
          else (caught err, [properties])
      end
  end.

(** [exports.main] *)
Definition main (store : RecordStore) (ctx : Context) : Result * list Batch :=
  if tokenMissing ctx then
    (mkResult "error" (Text "API key not found") NoData, [])
  else
    match documents ctx with
    | None =>
        (mkResult "error" (Text "Missing required parameters") NoData, [])
    | Some docs =>
        if isEmpty (objectInstanceId ctx) then
          (mkResult "error" (Text "Missing required parameters") NoData, [])
        else
          let properties := buildProperties docs in
          if isEmptyBatch properties then (noPropertiesToUpdate, [])
          else updateLoop store 2 0 properties
    end.

End UpdateDocumentsLoop.

(** ** Scenarios

    The catalogs, bags and stores on which the theorems below are run. *)

Module Scenarios.

Import Evaluator ErrorPayload Store.

Definition categoryIs (v : string) : DocumentCondition :=
  mkCondition "sous_categorie" "equals" v.

(** One document, required when the category is [X], in the view
    [decret]. *)
Definition d1Config : DocumentList.DocumentConfig :=
  DocumentList.mkDocumentConfig "d1" "Passeport" "d1_required" "d1_provided"
    (Some [("decret",
            DocumentList.mkTabConfig (Some 1%Z) (Some [categoryIs "X"]))]).

Definition catalogD1 : list DocumentList.DocumentConfig := [d1Config].

Definition bagX (d1Provided : string) : Properties :=
  [("sous_categorie", JsPrim (SStr "X"));
   ("d1_required", JsPrim (SStr "false"));
   ("d1_provided", JsPrim (SStr d1Provided))].

Definition bagY : Properties :=
  [("sous_categorie", JsPrim (SStr "Y"));
   ("d1_required", JsPrim (SStr "true"));
   ("d1_provided", JsPrim (SStr "true"))].

(** A document without conditions. *)
Definition plainConfig (id name : string) : DocumentList.DocumentConfig :=
  DocumentList.mkDocumentConfig id name (id ++ "_required")
    (id ++ "_provided") None.

(** Three documents under the bag [bagX "true"]: the first is provided
    and its conditions are met, but its required flag is off; the other
    two are flagged required and not provided. *)
Definition uncheckedButMet : list DocumentList.Document :=
  [DocumentList.withRequired
     (DocumentList.fetchedDocument (bagX "true")
        (DocumentList.initialDocument d1Config)) false;
   DocumentList.withRequired
     (DocumentList.initialDocument (plainConfig "d2" "Titre de sejour")) true;
   DocumentList.withRequired
     (DocumentList.initialDocument (plainConfig "d3" "Acte de naissance"))
     true].

(** The component state after a fetch of [bag], showing the view [tab]. *)
Definition stateAfterFetch (bag : Properties) (tab : string)
  : DocumentList.State :=
  DocumentList.mkState (DocumentList.fetchedDocuments catalogD1 bag) bag tab
    EmptyString
    (trim (toString (get bag "sous_categorie"))).

(** A catalog of two documents: the first is asked for in two
    categories, in the view [decret]; the second has the category
    condition alone, in the view [naturalisation_mariage]. *)
Definition decretView : DocumentList.TabConfig :=
  DocumentList.mkTabConfig (Some 1%Z)
    (Some [categoryIs "Mariage"; categoryIs "Decret"]).

Definition mariageView : DocumentList.TabConfig :=
  DocumentList.mkTabConfig (Some 1%Z) (Some [categoryIs "Mariage"]).

Definition acteDeMariage : DocumentList.DocumentConfig :=
  DocumentList.mkDocumentConfig "acte_de_mariage" "Acte de mariage"
    "acte_de_mariage_required" "acte_de_mariage_provided"
    (Some [("decret", decretView)]).

Definition livretDeFamille : DocumentList.DocumentConfig :=
  DocumentList.mkDocumentConfig "livret_de_famille" "Livret de famille"
    "livret_de_famille_required" "livret_de_famille_provided"
    (Some [("naturalisation_mariage", mariageView)]).

Definition twoCandidates : list DocumentList.DocumentConfig :=
  [acteDeMariage; livretDeFamille].

(** The same two documents in the legacy layout. *)
Definition legacyActe : LegacyDocumentList.DocumentConfig :=
  LegacyDocumentList.mkDocumentConfig "acte_de_mariage" "Acte de mariage"
    "acte_de_mariage_required" "acte_de_mariage_provided"
    (LegacyDocumentList.TabOne "decret") None
    (Some [categoryIs "Mariage"; categoryIs "Decret"]).

Definition legacyLivret : LegacyDocumentList.DocumentConfig :=
  LegacyDocumentList.mkDocumentConfig "livret_de_famille" "Livret de famille"
    "livret_de_famille_required" "livret_de_famille_provided"
    (LegacyDocumentList.TabOne "naturalisation_mariage") None
    (Some [categoryIs "Mariage"]).

Definition legacyCandidates : list LegacyDocumentList.DocumentConfig :=
  [legacyActe; legacyLivret].

(** The flags of two documents, as the caller passes them to the save. *)
Definition flagsToSave : Dict JsValue :=
  [("foo_required", JsPrim (SBool true));
   ("foo_provided", JsPrim (SBool false));
   ("bar_required", JsPrim (SBool true));
   ("bar_provided", JsPrim (SBool true))].

Definition saveContext : Context :=
  mkContext (Some "pat-eu1") (JsPrim (SStr "0-123")) (Some flagsToSave).

(** The error of the store for one field that does not exist. *)
Definition fieldDoesNotExist (k : string) : ApiError :=
  mkApiError (Some 400%Z) None
    (BodyObject
       (Some [mkErrorEntry (Some (NameOne k)) None
                (Some ("Property " ++ String quote k ++ String quote
                         " does not exist"))])
       (Some "Property values were not valid"))
    "HTTP-Code: 400".

Definition accepted : Response := Updated (mkUpdateResponse (Some "123")).

(** A store that rejects the first field of every batch it is sent. *)
Definition rejectsFirstField : RecordStore := fun _ batch =>
  match batch with
  | (k, _) :: _ => Thrown (fieldDoesNotExist k)
  | [] => accepted
  end.

(** A store without the field [foo_required]. *)
Definition withoutFooRequired : RecordStore := fun _ batch =>
  if has "foo_required" batch then Thrown (fieldDoesNotExist "foo_required")
  else accepted.

(** A store in which the record is gone. *)
Definition recordGone : RecordStore := fun _ _ =>
  Thrown (mkApiError (Some 404%Z) None BodyAbsent "Not Found").

End Scenarios.

(** ** The rest of the checklist component ([DocumentList.tsx], first text) *)

From Stdlib Require Import Sorted.

Module Checklist.

Import Evaluator DocumentList.

(** *** Missing documents *)

(** The callback given to [docs.filter] in [calculateMissingDocuments] and
    in [getMissingDocumentsList]. *)
Definition isMissing (propsToUse : Properties) (doc : Document) : bool :=
  let conditionsMet := checkDocumentConditions doc propsToUse None in
  let hasConds := hasConditions doc in
  let isRequired :=
    required doc || (if hasConds then conditionsMet else false) in
  isRequired && negb (provided doc).

Definition getMissingDocumentsList (docs : list Document)
    (propsToUse : Properties) : list string :=
  filter (fun docName => negb (String.eqb (trim docName) EmptyString))
         (map name (filter (isMissing propsToUse) docs)).

(** The HTML list stored in the rich-text property [missing_doc]. *)
Definition calculateMissingDocuments (docs : list Document)
    (propsToUse : Properties) : string :=
  let missingDocs := getMissingDocumentsList docs propsToUse in
  match missingDocs with
  | [] => EmptyString
  | _ :: _ =>
      let listItems :=
        join EmptyString
             (map (fun docName => "<li>" ++ docName ++ "</li>") missingDocs) in
      "<ul>" ++ listItems ++ "</ul>"
  end.

(** *** Unsaved changes *)

(** The component state of the claims with the baseline of the last fetch
    and the aggregates shown next to the list. *)
Record Session : Type := mkSession {
  state : State;
  initialDocuments : list Document;
  isCompleted : bool;
  dossierState : string;
  initialCompletionStatus : bool;
  initialDossierState : string;
  isChanged : bool
}.

(** [{ ...state, documents: docs }] *)
Definition withDocuments (st : State) (docs : list Document) : State :=
  mkState docs (recordProperties st) (selectedTab st) (searchTerm st)
          (natureDemande st).

(** [setSelectedTab(id); setSearchTerm('')], the handler of the tab bar. *)
Definition selectTab (st : State) (tabId : string) : State :=
  mkState (documents st) (recordProperties st) tabId EmptyString
          (natureDemande st).

(** The callback of [some] that compares a document with the one at the
    same index of [initialDocuments]. *)
Definition differsFromInitial (initial : list Document)
    (indexed : nat * Document) : bool :=
  match nth_error initial (fst indexed) with
  | None => true
  | Some initialDoc =>
      negb (Bool.eqb (required (snd indexed)) (required initialDoc))
      || negb (Bool.eqb (provided (snd indexed)) (provided initialDoc))
  end.

(** [current.some((currentDoc, index) => ...)] *)
Definition documentsChanged (current initial : list Document) : bool :=
  existsb (differsFromInitial initial)
          (combine (seq 0 (List.length current)) current).

(** The value [checkForChanges] gives to [setIsChanged]. *)
Definition checkForChanges (s : Session) : bool :=
  let completionChanged :=
    negb (Bool.eqb (isCompleted s) (initialCompletionStatus s)) in
  let dossierStateChanged :=
    negb (String.eqb (dossierState s) (initialDossierState s)) in
  completionChanged || dossierStateChanged
  || documentsChanged (documents (state s)) (initialDocuments s).

(** The state updater of [handleCheckboxToggle], with the aggregates and
    the flag of unsaved changes it sets. *)
Definition toggle (s : Session) (documentId : string) (field : Field)
    (checked : bool) : Session :=
  let outcome := handleCheckboxToggle (state s) documentId field checked in
  let label := DOSSIER_STATES (newDossierState outcome) in
  let completionChanged :=
    negb (Bool.eqb (newCompletionStatus outcome) (initialCompletionStatus s)) in
  let dossierStateChanged :=
    negb (String.eqb label (initialDossierState s)) in
  mkSession (withDocuments (state s) (newDocs outcome))
            (initialDocuments s)
            (newCompletionStatus outcome)
            label
            (initialCompletionStatus s)
            (initialDossierState s)
            (completionChanged || dossierStateChanged
             || documentsChanged (newDocs outcome) (initialDocuments s)).

Definition resetChanges (s : Session) : Session :=
  mkSession (withDocuments (state s) (initialDocuments s))
            (initialDocuments s)
            (initialCompletionStatus s)
            (initialDossierState s)
            (initialCompletionStatus s)
            (initialDossierState s)
            false.

(** The baseline of a session agrees with its own documents: the initial
    aggregates are those computed from [initialDocuments], which has one
    entry per document. *)
Definition Baseline (s : Session) : Prop :=
  initialCompletionStatus s = checkCompletion (initialDocuments s)
  /\ initialDossierState s
     = DOSSIER_STATES (calculateDossierState (initialDocuments s))
  /\ List.length (documents (state s)) = List.length (initialDocuments s).

(** A document without what a fetch or a toggle can change. *)
Definition unflagged (doc : Document) : Document :=
  mkDocument (id doc) (name doc) false false (requiredProperty doc)
             (providedProperty doc) (tabConfig doc) None None.

(** A list is the catalog, flags apart, or nothing. *)
Definition ListsTheCatalog (DOCUMENTS_CONFIG : list DocumentConfig)
    (docs : list Document) : Prop :=
  docs = [] \/ map unflagged docs = INITIAL_DOCUMENTS DOCUMENTS_CONFIG.

(** The two flags of a document. *)
Definition flags (doc : Document) : bool * bool :=
  (required doc, provided doc).

(** *** Fetch *)

(** [getPropValue(obj, needle)]: the value under the first key that equals
    the needle or contains it, letter case ignored. *)
Definition getPropValue (obj : Properties) (needle : string) : JsValue :=
  let lower := toLowerCase needle in
  let hitKey :=
    find (fun k => String.eqb (toLowerCase k) lower
                   || includes (toLowerCase k) lower)
         (keys obj) in
  match hitKey with
  | Some k => if isEmpty k then undefined else get obj k
  | None => undefined
  end.

(** The three ways [fetchDocumentValues] looks for the category, and the
    text it keeps: [(nd || '').toString().trim()]. *)
Definition resolveNatureDemande (properties : Properties) : string :=
  let nd1 := get properties "sous_categorie" in
  let nd2 :=
    if truthy nd1 then nd1 else getPropValue properties "sous_categorie" in
  let nd3 :=
    if truthy nd2 then nd2
    else
      let sousKeys :=
        filter (fun k => includes (toLowerCase k) "sous"
                         && includes (toLowerCase k) "categorie")
               (keys properties) in
      match sousKeys with
      | k :: _ => get properties k
      | [] => nd2
      end in
  if truthy nd3 then trim (toString nd3) else EmptyString.

(** [properties[DOSSIER_STATE_PROPERTY] || DOSSIER_STATES.TO_BUILD] *)
Definition currentDossierStateOf (properties : Properties) : JsValue :=
  let raw := get properties "etat_du_dossier" in
  if truthy raw then raw else JsPrim (SStr (DOSSIER_STATES TO_BUILD)).

(** [a !== s] for a value and a string. *)
Definition differsFromString (a : JsValue) (s : string) : bool :=
  match a with
  | JsPrim (SStr x) => negb (String.eqb x s)
  | _ => true
  end.

(** What [hubspot.serverless('getDocumentValues', ...)] gives: a promise
    that is rejected, or an answer. *)
Inductive FetchResponse : Type :=
| FetchFailed (error : string)
| Fetched (properties : Properties).

(** The part of [fetchDocumentValues] that follows the check of
    [response.error]: from the answer to the state it leaves. *)
Definition loadProperties (DOCUMENTS_CONFIG : list DocumentConfig)
    (s : Session) (response_properties : Properties) : Session :=
  let completionStatus :=
    toBool (get response_properties "documents_completed") in
  let currentDossierState := currentDossierStateOf response_properties in
  let nd := resolveNatureDemande response_properties in
  let properties :=
    if negb (isEmpty nd)
    then Js.set "sous_categorie" (JsPrim (SStr nd)) response_properties
    else response_properties in
  let tab :=
    if negb (isEmpty nd) then
      match getTabForNatureDemande DOCUMENTS_CONFIG nd with
      | Some tabId => if isEmpty tabId then selectedTab (state s) else tabId
      | None => selectedTab (state s)
      end
    else selectedTab (state s) in
  let updatedDocuments := fetchedDocuments DOCUMENTS_CONFIG properties in
  let calculatedCompletion := checkCompletion updatedDocuments in
  let calculatedDossierState :=
    DOSSIER_STATES (calculateDossierState updatedDocuments) in
  let drift :=
    negb (Bool.eqb calculatedCompletion completionStatus)
    || differsFromString currentDossierState calculatedDossierState in
  mkSession
    (mkState updatedDocuments properties tab (searchTerm (state s)) nd)
    updatedDocuments
    (if drift then calculatedCompletion else completionStatus)
    (if drift then calculatedDossierState
     else toString currentDossierState)
    (if drift then calculatedCompletion else completionStatus)
    (if drift then calculatedDossierState
     else toString currentDossierState)
    false.

(** [fetchDocumentValues], from what the serverless function gives to
    the state it leaves.  A rejected promise and an answer that carries
    an [error] leave the modelled state as it was. *)
Definition fetchDocumentValues (DOCUMENTS_CONFIG : list DocumentConfig)
    (s : Session) (response : FetchResponse) : Session :=
  match response with
  | FetchFailed _ => s
  | Fetched response_properties =>
      if truthy (get response_properties "error") then s
      else loadProperties DOCUMENTS_CONFIG s response_properties
  end.

(** The state before the first fetch: the initial values of the state
    hooks.  [firstTab] is [TABS_CONFIG[0]?.id || 'autre'], from the list of
    [tabs.json]. *)
Definition initialSession (DOCUMENTS_CONFIG : list DocumentConfig)
    (firstTab : string) : Session :=
  mkSession
    (mkState (INITIAL_DOCUMENTS DOCUMENTS_CONFIG) [] firstTab EmptyString
             EmptyString)
    [] false (DOSSIER_STATES TO_BUILD) false (DOSSIER_STATES TO_BUILD) false.

(** *** The handlers as events *)

(** The state updates of a save that succeeded, before the fetch that may
    follow it, when nothing came between the click and the answer: the
    current list and aggregates become the baseline.  [installSaved]
    is the general case, with the list captured at the click. *)
Definition markSaved (s : Session) : Session :=
  mkSession (state s) (documents (state s)) (isCompleted s) (dossierState s)
            (isCompleted s) (dossierState s) false.

Definition withState (s : Session) (st : State) : Session :=
  mkSession st (initialDocuments s) (isCompleted s) (dossierState s)
            (initialCompletionStatus s) (initialDossierState s) (isChanged s).

(** [setSearchTerm(value || '')] *)
Definition search (st : State) (value : string) : State :=
  mkState (documents st) (recordProperties st) (selectedTab st) value
          (natureDemande st).

(** What can happen to the component: an answer to a fetch, a click on a
    checkbox, on the reset button, a save that succeeded, a click on a tab
    and a change of the search field. *)
Inductive Event : Type :=
| Fetch (response : FetchResponse)
| Toggle (documentId : string) (field : Field) (checked : bool)
| Reset
| Saved
| SelectTab (tabId : string)
| Search (value : string).

Definition handle (DOCUMENTS_CONFIG : list DocumentConfig) (s : Session)
    (event : Event) : Session :=
  match event with
  | Fetch response => fetchDocumentValues DOCUMENTS_CONFIG s response
  | Toggle documentId field checked => toggle s documentId field checked
  | Reset => resetChanges s
  | Saved => markSaved s
  | SelectTab tabId => withState s (selectTab (state s) tabId)
  | Search value => withState s (search (state s) value)
  end.

(** The component after a sequence of events, from its first render. *)
Definition run (DOCUMENTS_CONFIG : list DocumentConfig) (firstTab : string)
    (events : list Event) : Session :=
  fold_left (handle DOCUMENTS_CONFIG) events
            (initialSession DOCUMENTS_CONFIG firstTab).

(** The aggregates are those of the documents beside them, and the flag
    of unsaved changes is off exactly when the flags are those of the
    baseline (once there is one). *)
Definition Consistent (DOCUMENTS_CONFIG : list DocumentConfig)
    (s : Session) : Prop :=
  ListsTheCatalog DOCUMENTS_CONFIG (documents (state s))
  /\ ListsTheCatalog DOCUMENTS_CONFIG (initialDocuments s)
  /\ isCompleted s = checkCompletion (documents (state s))
  /\ dossierState s
     = DOSSIER_STATES (calculateDossierState (documents (state s)))
  /\ initialCompletionStatus s = checkCompletion (initialDocuments s)
  /\ initialDossierState s
     = DOSSIER_STATES (calculateDossierState (initialDocuments s))
  /\ (initialDocuments s = []
      \/ (List.length (documents (state s))
          = List.length (initialDocuments s)
          /\ (isChanged s = false
              <-> map flags (documents (state s))
                  = map flags (initialDocuments s)))).

(** *** Rows *)







(** *** Save *)

(** An entry of [seenProperties]. *)
Record Seen : Type := mkSeen {
  seen_docId : string;
  seen_docName : string;
  seen_value : bool;
  seen_isVisible : bool
}.

(** [seenProperties] and [documentProperties] while the documents are
    walked. *)
Definition SaveAccumulator : Type := (Dict Seen * Dict bool)%type.

(** What [saveDocumentChanges] does with one property name of a
    document: the value of a visible document wins over that of a hidden
    one, and otherwise the last value wins. *)
Definition recordProperty (doc : Document) (isVisible : bool)
    (prop : string) (flag : bool) (acc : SaveAccumulator) : SaveAccumulator :=
  let (seenProperties, documentProperties) := acc in
  let entry := mkSeen (id doc) (name doc) flag isVisible in
  match lookup prop seenProperties with
  | Some previous =>
      if isVisible && negb (seen_isVisible previous) then
        (Js.set prop entry seenProperties, Js.set prop flag documentProperties)
      else if negb isVisible && seen_isVisible previous then
        (seenProperties, documentProperties)
      else
        (Js.set prop entry seenProperties, Js.set prop flag documentProperties)
  | None =>
      (Js.set prop entry seenProperties, Js.set prop flag documentProperties)
  end.

(** The callback of [docs.forEach]. *)
Definition recordDocument (visibleDocIds : list string)
    (acc : SaveAccumulator) (doc : Document) : SaveAccumulator :=
  let isVisible := existsb (String.eqb (id doc)) visibleDocIds in
  recordProperty doc isVisible (providedProperty doc) (provided doc)
    (recordProperty doc isVisible (requiredProperty doc) (required doc) acc).

(** [documentProperties] as [saveDocumentChanges] sends it. *)
Definition documentProperties (visibleDocIds : list string)
    (docs : list Document) : Dict bool :=
  snd (fold_left (recordDocument visibleDocIds) docs ([], [])).

(** The [documents] parameter of the serverless function
    [updateDocuments]. *)
Definition documentsParameter (DOCUMENTS_CONFIG : list DocumentConfig)
    (st : State) (docs : list Document) : Dict JsValue :=
  let visibleDocIds := map id (getVisibleDocuments DOCUMENTS_CONFIG st) in
  map (fun kv => (fst kv, JsPrim (SBool (snd kv))))
      (documentProperties visibleDocIds docs).

(** One assignment of the save loop: the document, whether it is
    visible, the property name and the flag. *)
Record Write : Type := mkWrite {
  write_doc : Document;
  write_visible : bool;
  write_property : string;
  write_flag : bool
}.

Definition writesOf (visibleDocIds : list string) (doc : Document)
  : list Write :=
  let isVisible := existsb (String.eqb (id doc)) visibleDocIds in
  [mkWrite doc isVisible (requiredProperty doc) (required doc);
   mkWrite doc isVisible (providedProperty doc) (provided doc)].

Definition applyWrite (acc : SaveAccumulator) (w : Write) : SaveAccumulator :=
  recordProperty (write_doc w) (write_visible w) (write_property w)
                 (write_flag w) acc.

(** The write that decides the value sent for a property: the last one
    by a visible document, and without any, the last one. *)
Definition isWriteOf (prop : string) (visibleOnly : bool) (w : Write) : bool :=
  String.eqb (write_property w) prop && (write_visible w || negb visibleOnly).

Definition lastWrite (prop : string) (visibleOnly : bool) (ws : list Write)
  : option Write :=
  find (isWriteOf prop visibleOnly) (rev ws).

Definition winner (prop : string) (ws : list Write) : option bool :=
  match lastWrite prop true ws with
  | Some w => Some (write_flag w)
  | None => option_map write_flag (lastWrite prop false ws)
  end.

Definition propertyNames (doc : Document) : list string :=
  [requiredProperty doc; providedProperty doc].

(** The text [updateDocuments] stores for a boolean. *)
Definition flagText (b : bool) : JsValue :=
  JsPrim (SStr (if b then "true" else "false")).

(** The flags a fetch gives a document that was saved with the flags of
    [doc], when the bag read back is [bag]. *)
Definition flagsReadBack (bag : Properties) (doc : Document) : bool * bool :=
  ((if hasConditions doc
    then checkDocumentConditions doc bag None || (provided doc && required doc)
    else required doc),
   provided doc).

(** A bag read back from the store holds what a batch wrote. *)
Definition Holds (bag : Properties) (batch : Dict JsValue) : Prop :=
  forall p v, lookup p batch = Some v -> get bag p = v.

(** The entries of [documentProperties] as the component sends them and
    as [updateDocuments] stores them. *)
Definition boolEntry (kv : string * bool) : string * JsValue :=
  (fst kv, JsPrim (SBool (snd kv))).

Definition textEntry (kv : string * bool) : string * JsValue :=
  (fst kv, flagText (snd kv)).

(** What the two dictionaries hold after the writes [ws]. *)
Definition Tracks (ws : list Write) (acc : SaveAccumulator) : Prop :=
  forall prop,
    lookup prop (snd acc) = winner prop ws
    /\ option_map seen_isVisible (lookup prop (fst acc))
       = (if existsb (isWriteOf prop false) ws
          then Some (existsb (isWriteOf prop true) ws)
          else None).

(** *** The rows on the screen *)

(** The comparator given to [.sort] in [renderDocumentsTable]: required
    documents first, then the order number for the selected tab, then
    the name.  [localeCompare] is the collation of the host and is taken
    as a parameter. *)
Definition compareRows (localeCompare : string -> string -> Z)
    (selectedTab : string) (a b : Document) : Z :=
  if required a && negb (required b) then (-1)%Z
  else if negb (required a) && required b then 1%Z
  else
    let orderA := getOrderForTab a selectedTab in
    let orderB := getOrderForTab b selectedTab in
    if negb (orderA =? orderB)%Z then (orderA - orderB)%Z
    else localeCompare (name a) (name b).

(** [Array.prototype.sort(compare)], a stable sort: with a comparator
    that is a consistent order, the list every implementation returns. *)
Fixpoint insertSorted (compare : Document -> Document -> Z) (x : Document)
    (sorted : list Document) : list Document :=
  match sorted with
  | [] => [x]
  | y :: rest =>
      if (compare x y <=? 0)%Z then x :: y :: rest
      else y :: insertSorted compare x rest
  end.

Definition sortWith (compare : Document -> Document -> Z)
    (l : list Document) : list Document :=
  fold_right (insertSorted compare) [] l.

(** The documents of the rows of the table, from top to bottom:
    [visible.sort(...).filter(doc => doc != null && doc.id)]. *)
Definition tableRows (localeCompare : string -> string -> Z)
    (DOCUMENTS_CONFIG : list DocumentConfig) (st : State) : list Document :=
  filter (fun doc => negb (isEmpty (id doc)))
         (sortWith (compareRows localeCompare (selectedTab st))
                   (getVisibleDocuments DOCUMENTS_CONFIG st)).

(** The order of two rows: a required document before one that is not;
    with the same flag the smaller order number first; with the same
    number the names in the order of the collation. *)
Definition RowBefore (localeCompare : string -> string -> Z)
    (selectedTab : string) (a b : Document) : Prop :=
  (required a = true /\ required b = false)
  \/ (required a = required b
      /\ ((getOrderForTab a selectedTab < getOrderForTab b selectedTab)%Z
          \/ (getOrderForTab a selectedTab = getOrderForTab b selectedTab
              /\ (localeCompare (name a) (name b) <= 0)%Z))).

(** A collation that compares code units. *)
Definition byCodeUnits (a b : string) : Z :=
  match String.compare a b with
  | Lt => (-1)%Z
  | Eq => 0%Z
  | Gt => 1%Z
  end.

(** *** A save in two steps *)

(** What the closure of [saveDocumentChanges] holds from the click to
    the answer of the store: the list and the two aggregates of the
    render in which the button was clicked. *)
Record Capture : Type := mkCapture {
  savedDocuments : list Document;
  savedCompletion : bool;
  savedDossierState : string
}.

Definition captureOf (s : Session) : Capture :=
  mkCapture (documents (state s)) (isCompleted s) (dossierState s).

(** [setInitialCompletionStatus(isCompleted);
    setInitialDossierState(dossierState); setInitialDocuments([...docs]);
    setIsChanged(false)], with the values of the closure. *)
Definition installSaved (s : Session) (c : Capture) : Session :=
  mkSession (state s) (savedDocuments c) (isCompleted s) (dossierState s)
            (savedCompletion c) (savedDossierState c) false.

(** The component with the save that awaits its answer, if any: the
    button is disabled while [saving] is set. *)
Record Running : Type := mkRunning {
  session : Session;
  inFlight : option Capture
}.

(** What can happen to the component when the click on the save button
    and the answer to the save are two events: the checkboxes, the reset
    button, the tab bar and the search field stay enabled in between,
    and a fetch may be answered. *)
Inductive AsyncEvent : Type :=
| FetchAnswered (response : FetchResponse)
| CheckboxToggled (documentId : string) (field : Field) (checked : bool)
| ResetClicked
| SaveClicked
| SaveAnswered (succeeded : bool)
| TabSelected (tabId : string)
| SearchTyped (value : string).

Definition asyncHandle (DOCUMENTS_CONFIG : list DocumentConfig)
    (r : Running) (event : AsyncEvent) : Running :=
  match event with
  | FetchAnswered response =>
      mkRunning (fetchDocumentValues DOCUMENTS_CONFIG (session r) response)
                (inFlight r)
  | CheckboxToggled documentId field checked =>
      mkRunning (toggle (session r) documentId field checked) (inFlight r)
  | ResetClicked => mkRunning (resetChanges (session r)) (inFlight r)
  | SaveClicked =>
      match inFlight r with
      | Some _ => r
      | None => mkRunning (session r) (Some (captureOf (session r)))
      end
  | SaveAnswered succeeded =>
      match inFlight r with
      | Some c =>
          mkRunning (if succeeded then installSaved (session r) c
                     else session r)
                    None
      | None => r
      end
  | TabSelected tabId =>
      mkRunning (withState (session r) (selectTab (state (session r)) tabId))
                (inFlight r)
  | SearchTyped value =>
      mkRunning (withState (session r) (search (state (session r)) value))
                (inFlight r)
  end.

Definition firstRender (DOCUMENTS_CONFIG : list DocumentConfig)
    (firstTab : string) : Running :=
  mkRunning (initialSession DOCUMENTS_CONFIG firstTab) None.

Definition asyncRun (DOCUMENTS_CONFIG : list DocumentConfig)
    (firstTab : string) (events : list AsyncEvent) : Running :=
  fold_left (asyncHandle DOCUMENTS_CONFIG) events
            (firstRender DOCUMENTS_CONFIG firstTab).

(** The events that can replace the list shown. *)
Definition replacesTheList (event : AsyncEvent) : bool :=
  match event with
  | FetchAnswered _ | CheckboxToggled _ _ _ | ResetClicked => true
  | _ => false
  end.

(** No event replaces the list while a save awaits its answer. *)
Fixpoint undisturbed (DOCUMENTS_CONFIG : list DocumentConfig) (r : Running)
    (events : list AsyncEvent) : bool :=
  match events with
  | [] => true
  | event :: rest =>
      (negb (replacesTheList event)
       || match inFlight r with None => true | Some _ => false end)
      && undisturbed DOCUMENTS_CONFIG (asyncHandle DOCUMENTS_CONFIG r event)
                     rest
  end.

(** What holds of the component whatever the interleaving: the lists
    are the catalog, the aggregates are those of the lists beside them,
    and a raised flag of unsaved changes means that the flags differ
    from the baseline. *)
Definition Coherent (DOCUMENTS_CONFIG : list DocumentConfig)
    (s : Session) : Prop :=
  ListsTheCatalog DOCUMENTS_CONFIG (documents (state s))
  /\ ListsTheCatalog DOCUMENTS_CONFIG (initialDocuments s)
  /\ isCompleted s = checkCompletion (documents (state s))
  /\ dossierState s
     = DOSSIER_STATES (calculateDossierState (documents (state s)))
  /\ initialCompletionStatus s = checkCompletion (initialDocuments s)
  /\ initialDossierState s
     = DOSSIER_STATES (calculateDossierState (initialDocuments s))
  /\ (isChanged s = true ->
      map flags (documents (state s)) <> map flags (initialDocuments s)).

(** A capture made of a list that is the catalog, with its aggregates. *)
Definition WellFormed (DOCUMENTS_CONFIG : list DocumentConfig)
    (c : Capture) : Prop :=
  ListsTheCatalog DOCUMENTS_CONFIG (savedDocuments c)
  /\ savedCompletion c = checkCompletion (savedDocuments c)
  /\ savedDossierState c
     = DOSSIER_STATES (calculateDossierState (savedDocuments c)).

End Checklist.

(** ** Values used as examples *)

Module Examples.

Import Evaluator DocumentList.

(** A document asked for in two categories, under one view, with its
    conditions in the two orders. *)
Definition eitherCategory : Document :=
  mkDocument "d2" "Livret" false false "d2_required" "d2_provided"
    [("decret",
      mkTabConfig (Some 1%Z)
        (Some [Scenarios.categoryIs "X"; Scenarios.categoryIs "Y"]))]
    None None.

Definition eitherCategoryReversed : Document :=
  mkDocument "d2" "Livret" false false "d2_required" "d2_provided"
    [("decret",
      mkTabConfig (Some 1%Z)
        (Some [Scenarios.categoryIs "Y"; Scenarios.categoryIs "X";
               Scenarios.categoryIs "Y"]))]
    None None.

(** A record in which the category is stored under a name in capitals. *)
Definition bagInCapitals : Properties :=
  [("SOUS_CATEGORIE", JsPrim (SStr "X"))].

(** A record in which a flag is the boolean [false]. *)
Definition bagWithFalse : Properties :=
  [("refugie", JsPrim (SBool false))].

End Examples.

(** ** The store seen from [updateDocuments.js] *)

Module StoreModel.

Import ErrorPayload Store.

(** What the loop that fills [properties] keeps of a value of
    [documents]: a boolean as a text, nothing of [null], [undefined] and
    the empty text, any other value as it is. *)
Definition storedText (v : JsValue) : option JsValue :=
  match v with
  | JsPrim (SBool b) => Some (JsPrim (SStr (if b then "true" else "false")))
  | JsPrim SNull | JsPrim SUndefined => None
  | JsPrim (SStr s) => if isEmpty s then None else Some v
  | _ => Some v
  end.

(** The error of a store that names, under [context.propertyName], the
    fields it does not have. *)
Definition missingFields (unknown : list string) : ApiError :=
  mkApiError (Some 400%Z) None
    (BodyObject (Some [mkErrorEntry (Some (NameMany unknown)) None None])
                (Some "Property values were not valid"))
    "HTTP-Code: 400".

(** A store that has the fields [known] and, given a batch with other
    fields, rejects it and names them all. *)
Definition namingStore (known : string -> bool) : RecordStore :=
  fun _ batch =>
    match filter (fun k => negb (known k)) (keys batch) with
    | [] => Scenarios.accepted
    | unknown => Thrown (missingFields unknown)
    end.

(** The entries of a batch under the fields the store has. *)
Definition knownEntries (known : string -> bool) (batch : Batch) : Batch :=
  filter (fun kv => known (fst kv)) batch.

End StoreModel.

(** ** The save of the aggregates ([updateCompletionStatus], in
    [src/unnamed/part_002]) *)

Module UpdateCompletionStatus.

Import ErrorPayload Store.

(** What the entry point reads from its [context]: the token and the id
    found by the chains of alternatives, and the three parameters, each
    [undefined] when it is not given. *)
Record Parameters : Type := mkParameters {
  token : option string;
  hs_object_id : JsValue;
  completionStatus : JsValue;
  dossierState : JsValue;
  missingDoc : JsValue
}.

Definition tokenMissing (ctx : Parameters) : bool :=
  match token ctx with
  | Some t => isEmpty t
  | None => true
  end.

(** [String(id)], then the part after the last dash when there is one. *)
Definition objectId (ctx : Parameters) : string :=
  let s := toString (hs_object_id ctx) in
  if includes s "-" then last (split "-" s) EmptyString else s.

(** [text.match(...)] with the first pattern of the save function, not
    global: the capture of the first match. *)
Definition firstQuotedName (text : string) : option string :=
  hd_error (execAll quotedDoesNotExist text).

Definition hasMessage (entry : ErrorEntry) : bool :=
  match truthyString (entry_message entry) with
  | Some _ => true
  | None => false
  end.

Definition findFailedProperty (error : ApiError) : option string :=
  match body error with
  | BodyAbsent => None
  | BodyString s => if isEmpty s then None else firstQuotedName s
  | BodyObject (Some errors) _ =>
      match find hasMessage errors with
      | Some entry =>
          match entry_message entry with
          | Some m => firstQuotedName m
          | None => None
          end
      | None => None
      end
  | BodyObject None _ => None
  end.

Definition isNullish (v : JsValue) : bool :=
  match v with
  | JsPrim SUndefined | JsPrim SNull => true
  | _ => false
  end.

(** [(completionStatus === true || completionStatus === 'true') ? 'true'
    : 'false'] *)
Definition completionValue (ctx : Parameters) : string :=
  match completionStatus ctx with
  | JsPrim (SBool true) => "true"
  | JsPrim (SStr s) => if String.eqb s "true" then "true" else "false"
  | _ => "false"
  end.

(** The three assignments that fill [properties]. *)
Definition buildProperties (ctx : Parameters) : Batch :=
  let p1 :=
    if isUndefined (completionStatus ctx) then []
    else Js.set "documents_completed" (JsPrim (SStr (completionValue ctx))) [] in
  let p2 :=
    if isNullish (dossierState ctx) then p1
    else Js.set "etat_du_dossier" (dossierState ctx) p1 in
  if isNullish (missingDoc ctx) then p2
  else Js.set "missing_doc" (JsPrim (SStr (toString (missingDoc ctx)))) p2.

(** [data] of a result. *)
Inductive Outcome : Type :=
| NoOutcome
| Written (completionStatus : string) (dossierState missingDoc : JsValue)
| WrittenWithout (completionStatus dossierState : JsValue)
| PartlyWritten (updated : Batch) (failed : list string).

Record Result : Type := mkResult {
  status : string;
  message : string;
  data : Outcome
}.

(** [value || fallback] *)
Definition orElse (v fallback : JsValue) : JsValue :=
  if truthy v then v else fallback.

(** [error.body?.message || error.message || 'Unknown error'] *)
Definition messageOf (error : ApiError) : string :=
  let fromBody :=
    match body error with
    | BodyObject _ (Some m) => m
    | _ => EmptyString
    end in
  if negb (isEmpty fromBody) then fromBody
  else if negb (isEmpty (error_message error)) then error_message error
  else "Unknown error".

(** The loop over [Object.entries(properties)]: one update per field.
    [attempt] counts the calls made so far; the result is [updated],
    [failed] and the batches sent. *)
Fixpoint writeEach (store : RecordStore) (attempt : nat) (entries : Batch)
    (updated : Batch) (failed : list string)
  : Batch * list string * list Batch :=
  match entries with
  | [] => (updated, failed, [])
  | (key, value) :: rest =>
      match store attempt [(key, value)] with
      | Updated _ =>
          let '(u, f, sent) :=
            writeEach store (S attempt) rest (Js.set key value updated) failed in
          (u, f, [(key, value)] :: sent)
      | Thrown _ =>
          let '(u, f, sent) :=
            writeEach store (S attempt) rest updated (failed ++ [key])%list in
          (u, f, [(key, value)] :: sent)
      end
  end.

(** The end of the handler of a 400: the updates field by field, then a
    partial success, or the first error thrown again and caught by the
    outer handler. *)
Definition fieldByField (store : RecordStore) (attempt : nat)
    (properties : Batch) (err : ApiError) : Result * list Batch :=
  let '(updated, failed, sent) := writeEach store attempt properties [] [] in
  if negb (isEmptyBatch updated) then
    (mkResult "partial_success"
       ("Partial update. Failed: " ++ join ", " failed)
       (PartlyWritten updated failed), sent)
  else (mkResult "error" (messageOf err) NoOutcome, sent).

(** The body of the inner [try] and its handler. *)
Definition update (store : RecordStore) (ctx : Parameters)
    (properties : Batch) : Result * list Batch :=
  match store 0 properties with
  | Updated _ =>
      (mkResult "success" "Properties updated successfully"
         (Written (completionValue ctx) (dossierState ctx)
                  (orElse (missingDoc ctx) (JsPrim (SStr EmptyString)))),
       [properties])
  | Thrown err =>
      if isStatus 404 (statusCode err) then
        (mkResult "success" "Object not found, update skipped" NoOutcome,
         [properties])
      else if isStatus 400 (statusCode err) then
        match findFailedProperty err with
        | Some failedProp =>
            if negb (isEmpty failedProp)
               && negb (isUndefined (get properties failedProp)) then
              let properties' := remove failedProp properties in
              if negb (isEmptyBatch properties') then
                match store 1 properties' with
                | Updated _ =>
                    (mkResult "success"
                       ("Updated (" ++ failedProp ++ " does not exist)")
                       (WrittenWithout
                          (orElse (get properties' "documents_completed")
                                  (JsPrim SNull))
                          (orElse (get properties' "etat_du_dossier")
                                  (JsPrim SNull))),
                     [properties; properties'])
                | Thrown _ =>
                    let (result, sent) :=
                      fieldByField store 2 properties' err in
                    (result, properties :: properties' :: sent)
                end
              else
                let (result, sent) := fieldByField store 1 properties' err in
                (result, properties :: sent)
            else
              let (result, sent) := fieldByField store 1 properties err in
              (result, properties :: sent)
        | None =>
            let (result, sent) := fieldByField store 1 properties err in
            (result, properties :: sent)
        end
      else (mkResult "error" (messageOf err) NoOutcome, [properties])
  end.

(** [exports.main] *)
Definition main (store : RecordStore) (ctx : Parameters)
  : Result * list Batch :=
  if tokenMissing ctx then (mkResult "error" "API key not found" NoOutcome, [])
  else if isEmpty (objectId ctx) then
    (mkResult "error" "Missing object ID" NoOutcome, [])
  else
    let isMissingDocOnly :=
      isUndefined (completionStatus ctx) && isUndefined (dossierState ctx) in
    if negb isMissingDocOnly
       && (isUndefined (completionStatus ctx)
           || isUndefined (dossierState ctx))
    then (mkResult "error" "Missing required parameters" NoOutcome, [])
    else update store ctx (buildProperties ctx).

(** What the updates field by field report. *)
Definition Reported (store : RecordStore) (tried : Batch) (err : ApiError)
    (res : Result) : Prop :=
  (status res = "partial_success"
   /\ exists updated failed,
        data res = PartlyWritten updated failed
        /\ updated <> []
        /\ Permutation (keys updated ++ failed) (keys tried)
        /\ (forall kv, In kv updated ->
              In kv tried /\ exists n r, store n [kv] = Updated r)
        /\ (forall k, In k failed ->
              exists v n e, In (k, v) tried /\ store n [(k, v)] = Thrown e))
  \/ (res = mkResult "error" (messageOf err) NoOutcome
      /\ forall k v, In (k, v) tried ->
           exists n e, store n [(k, v)] = Thrown e).

(** The ways the inner [try] ends. *)
Definition Ends (store : RecordStore) (ctx : Parameters) (properties : Batch)
    (res : Result) (sent : list Batch) : Prop :=
  (exists r, store 0 properties = Updated r
             /\ status res = "success" /\ sent = [properties])
  \/ (exists e, store 0 properties = Thrown e
                /\ isStatus 404 (statusCode e) = true
                /\ res = mkResult "success" "Object not found, update skipped"
                           NoOutcome
                /\ sent = [properties])
  \/ (exists e, store 0 properties = Thrown e
                /\ isStatus 404 (statusCode e) = false
                /\ isStatus 400 (statusCode e) = false
                /\ res = mkResult "error" (messageOf e) NoOutcome
                /\ sent = [properties])
  \/ (exists e name r,
        store 0 properties = Thrown e
        /\ isStatus 400 (statusCode e) = true
        /\ findFailedProperty e = Some name
        /\ store 1 (remove name properties) = Updated r
        /\ remove name properties <> []
        /\ status res = "success"
        /\ sent = [properties; remove name properties])
  \/ (exists e tried before,
        store 0 properties = Thrown e
        /\ isStatus 404 (statusCode e) = false
        /\ isStatus 400 (statusCode e) = true
        /\ (tried = properties /\ before = [properties]
            \/ exists name,
                 findFailedProperty e = Some name
                 /\ tried = remove name properties
                 /\ (before = [properties]
                     \/ before = [properties; tried]))
        /\ sent = (before ++ map (fun kv => [kv]) tried)%list
        /\ Reported store tried e res).

(** Stores used as examples: one that refuses any batch of several
    fields and any write of [etat_du_dossier], and accepts the rest. *)
Definition oneFieldAtATime : RecordStore := fun _ batch =>
  match batch with
  | [(key, _)] =>
      if String.eqb key "etat_du_dossier"
      then Thrown (mkApiError (Some 400%Z) None BodyAbsent "Bad Request")
      else Scenarios.accepted
  | _ => Thrown (mkApiError (Some 400%Z) None BodyAbsent "Bad Request")
  end.

Definition bothAggregates : Parameters :=
  mkParameters (Some "pat-eu1") (JsPrim (SStr "0-123"))
    (JsPrim (SBool true)) (JsPrim (SStr "Complet")) (JsPrim SUndefined).

End UpdateCompletionStatus.

(** ** The read function ([getDocumentValues.js]) *)

Module GetDocumentValues.

Import ErrorPayload.

Definition conditionalProperties : list string :=
  ["sous_categorie";
   "avez_vous_un_statut_refugie_ou_apatride__";
   "quelle_est_votre_situation_professionnel__";
   "quelle_est_votre_situation_familliale";
   "avez_vous_des_enfant_mineur__";
   "domicile__";
   "percevez_vous_";
   "quel_est_votre_lien_avec_le_descendant_francais__";
   "avez_vous_fait_votre_scolarite_formation_en_france__";
   "quelle_est_votre_situation_professionnel_aes__";
   "type_d_entree_en_france";
   "quel_est_votre_lien_avec_le_refugie__";
   "vous_etes_entree_en_france_en_tant_que__";
   "revenu_percu_par_letudiant__";
   "etes_vous_marie_depuis_moins_de_5_ans__";
   "votre_mariage_a_t_il_ete_celebre_a_l_etranger__";
   "l_un_des_epoux__ou_les_deux__a_t_il_eu_des_unions_anterieures__";
   "avez_vous_des_enfants__mineurs_ou_majeurs___";
   "avez_vous_des_enfants_mineurs_etrangers_residant_avec_vous__";
   "etes_vous_entre_en_france_il_y_a_moins_de_10_ans__"].

(** What the entry point reads from its [context]. *)
Record Context : Type := mkContext {
  objectId : JsValue;
  token : option string;
  propertyNames : list string;
  includeCompletion : bool
}.

(** What [basicApi.getById] gives: a response, with its [properties]
    when it has some, or an exception with its [statusCode]. *)
Inductive ReadResponse : Type :=
| Read (properties : option Properties)
| ReadThrown (statusCode : option Z).

(** The record store as seen by the reads: the answer to a read of a
    list of properties, by the name of the object type ([true]) or by its
    id ([false]). *)
Definition RecordReader : Type := bool -> list string -> ReadResponse.

(** [properties.includes(prop)] *)
Definition listed (prop : string) (properties : list string) : bool :=
  existsb (String.eqb prop) properties.

(** The list [properties]: the names asked for, or the two default
    names; the two aggregates on request; the conditional properties
    that are not there yet. *)
Definition requested (ctx : Context) : list string :=
  let properties :=
    match propertyNames ctx with
    | [] => ["passport_required"; "passport_provided"]
    | _ :: _ => propertyNames ctx
    end in
  let properties :=
    if includeCompletion ctx
    then (properties ++ ["documents_completed"; "etat_du_dossier"])%list
    else properties in
  fold_left (fun properties prop =>
               if negb (listed prop properties)
               then (properties ++ [prop])%list else properties)
            conditionalProperties properties.

Definition sorted (properties : list string) : list string :=
  "sous_categorie"
  :: filter (fun p => negb (String.eqb p "sous_categorie")) properties.

(** The slices [sorted.slice(i, i + size)] for [i = 0, size, 2 size, ...];
    [fuel] bounds the number of slices. *)
Fixpoint slices (fuel size : nat) (l : list string) : list (list string) :=
  match fuel with
  | O => []
  | S fuel' =>
      match l with
      | [] => []
      | _ :: _ => firstn size l :: slices fuel' size (skipn size l)
      end
  end.

Definition BATCH_SIZE : nat := 100.

Definition batches (properties : list string) : list (list string) :=
  slices (List.length (sorted properties)) BATCH_SIZE (sorted properties).

(** The inner [try]: a read by name and, when it throws, a read by id. *)
Definition readBatch (reader : RecordReader) (batch : list string)
  : ReadResponse :=
  match reader true batch with
  | Read properties => Read properties
  | ReadThrown _ => reader false batch
  end.

(** [Object.assign(allProperties, response.properties)] *)
Definition assign (allProperties source : Properties) : Properties :=
  fold_left (fun acc kv => Js.set (fst kv) (snd kv) acc) source allProperties.

(** [batch.forEach(prop => { if (!(prop in allProperties))
    allProperties[prop] = null })] *)
Definition fillWithNull (allProperties : Properties) (batch : list string)
  : Properties :=
  fold_left (fun acc prop =>
               if has prop acc then acc else Js.set prop (JsPrim SNull) acc)
            batch allProperties.

(** The loop over the slices; [None] when a read ends with status 404. *)
Fixpoint readAll (reader : RecordReader) (slicesLeft : list (list string))
    (allProperties : Properties) : option Properties :=
  match slicesLeft with
  | [] => Some allProperties
  | batch :: rest =>
      match readBatch reader batch with
      | Read (Some properties) =>
          readAll reader rest (assign allProperties properties)
      | Read None => readAll reader rest allProperties
      | ReadThrown statusCode =>
          if isStatus 404 statusCode then None
          else readAll reader rest (fillWithNull allProperties batch)
      end
  end.

Definition isFlag (prop : string) : bool :=
  includes prop "_required" || includes prop "_provided".

(** [raw === null || raw === undefined || raw === ''] *)
Definition isBlank (raw : JsValue) : bool :=
  match raw with
  | JsPrim SNull | JsPrim SUndefined => true
  | JsPrim (SStr s) => isEmpty s
  | _ => false
  end.

(** The text stored in [result] for a property.  A value is a scalar or
    a list here: the branch for an object with a [value] member has no
    counterpart. *)
Definition normalise (prop : string) (raw : JsValue) : string :=
  if isFlag prop then
    if isBlank raw then "false" else toString raw
  else if isBlank raw then EmptyString
  else match raw with
       | JsArr items => join ";" (map elementToString items)
       | JsPrim _ => toString raw
       end.

Definition resultOf (properties : list string) (allProperties : Properties)
  : Dict string :=
  fold_left (fun result prop =>
               Js.set prop (normalise prop (get allProperties prop)) result)
            properties [].

Inductive Answer : Type :=
| AnswerError (error : string)
| AnswerProperties (result : Dict string).

Definition tokenMissing (ctx : Context) : bool :=
  match token ctx with
  | Some t => isEmpty t
  | None => true
  end.

(** [exports.main] *)
Definition main (reader : RecordReader) (ctx : Context) : Answer :=
  if negb (truthy (objectId ctx)) || tokenMissing ctx then
    AnswerError "Missing object ID or access token"
  else
    let properties := requested ctx in
    match readAll reader (batches properties) [] with
    | None => AnswerError "Object not found"
    | Some allProperties => AnswerProperties (resultOf properties allProperties)
    end.

(** The answer as the component receives it. *)
Definition toResponse (answer : Answer) : Properties :=
  match answer with
  | AnswerError error => [("error", JsPrim (SStr error))]
  | AnswerProperties result =>
      map (fun kv => (fst kv, JsPrim (SStr (snd kv)))) result
  end.

(** A store that holds [record] and answers every read with the
    properties of the record that are asked for. *)
Definition recordReader (record : Properties) : RecordReader :=
  fun _ batch =>
    Read (Some (filter (fun kv => listed (fst kv) batch) record)).

(** A store in which every read fails with the given status. *)
Definition failingReader (statusCode : option Z) : RecordReader :=
  fun _ _ => ReadThrown statusCode.

(** A bag in which every value is the text false or the empty text. *)
Definition AllOff (bag : Properties) : Prop :=
  forall k v, lookup k bag = Some v ->
    v = JsPrim (SStr "false") \/ v = JsPrim (SStr EmptyString).

Definition readContext (names : list string) : Context :=
  mkContext (JsPrim (SStr "123")) (Some "pat-eu1") names true.

End GetDocumentValues.

(** ** The component and the save of the aggregates *)

Module Pipeline.

Import DocumentList Checklist.


End Pipeline.


(** * Properties of the condition evaluator *)

Module EvaluatorFacts.

Import Evaluator.

Lemma eqb_neq_false (a b : string) : a <> b -> String.eqb a b = false.
Proof. intro H. now apply String.eqb_neq. Qed.

(** C9: a condition whose operator is none of [equals], [not_equals],
    [contains], [not_contains], [in] is satisfied by every property bag. *)
Theorem unknown_operator_is_satisfied
    (condition : DocumentCondition) (properties : Properties) :
  operator condition <> "equals" ->
  operator condition <> "not_equals" ->
  operator condition <> "contains" ->
  operator condition <> "not_contains" ->
  operator condition <> "in" ->
  evaluateCondition condition properties = true.
Proof.
  intros H1 H2 H3 H4 H5.
  unfold evaluateCondition.
  now rewrite !eqb_neq_false by assumption.
Qed.

Lemma unknown_operator_is_satisfied_witness :
  evaluateCondition (mkCondition "sous_categorie" "starts_with" "Tronc")
                    [("sous_categorie", JsPrim (SStr "Ascendant"))] = true.
Proof.
  apply unknown_operator_is_satisfied; simpl; discriminate.
Defined.

Lemma absent_find (properties : Properties) (name : string) :
  absentFrom properties name -> findKeyIgnoringCase properties name = None.
Proof.
  unfold absentFrom, findKeyIgnoringCase.
  induction (keys properties) as [|k r IH]; intro H; simpl; [reflexivity|].
  rewrite eqb_neq_false by (apply H; simpl; auto).
  apply IH. intros k' Hk'. apply H. simpl; auto.
Qed.

Lemma absent_lookup (properties : Properties) (name : string) :
  absentFrom properties name -> lookup name properties = None.
Proof.
  unfold absentFrom, keys.
  induction properties as [|[k v] r IH]; intro H; simpl; [reflexivity|].
  destruct (String.eqb_spec k name) as [->|Hne].
  - exfalso. apply (H name); simpl; auto.
  - apply IH. intros k' Hk'. apply H. simpl; auto.
Qed.

Lemma absent_resolve (properties : Properties) (name : string) :
  absentFrom properties name -> resolveProperty properties name = undefined.
Proof.
  intro H. unfold resolveProperty, get.
  rewrite (absent_lookup _ _ H). simpl. now rewrite (absent_find _ _ H).
Qed.

Lemma isEmpty_eqb (s : string) : String.eqb EmptyString s = isEmpty s.
Proof. now destruct s. Qed.

(** C10: when the property of a condition is absent from the bag, also
    under the case-insensitive scan, the comparison is made against the
    empty string: [equals] holds exactly when the trimmed condition value is
    empty, and [not_equals] holds for every condition value that is not. *)
Theorem absent_property_compares_with_empty
    (condition : DocumentCondition) (properties : Properties) :
  absentFrom properties (property condition) ->
  resolveProperty properties (property condition) = undefined
  /\ (operator condition = "equals" ->
      evaluateCondition condition properties = isEmpty (trim (value condition)))
  /\ (operator condition = "not_equals" ->
      trim (value condition) <> EmptyString ->
      evaluateCondition condition properties = true).
Proof.
  intro H. pose proof (absent_resolve _ _ H) as Hr.
  split; [exact Hr|]. unfold evaluateCondition. rewrite Hr. simpl.
  split.
  - intros ->. simpl. apply isEmpty_eqb.
  - intros -> Hne. simpl.
    destruct (trim (value condition)); [now elim Hne | reflexivity].
Qed.

Lemma absent_property_compares_with_empty_witness :
  let condition := mkCondition "domicile__" "not_equals" "France" in
  let properties := [("sous_categorie", JsPrim (SStr "Ascendant"))] in
  resolveProperty properties (property condition) = undefined
  /\ (operator condition = "equals" ->
      evaluateCondition condition properties = isEmpty (trim (value condition)))
  /\ (operator condition = "not_equals" ->
      trim (value condition) <> EmptyString ->
      evaluateCondition condition properties = true).
Proof.
  apply absent_property_compares_with_empty.
  intros k [<-|[]]. vm_compute. discriminate.
Defined.

End EvaluatorFacts.

(** * Properties of the requirement resolver and of the calculators *)

Module ResolverFacts.

Import Evaluator DocumentList.

Lemma hasConditions_spec (doc : Document) :
  hasConditions doc = negb (match getAllConditions doc with [] => true | _ => false end).
Proof. unfold hasConditions. now destruct (getAllConditions doc). Qed.

Lemma hasConditions_true (doc : Document) :
  getAllConditions doc <> [] -> hasConditions doc = true.
Proof.
  rewrite hasConditions_spec. destruct (getAllConditions doc); [now intros []|reflexivity].
Qed.

Lemma hasConditions_false (doc : Document) :
  getAllConditions doc = [] -> hasConditions doc = false.
Proof. rewrite hasConditions_spec. now intros ->. Qed.

(** The fetch leaves the tab configuration of a document alone, hence its
    conditions and their evaluation. *)
Lemma fetched_conditions (properties : Properties) (doc : Document) :
  getAllConditions (fetchedDocument properties doc) = getAllConditions doc.
Proof. reflexivity. Qed.

Lemma fetched_check (properties bag : Properties) (doc : Document) tabId :
  checkDocumentConditions (fetchedDocument properties doc) bag tabId
  = checkDocumentConditions doc bag tabId.
Proof. reflexivity. Qed.

(** C1: the required flag of every document built by the fetch.  With
    conditions that are met it is [true]; with conditions that are not met
    it is the persisted flag when the document is provided and [false] when
    it is not; without conditions it is the persisted flag. *)
Theorem fetch_required_state_machine
    (DOCUMENTS_CONFIG : list DocumentConfig) (properties : Properties)
    (doc : Document) :
  In doc (fetchedDocuments DOCUMENTS_CONFIG properties) ->
  let manualRequired := toBool (get properties (requiredProperty doc)) in
  let conditionsMet := checkDocumentConditions doc properties None in
  provided doc = toBool (get properties (providedProperty doc))
  /\ (getAllConditions doc <> [] -> conditionsMet = true ->
      required doc = true)
  /\ (getAllConditions doc <> [] -> conditionsMet = false ->
      provided doc = true -> required doc = manualRequired)
  /\ (getAllConditions doc <> [] -> conditionsMet = false ->
      provided doc = false -> required doc = false)
  /\ (getAllConditions doc = [] -> required doc = manualRequired).
Proof.
  unfold fetchedDocuments. intro Hin.
  apply in_map_iff in Hin. destruct Hin as [doc0 [<- _]].
  cbv zeta. rewrite fetched_conditions, fetched_check.
  cbn [provided required requiredProperty providedProperty fetchedDocument].
  split; [reflexivity|].
  repeat split.
  - intros Hc Hm. now rewrite (hasConditions_true _ Hc), Hm.
  - intros Hc Hm Hp. now rewrite (hasConditions_true _ Hc), Hm, Hp.
  - intros Hc Hm Hp. now rewrite (hasConditions_true _ Hc), Hm, Hp.
  - intros Hc. now rewrite (hasConditions_false _ Hc).
Qed.

Lemma fetch_required_state_machine_witness :
  let doc := fetchedDocument (Scenarios.bagX "false")
               (initialDocument Scenarios.d1Config) in
  required doc = true /\ provided doc = false.
Proof.
  cbv zeta.
  destruct (fetch_required_state_machine Scenarios.catalogD1
              (Scenarios.bagX "false")
              (fetchedDocument (Scenarios.bagX "false")
                 (initialDocument Scenarios.d1Config)))
    as (Hp & Hmet & _).
  - left. reflexivity.
  - split.
    + apply Hmet; [vm_compute; discriminate|reflexivity].
    + rewrite Hp. reflexivity.
Defined.

End ResolverFacts.

Module CalculatorFacts.

Import Evaluator DocumentList.

Lemma existsb_false_iff {A : Type} (f : A -> bool) (l : list A) :
  existsb f l = false <-> forall x, In x l -> f x = false.
Proof.
  induction l as [|a l IH]; simpl.
  - split; [intros _ x []|reflexivity].
  - rewrite orb_false_iff, IH. split.
    + intros [Ha Hl] x [<-|Hx]; auto.
    + intro H. split; [apply H; auto|intros x Hx; apply H; auto].
Qed.

Lemma filter_filter {A : Type} (f g : A -> bool) (l : list A) :
  filter g (filter f l) = filter (fun x => f x && g x) l.
Proof.
  induction l as [|a l IH]; simpl; [reflexivity|].
  destruct (f a); simpl; [destruct (g a)|]; now rewrite IH.
Qed.








(** At an exact half the double product may fall on either side:
    23 of 40 is 57.5 percent, [(23 / 40) * 100] is a double below it. *)
Example roundedPercent_23_of_40 : roundedPercent 23 40 = 57.
Proof. vm_compute. reflexivity. Qed.

(** After a fetch, a document is counted as required exactly when it
    carries the flag. *)
Lemma fetched_counts_by_flag (DOCUMENTS_CONFIG : list DocumentConfig)
    (properties : Properties) (d : Document) :
  In d (fetchedDocuments DOCUMENTS_CONFIG properties) ->
  countsAsRequired properties d = required d.
Proof.
  unfold fetchedDocuments. intro Hin.
  apply in_map_iff in Hin. destruct Hin as [doc [<- _]].
  unfold countsAsRequired.
  change (hasConditions (fetchedDocument properties doc))
    with (hasConditions doc).
  rewrite ResolverFacts.fetched_check.
  cbn [required fetchedDocument].
  destruct (hasConditions doc),
    (checkDocumentConditions doc properties None),
    (toBool (get properties (providedProperty doc))),
    (toBool (get properties (requiredProperty doc))); reflexivity.
Qed.







End CalculatorFacts.

Module ToggleFacts.

Import Evaluator DocumentList.

Lemma map_id_on {A : Type} (f : A -> A) (l : list A) :
  (forall x, In x l -> f x = x) -> map f l = l.
Proof.
  induction l as [|a l IH]; simpl; intro H; [reflexivity|].
  rewrite H by auto. f_equal. apply IH. auto.
Qed.

(** C8: a toggle of "required" that contradicts the value derived from the
    conditions of the document leaves the documents as they were, outside
    the overflow view; in the overflow view it always sets the flag; a
    toggle of "provided" always sets the flag, in every view. *)
Theorem toggle_rules (st : State) (documentId : string) (checked : bool) :
  (selectedTab st <> "autre" ->
   (forall doc, In doc (documents st) -> id doc = documentId ->
      getAllConditions doc <> []
      /\ checkDocumentConditions doc (recordProperties st) None <> checked) ->
   handleCheckboxToggle st documentId FieldRequired checked
   = mkToggleOutcome (documents st) (checkCompletion (documents st))
                     (calculateDossierState (documents st)))
  /\ (selectedTab st = "autre" ->
      newDocs (handleCheckboxToggle st documentId FieldRequired checked)
      = map (fun doc => if String.eqb (id doc) documentId
                        then withRequired doc checked else doc)
            (documents st))
  /\ newDocs (handleCheckboxToggle st documentId FieldProvided checked)
     = map (fun doc => if String.eqb (id doc) documentId
                       then withProvided doc checked else doc)
           (documents st).
Proof.
  unfold handleCheckboxToggle. cbn [newDocs].
  split; [|split].
  - intros Htab Hdocs.
    rewrite map_id_on; [reflexivity|].
    intros doc Hin. unfold toggleDocument.
    destruct (String.eqb_spec (id doc) documentId) as [Hid|]; [|reflexivity].
    destruct (Hdocs doc Hin Hid) as [Hc Hm].
    rewrite (ResolverFacts.hasConditions_true _ Hc).
    rewrite (EvaluatorFacts.eqb_neq_false _ _ Htab). simpl.
    destruct (checkDocumentConditions doc (recordProperties st) None), checked;
      simpl; congruence.
  - intros Htab. apply map_ext. intro doc. unfold toggleDocument.
    rewrite Htab. simpl. now rewrite andb_false_r.
  - reflexivity.
Qed.

Lemma toggle_rules_witness :
  let inDecret := Scenarios.stateAfterFetch (Scenarios.bagX "false") "decret" in
  let inAutre := Scenarios.stateAfterFetch (Scenarios.bagX "false") "autre" in
  newDocs (handleCheckboxToggle inDecret "d1" FieldRequired false)
  = documents inDecret
  /\ map required
         (newDocs (handleCheckboxToggle inAutre "d1" FieldRequired false))
     = [false]
  /\ map provided
         (newDocs (handleCheckboxToggle inDecret "d1" FieldProvided true))
     = [true].
Proof.
  cbv zeta. split; [|split].
  - destruct (toggle_rules
                (Scenarios.stateAfterFetch (Scenarios.bagX "false") "decret")
                "d1" false) as (H & _).
    rewrite H; [reflexivity|discriminate|].
    intros doc [<-|[]] _. split; [vm_compute; discriminate|].
    vm_compute. discriminate.
  - destruct (toggle_rules
                (Scenarios.stateAfterFetch (Scenarios.bagX "false") "autre")
                "d1" false) as (_ & H & _).
    rewrite H; reflexivity.
  - destruct (toggle_rules
                (Scenarios.stateAfterFetch (Scenarios.bagX "false") "decret")
                "d1" true) as (_ & _ & H).
    rewrite H. reflexivity.
Defined.

End ToggleFacts.

Module GroupingFacts.

Import Evaluator DocumentList.

Lemma lookup_pushInto (k k0 : string) (c : DocumentCondition)
    (m : ConditionGroups) :
  lookup k (pushInto k0 c m)
  = if String.eqb k0 k
    then match lookup k m with Some l => Some (l ++ [c])%list | None => None end
    else lookup k m.
Proof.
  induction m as [|[k' l] r IH]; simpl.
  - now destruct (String.eqb k0 k).
  - destruct (String.eqb_spec k' k0) as [->|Hne]; simpl.
    + destruct (String.eqb_spec k0 k) as [->|Hne']; [reflexivity|reflexivity].
    + rewrite IH. destruct (String.eqb_spec k' k) as [->|Hne'].
      * destruct (String.eqb_spec k0 k) as [->|]; [now elim Hne|reflexivity].
      * reflexivity.
Qed.

Lemma keys_pushInto (k0 : string) (c : DocumentCondition) (m : ConditionGroups) :
  keys (pushInto k0 c m) = keys m.
Proof.
  induction m as [|[k' l] r IH]; simpl; [reflexivity|].
  destruct (String.eqb k' k0); simpl; [reflexivity|]. f_equal. exact IH.
Qed.

Lemma lookup_set {A : Type} (k k0 : string) (v : A) (m : Dict A) :
  lookup k (Js.set k0 v m) = if String.eqb k0 k then Some v else lookup k m.
Proof.
  induction m as [|[k' v'] r IH]; simpl.
  - reflexivity.
  - destruct (String.eqb_spec k' k0) as [->|Hne]; simpl.
    + now destruct (String.eqb k0 k).
    + rewrite IH. destruct (String.eqb_spec k' k) as [->|]; [|reflexivity].
      destruct (String.eqb_spec k0 k) as [->|]; [now elim Hne|reflexivity].
Qed.

Lemma keys_set_fresh {A : Type} (k0 : string) (v : A) (m : Dict A) :
  lookup k0 m = None -> keys (Js.set k0 v m) = (keys m ++ [k0])%list.
Proof.
  induction m as [|[k' v'] r IH]; simpl; [reflexivity|].
  destruct (String.eqb k' k0); [discriminate|]. intro H. simpl. f_equal. auto.
Qed.

Lemma lookup_None_keys {A : Type} (k : string) (m : Dict A) :
  lookup k m = None <-> ~ In k (keys m).
Proof.
  induction m as [|[k' v'] r IH]; simpl; [tauto|].
  destruct (String.eqb_spec k' k) as [->|Hne].
  - split; [discriminate|]. intro H. elim H. auto.
  - rewrite IH. tauto.
Qed.

Lemma lookup_In {A : Type} (k : string) (v : A) (m : Dict A) :
  NoDup (keys m) -> (In (k, v) m <-> lookup k m = Some v).
Proof.
  induction m as [|[k' v'] r IH]; simpl; intro Hnd.
  - split; [intros []|discriminate].
  - inversion Hnd as [|? ? Hnotin Hnd']; subst.
    destruct (String.eqb_spec k' k) as [->|Hne].
    + split.
      * intros [E|Hin]; [congruence|].
        elim Hnotin. apply (in_map fst) in Hin. exact Hin.
      * intros E. left. congruence.
    + rewrite <- (IH Hnd'). split; [intros [E|H]; [congruence|exact H]|auto].
Qed.

Lemma lookup_addCondition (k : string) (m : ConditionGroups)
    (c : DocumentCondition) :
  lookup k (addCondition m c)
  = if sameProperty k c
    then Some (match lookup k m with Some l => l ++ [c] | None => [c] end)%list
    else lookup k m.
Proof.
  unfold addCondition, sameProperty, has.
  destruct (lookup (property c) m) as [l0|] eqn:E; rewrite lookup_pushInto.
  - destruct (String.eqb_spec (property c) k) as [<-|]; [now rewrite E|reflexivity].
  - rewrite lookup_set.
    destruct (String.eqb_spec (property c) k) as [<-|]; [now rewrite E|reflexivity].
Qed.

Lemma NoDup_addCondition (m : ConditionGroups) (c : DocumentCondition) :
  NoDup (keys m) -> NoDup (keys (addCondition m c)).
Proof.
  intro Hnd. unfold addCondition, has. rewrite keys_pushInto.
  destruct (lookup (property c) m) eqn:E; [exact Hnd|].
  rewrite keys_set_fresh by exact E.
  apply NoDup_app; [exact Hnd|repeat constructor; intros []|].
  intros x Hx [<-|[]]. now apply lookup_None_keys in E.
Qed.

Lemma fold_addCondition (conds : list DocumentCondition) :
  forall m : ConditionGroups,
  NoDup (keys m) ->
  NoDup (keys (fold_left addCondition conds m))
  /\ forall k,
       lookup k (fold_left addCondition conds m)
       = match lookup k m, filter (sameProperty k) conds with
         | Some l, f => Some (l ++ f)%list
         | None, [] => None
         | None, f => Some f
         end.
Proof.
  induction conds as [|c conds IH]; simpl; intros m Hnd.
  - split; [exact Hnd|]. intro k. destruct (lookup k m); [now rewrite app_nil_r|reflexivity].
  - destruct (IH (addCondition m c) (NoDup_addCondition m c Hnd)) as [H1 H2].
    split; [exact H1|]. intro k. rewrite H2, lookup_addCondition.
    destruct (sameProperty k c).
    + destruct (lookup k m); [now rewrite <- app_assoc|reflexivity].
    + reflexivity.
Qed.

(** The groups built by [groupByProperty]: one per property name that
    occurs, holding the conditions on that property, in their order. *)
Lemma groupByProperty_entries (conds : list DocumentCondition)
    (k : string) (l : list DocumentCondition) :
  In (k, l) (groupByProperty conds)
  <-> l <> [] /\ l = filter (sameProperty k) conds.
Proof.
  destruct (fold_addCondition conds [] (NoDup_nil _)) as [Hnd Hl].
  unfold groupByProperty. rewrite (lookup_In _ _ _ Hnd), Hl. simpl.
  destruct (filter (sameProperty k) conds) as [|c f].
  - split; [discriminate|]. intros [H ->]. now elim H.
  - split.
    + intros E. injection E as <-. split; [discriminate|reflexivity].
    + now intros [_ ->].
Qed.

End GroupingFacts.

Module ConditionsFacts.

Import Evaluator DocumentList GroupingFacts.

Lemma fold_conditions_flat (configs : list TabConfig) :
  forall acc : list DocumentCondition,
  fold_left (fun allConditions config =>
               match conditions config with
               | Some cs => (allConditions ++ cs)%list
               | None => allConditions
               end) configs acc
  = (acc ++ flat_map conditionsOrEmpty configs)%list.
Proof.
  induction configs as [|config r IH]; simpl; intro acc.
  - now rewrite app_nil_r.
  - rewrite IH. unfold conditionsOrEmpty at 2.
    destruct (conditions config); [now rewrite <- app_assoc|reflexivity].
Qed.

Lemma getAllConditions_pooled (doc : Document) :
  getAllConditions doc = flat_map conditionsOrEmpty (map snd (tabConfig doc)).
Proof. unfold getAllConditions. now rewrite fold_conditions_flat. Qed.

(** C5: the conditions of a document are grouped by property name; they
    are met exactly when every group holds a condition that evaluates to
    true; they are met when there is no condition to evaluate; and
    without a view the conditions evaluated are those of all the views of
    the document, pooled. *)
Theorem conditions_met_and_of_ors
    (doc : Document) (properties : Properties) (tabId : option string) :
  let conds := conditionsFor doc tabId in
  (forall k l, In (k, l) (groupByProperty conds)
               <-> l <> [] /\ l = filter (sameProperty k) conds)
  /\ (checkDocumentConditions doc properties tabId = true
      <-> forall k l, In (k, l) (groupByProperty conds) ->
            exists c, In c l /\ evaluateCondition c properties = true)
  /\ (conds = [] -> checkDocumentConditions doc properties tabId = true)
  /\ (truthyTab tabId = None ->
      conds = flat_map conditionsOrEmpty (map snd (tabConfig doc)))
  /\ (forall t, truthyTab tabId = Some t -> conds = getConditionsForTab doc t).
Proof.
  cbv zeta. split; [|split; [|split; [|split]]].
  - apply groupByProperty_entries.
  - unfold checkDocumentConditions.
    destruct (conditionsFor doc tabId) as [|c0 conds] eqn:E.
    + split; [intros _ k l []|reflexivity].
    + rewrite forallb_forall. split.
      * intros H k l Hin. specialize (H (k, l) Hin). simpl in H.
        apply existsb_exists in H. exact H.
      * intros H [k l] Hin. simpl. apply existsb_exists. exact (H k l Hin).
  - unfold checkDocumentConditions. now intros ->.
  - unfold conditionsFor, truthyTab. intro H.
    destruct tabId as [t|]; [destruct (isEmpty t); [|discriminate]|];
      apply getAllConditions_pooled.
  - unfold conditionsFor, truthyTab. intros t H.
    destruct tabId as [t'|]; [|discriminate].
    destruct (isEmpty t'); [discriminate|]. now injection H as ->.
Qed.

Lemma conditions_met_and_of_ors_witness :
  let d1 := initialDocument Scenarios.d1Config in
  checkDocumentConditions d1 (Scenarios.bagX "false") None = true
  /\ checkDocumentConditions d1 (Scenarios.bagX "false") (Some "autre") = true
  /\ conditionsFor d1 (Some "decret") = [Scenarios.categoryIs "X"].
Proof.
  cbv zeta. split; [|split].
  - destruct (conditions_met_and_of_ors (initialDocument Scenarios.d1Config)
                (Scenarios.bagX "false") None) as (_ & H & _).
    apply H. intros k l [E|[]]. injection E as <- <-.
    exists (Scenarios.categoryIs "X"). split; [left|]; reflexivity.
  - destruct (conditions_met_and_of_ors (initialDocument Scenarios.d1Config)
                (Scenarios.bagX "false") (Some "autre")) as (_ & _ & H & _).
    apply H. reflexivity.
  - destruct (conditions_met_and_of_ors (initialDocument Scenarios.d1Config)
                (Scenarios.bagX "false") (Some "decret")) as (_ & _ & _ & _ & H).
    rewrite (H "decret"); reflexivity.
Defined.

End ConditionsFacts.

Module VisibilityFacts.

Import Evaluator DocumentList.

Lemma insertByOrder_In (key : Document -> Z) (x y : Document)
    (l : list Document) :
  In y (insertByOrder key x l) <-> y = x \/ In y l.
Proof.
  induction l as [|a l IH]; simpl.
  - intuition congruence.
  - destruct (key x <=? key a)%Z; simpl; [intuition congruence|].
    rewrite IH. intuition congruence.
Qed.

Lemma sortByOrder_In (key : Document -> Z) (y : Document) (l : list Document) :
  In y (sortByOrder key l) <-> In y l.
Proof.
  induction l as [|a l IH]; simpl; [tauto|].
  rewrite insertByOrder_In, IH. intuition congruence.
Qed.

Lemma sortByOrder_Permutation (key : Document -> Z) (l : list Document) :
  Permutation (sortByOrder key l) l.
Proof.
  induction l as [|a l IH]; simpl; [constructor|].
  transitivity (a :: sortByOrder key l); [|now constructor].
  clear IH. induction (sortByOrder key l) as [|b s IHs]; simpl.
  - reflexivity.
  - destruct (key a <=? key b)%Z; [reflexivity|].
    transitivity (b :: a :: s); [now constructor|apply perm_swap].
Qed.

(** Without a search term the list shown is the filtered list, reordered. *)
Lemma getVisibleDocuments_In (DOCUMENTS_CONFIG : list DocumentConfig)
    (st : State) (doc : Document) :
  trim (searchTerm st) = EmptyString ->
  In doc (getVisibleDocuments DOCUMENTS_CONFIG st)
  <-> In doc (documents st)
      /\ isVisible st (getActiveTabId DOCUMENTS_CONFIG st)
                   (propsForConditions st) doc = true.
Proof.
  intro Hs. unfold getVisibleDocuments. rewrite Hs. simpl.
  destruct (documents st) as [|d0 ds] eqn:E.
  - simpl. tauto.
  - rewrite sortByOrder_In, filter_In. reflexivity.
Qed.

(** C3: in the active view the documents shown are those of that view
    whose conditions are met or that are both required and provided; in the
    overflow view they are the documents flagged required or provided that
    do not both belong to the active view and have their conditions met
    there, and the documents of the active view whose conditions are not
    met. *)
Theorem visibility_filter (DOCUMENTS_CONFIG : list DocumentConfig)
    (st : State) (doc : Document) :
  trim (searchTerm st) = EmptyString ->
  let active := truthyTab (getActiveTabId DOCUMENTS_CONFIG st) in
  let conditionsMet :=
    checkDocumentConditions doc (propsForConditions st) active in
  let belongsToActive :=
    match active with
    | Some t => documentBelongsToTab doc t
    | None => false
    end in
  (forall t, active = Some t -> selectedTab st = t -> t <> "autre" ->
     (In doc (getVisibleDocuments DOCUMENTS_CONFIG st)
      <-> In doc (documents st)
          /\ documentBelongsToTab doc t = true
          /\ (conditionsMet = true
              \/ (required doc = true /\ provided doc = true))))
  /\ (selectedTab st = "autre" ->
      (In doc (getVisibleDocuments DOCUMENTS_CONFIG st)
       <-> In doc (documents st)
           /\ (((required doc = true \/ provided doc = true)
                /\ ~ (belongsToActive = true /\ conditionsMet = true))
               \/ (belongsToActive = true /\ conditionsMet = false)))).
Proof.
  intro Hs. cbv zeta. split.
  - intros t Ha Hsel Hne.
    rewrite (getVisibleDocuments_In _ _ _ Hs). unfold isVisible.
    rewrite Ha, Hsel, (EvaluatorFacts.eqb_neq_false _ _ Hne), String.eqb_refl.
    destruct (documentBelongsToTab doc t); simpl.
    + rewrite orb_true_iff, andb_true_iff. tauto.
    + intuition discriminate.
  - intros Hsel.
    rewrite (getVisibleDocuments_In _ _ _ Hs). unfold isVisible.
    rewrite Hsel. simpl.
    destruct (truthyTab (getActiveTabId DOCUMENTS_CONFIG st)) as [t|].
    + destruct (required doc), (provided doc),
        (checkDocumentConditions doc (propsForConditions st) (Some t)),
        (documentBelongsToTab doc t); simpl; intuition discriminate.
    + destruct (required doc), (provided doc),
        (checkDocumentConditions doc (propsForConditions st) None);
        simpl; intuition discriminate.
Qed.

Lemma visibility_filter_witness :
  let d1A := fetchedDocument (Scenarios.bagX "false")
               (initialDocument Scenarios.d1Config) in
  let d1C := fetchedDocument Scenarios.bagY
               (initialDocument Scenarios.d1Config) in
  In d1A (getVisibleDocuments Scenarios.catalogD1
            (Scenarios.stateAfterFetch (Scenarios.bagX "false") "decret"))
  /\ In d1C (getVisibleDocuments Scenarios.catalogD1
               (Scenarios.stateAfterFetch Scenarios.bagY "autre")).
Proof.
  cbv zeta. split.
  - destruct (visibility_filter Scenarios.catalogD1
                (Scenarios.stateAfterFetch (Scenarios.bagX "false") "decret")
                (fetchedDocument (Scenarios.bagX "false")
                   (initialDocument Scenarios.d1Config)))
      as (H & _); [reflexivity|].
    apply (H "decret"); [reflexivity|reflexivity|discriminate|].
    split; [left; reflexivity|]. split; [reflexivity|]. left. reflexivity.
  - destruct (visibility_filter Scenarios.catalogD1
                (Scenarios.stateAfterFetch Scenarios.bagY "autre")
                (fetchedDocument Scenarios.bagY
                   (initialDocument Scenarios.d1Config)))
      as (_ & H); [reflexivity|].
    apply H; [reflexivity|].
    split; [left; reflexivity|]. left. split; [left; reflexivity|].
    intros [E _]. discriminate E.
Defined.

End VisibilityFacts.

(** * Properties of the view router *)

Module RouterFacts.

Import Evaluator.

Lemma isEmpty_false (s : string) : s <> EmptyString -> isEmpty s = false.
Proof. destruct s; [now intros []|reflexivity]. Qed.

Section TabConfigLayout.

Import DocumentList.

Lemma firstMatchingTab_hosts (nv : string) (entries : Dict TabConfig) :
  firstMatchingTab nv entries
  = option_map fst (find (fun entry => hostsCategory nv (snd entry)) entries).
Proof.
  induction entries as [|[t config] r IH]; simpl; [reflexivity|].
  unfold hostsCategory at 1. simpl.
  destruct (conditions config) as [cs|]; [|exact IH].
  destruct (existsb (isCategoryCondition nv) cs); [reflexivity|exact IH].
Qed.

Lemma find_none_forall {A : Type} (f : A -> bool) (l : list A) :
  Forall (fun x => f x = false) l -> find f l = None.
Proof.
  induction 1 as [|x l Hx _ IH]; simpl; [reflexivity|]. now rewrite Hx.
Qed.

Lemma find_first {A : Type} (f : A -> bool) (before after : list A) (x : A) :
  Forall (fun y => f y = false) before -> f x = true ->
  find f (before ++ x :: after) = Some x.
Proof.
  induction 1 as [|y l Hy _ IH]; simpl; intro Hx.
  - now rewrite Hx.
  - rewrite Hy. auto.
Qed.

Lemma find_split {A : Type} (f : A -> bool) (l : list A) (x : A) :
  find f l = Some x ->
  exists before after,
    l = (before ++ x :: after)%list
    /\ Forall (fun y => f y = false) before /\ f x = true.
Proof.
  induction l as [|a l IH]; simpl; [discriminate|].
  destruct (f a) eqn:E.
  - intros [= <-]. exists [], l. auto.
  - intro H. destruct (IH H) as (b & c & -> & Hb & Hx).
    exists (a :: b), c. auto.
Qed.

Lemma firstMatchingTab_none_of_doc (nv : string) (entries : Dict TabConfig) :
  existsb (fun entry => hostsCategory nv (snd entry)) entries = false ->
  firstMatchingTab nv entries = None.
Proof.
  intro H. rewrite firstMatchingTab_hosts, find_none_forall; [reflexivity|].
  apply Forall_forall. intros x Hx.
  exact (proj1 (CalculatorFacts.existsb_false_iff _ _) H x Hx).
Qed.

Lemma firstMatchingDocument_skip (nv : string)
    (before rest : list DocumentConfig) :
  Forall (fun d => docHostsCategory nv d = false) before ->
  firstMatchingDocument nv (before ++ rest) = firstMatchingDocument nv rest.
Proof.
  induction 1 as [|d l Hd _ IH]; simpl; [reflexivity|].
  unfold docHostsCategory in Hd.
  destruct (config_tabConfig d) as [entries|]; [|exact IH].
  now rewrite (firstMatchingTab_none_of_doc _ _ Hd).
Qed.

(** The router of the tabConfig layout: nothing for an empty value or a
    catalog in which no view hosts the category condition; otherwise the
    first hosting view, in the order of the catalog and then of the views
    of the document. *)
Lemma router_first_hosting_view (catalog : list DocumentConfig)
    (natureDemandeValue : string) :
  let nv := normalize natureDemandeValue in
  (natureDemandeValue = EmptyString ->
   getTabForNatureDemande catalog natureDemandeValue = None)
  /\ (Forall (fun d => docHostsCategory nv d = false) catalog ->
      getTabForNatureDemande catalog natureDemandeValue = None)
  /\ (forall before doc after entries earlier t config later,
        natureDemandeValue <> EmptyString ->
        catalog = (before ++ doc :: after)%list ->
        Forall (fun d => docHostsCategory nv d = false) before ->
        config_tabConfig doc = Some entries ->
        entries = (earlier ++ (t, config) :: later)%list ->
        Forall (fun entry => hostsCategory nv (snd entry) = false) earlier ->
        hostsCategory nv config = true ->
        getTabForNatureDemande catalog natureDemandeValue = Some t).
Proof.
  cbv zeta. unfold getTabForNatureDemande. split; [|split].
  - now intros ->.
  - intro H. destruct (isEmpty natureDemandeValue); [reflexivity|].
    rewrite <- (app_nil_r catalog), (firstMatchingDocument_skip _ _ _ H).
    reflexivity.
  - intros before doc after entries earlier t config later Hne -> Hb Hc -> He Hh.
    rewrite (isEmpty_false _ Hne), (firstMatchingDocument_skip _ _ _ Hb).
    simpl. rewrite Hc, firstMatchingTab_hosts.
    rewrite (find_first (fun entry => hostsCategory _ (snd entry))
                        earlier later (t, config) He Hh).
    reflexivity.
Qed.

End TabConfigLayout.

Section LegacyLayout.

Import LegacyDocumentList.

Lemma find_preferred (matchingDocs : list DocumentConfig)
    (first : DocumentConfig) (rest : list DocumentConfig) :
  matchingDocs = first :: rest ->
  Preferred matchingDocs
            (match find hasSingleCondition matchingDocs with
             | Some d => d
             | None => first
             end).
Proof.
  intro E. destruct (find hasSingleCondition matchingDocs) as [d|] eqn:F.
  - left. destruct (find_split _ _ _ F) as (b & a & H1 & H2 & H3).
    exists b, a. auto.
  - right. split.
    + apply Forall_forall. intros x Hx. exact (find_none _ _ F x Hx).
    + now rewrite E.
Qed.

Lemma preferred_unique (matchingDocs : list DocumentConfig)
    (first : DocumentConfig) (rest : list DocumentConfig)
    (chosen : DocumentConfig) :
  matchingDocs = first :: rest ->
  Preferred matchingDocs chosen ->
  chosen = match find hasSingleCondition matchingDocs with
           | Some d => d
           | None => first
           end.
Proof.
  intros E [(b & a & H1 & H2 & H3)|[H1 H2]].
  - rewrite H1, (find_first _ b a chosen H2 H3). reflexivity.
  - rewrite (find_none_forall _ _ H1). rewrite E in H2. simpl in H2. congruence.
Qed.

(** The router of the legacy layout: nothing for an empty value or when
    no document matches; otherwise the preferred document decides, by its
    only tab, or, when it lists several tabs, by the words found in the
    category value. *)
Lemma legacy_router_preference (catalog : list DocumentConfig)
    (natureDemandeValue : string) :
  let nv := normalize natureDemandeValue in
  let matchingDocs := filter (isMatchingDoc nv) catalog in
  (natureDemandeValue = EmptyString ->
   getTabForNatureDemande catalog natureDemandeValue = None)
  /\ (matchingDocs = [] ->
      getTabForNatureDemande catalog natureDemandeValue = None)
  /\ (forall chosen,
        natureDemandeValue <> EmptyString ->
        Preferred matchingDocs chosen ->
        (hasSeveralTabs (tab chosen) = false ->
         getTabForNatureDemande catalog natureDemandeValue
         = getTabValue (tab chosen))
        /\ (hasSeveralTabs (tab chosen) = true ->
            getTabForNatureDemande catalog natureDemandeValue
            = chooseAmongTabs nv matchingDocs chosen)).
Proof.
  cbv zeta. unfold getTabForNatureDemande. split; [|split].
  - now intros ->.
  - intros ->. now destruct (isEmpty natureDemandeValue).
  - intros chosen Hne Hp. rewrite (isEmpty_false _ Hne).
    destruct (filter (isMatchingDoc (normalize natureDemandeValue)) catalog)
      as [|first rest] eqn:E.
    + exfalso. destruct Hp as [(b & a & H1 & _)|[_ H2]].
      * now destruct b.
      * discriminate.
    + rewrite <- (preferred_unique _ first rest chosen eq_refl Hp).
      split; intros ->; reflexivity.
Qed.

End LegacyLayout.

(** C7, as amended: both routers return nothing for an empty category
    value and when no document carries the category condition.  The
    router of the tabConfig layout otherwise returns the first view that
    hosts the condition, in catalog order and then in the order of the
    views of the document.  The router of the legacy layout prefers the
    first matching document with exactly one category condition, else the
    first matching document, and reads the category value for the words
    naturalisation and decret only when that document lists several
    tabs. *)
Theorem view_router_resolution
    (catalog : list DocumentList.DocumentConfig)
    (legacyCatalog : list LegacyDocumentList.DocumentConfig)
    (natureDemandeValue : string) :
  let nv := DocumentList.normalize natureDemandeValue in
  let matchingDocs :=
    filter (LegacyDocumentList.isMatchingDoc nv) legacyCatalog in
  ((natureDemandeValue = EmptyString ->
    DocumentList.getTabForNatureDemande catalog natureDemandeValue = None)
   /\ (Forall (fun d => DocumentList.docHostsCategory nv d = false) catalog ->
       DocumentList.getTabForNatureDemande catalog natureDemandeValue = None)
   /\ (forall before doc after entries earlier t config later,
         natureDemandeValue <> EmptyString ->
         catalog = (before ++ doc :: after)%list ->
         Forall (fun d => DocumentList.docHostsCategory nv d = false) before ->
         DocumentList.config_tabConfig doc = Some entries ->
         entries = (earlier ++ (t, config) :: later)%list ->
         Forall (fun entry =>
                   DocumentList.hostsCategory nv (snd entry) = false) earlier ->
         DocumentList.hostsCategory nv config = true ->
         DocumentList.getTabForNatureDemande catalog natureDemandeValue
         = Some t))
  /\ ((natureDemandeValue = EmptyString ->
       LegacyDocumentList.getTabForNatureDemande legacyCatalog
         natureDemandeValue = None)
      /\ (matchingDocs = [] ->
          LegacyDocumentList.getTabForNatureDemande legacyCatalog
            natureDemandeValue = None)
      /\ (forall chosen,
            natureDemandeValue <> EmptyString ->
            LegacyDocumentList.Preferred matchingDocs chosen ->
            (LegacyDocumentList.hasSeveralTabs (LegacyDocumentList.tab chosen)
             = false ->
             LegacyDocumentList.getTabForNatureDemande legacyCatalog
               natureDemandeValue
             = LegacyDocumentList.getTabValue (LegacyDocumentList.tab chosen))
            /\ (LegacyDocumentList.hasSeveralTabs
                  (LegacyDocumentList.tab chosen) = true ->
                LegacyDocumentList.getTabForNatureDemande legacyCatalog
                  natureDemandeValue
                = LegacyDocumentList.chooseAmongTabs nv matchingDocs chosen))).
Proof.
  cbv zeta. split.
  - exact (router_first_hosting_view catalog natureDemandeValue).
  - exact (legacy_router_preference legacyCatalog natureDemandeValue).
Qed.

Lemma view_router_resolution_witness :
  DocumentList.getTabForNatureDemande Scenarios.twoCandidates "Mariage"
  = Some "decret"
  /\ LegacyDocumentList.getTabForNatureDemande Scenarios.legacyCandidates
       "Mariage"
     = Some "naturalisation_mariage".
Proof.
  destruct (view_router_resolution Scenarios.twoCandidates
              Scenarios.legacyCandidates "Mariage")
    as [(_ & _ & H) (_ & _ & L)].
  split.
  - apply (H [] Scenarios.acteDeMariage [Scenarios.livretDeFamille]
             [("decret", Scenarios.decretView)]
             [] "decret" Scenarios.decretView []);
      try reflexivity; try constructor; discriminate.
  - assert (LegacyDocumentList.Preferred
              (filter (LegacyDocumentList.isMatchingDoc
                         (DocumentList.normalize "Mariage"))
                      Scenarios.legacyCandidates)
              Scenarios.legacyLivret) as P.
    { left. exists [Scenarios.legacyActe], []. split; [reflexivity|].
      split; [repeat constructor|reflexivity]. }
    destruct (L Scenarios.legacyLivret) as [L1 _]; [discriminate|exact P|].
    rewrite L1; reflexivity.
Defined.

(** C7, as stated, fails on the router of the tabConfig layout: a view
    whose only condition is the category condition is not preferred to an
    earlier view that hosts it beside a second category condition. *)
Lemma router_does_not_prefer_single_condition :
  ~ DocumentList.PrefersSingleConditionView DocumentList.getTabForNatureDemande.
Proof.
  intro H.
  destruct (H Scenarios.twoCandidates "Mariage" Scenarios.livretDeFamille
              [("naturalisation_mariage", Scenarios.mariageView)]
              "naturalisation_mariage" Scenarios.mariageView)
    as (doc' & entries' & t' & config' & Hr & Hin & Hc & Hin' & Honly);
    [discriminate | simpl; auto | reflexivity | simpl; auto | reflexivity |].
  vm_compute in Hr. injection Hr as <-.
  destruct Hin as [<-|[<-|[]]]; simpl in Hc; injection Hc as <-;
    destruct Hin' as [E|[]]; try discriminate E.
  injection E as <-. vm_compute in Honly. discriminate.
Qed.

End RouterFacts.

(** * The operator [in] and the representations of a multi-value field *)

Module MembershipFacts.

Import Evaluator.

Lemma trimStart_idempotent (s : string) : trimStart (trimStart s) = trimStart s.
Proof.
  induction s as [|c r IH]; simpl; [reflexivity|].
  destruct (isWhiteSpace c) eqn:E; [exact IH|]. simpl. now rewrite E.
Qed.

Lemma trimEnd_idempotent (s : string) : trimEnd (trimEnd s) = trimEnd s.
Proof.
  induction s as [|c r IH]; simpl; [reflexivity|].
  destruct (isWhiteSpace c && isEmpty (trimEnd r)) eqn:E; [reflexivity|].
  simpl. now rewrite IH, E.
Qed.

Lemma trimStart_clean (s : string) : startsClean (trimStart s).
Proof.
  induction s as [|c r IH]; simpl; [exact I|].
  destruct (isWhiteSpace c) eqn:E; [exact IH|]. exact E.
Qed.

Lemma trimStart_trimEnd_clean (s : string) :
  startsClean s -> trimStart (trimEnd s) = trimEnd s.
Proof.
  destruct s as [|c r]; simpl; [reflexivity|]. intro E. rewrite E. simpl.
  now rewrite E.
Qed.

Lemma trim_idempotent (s : string) : trim (trim s) = trim s.
Proof.
  unfold trim.
  rewrite (trimStart_trimEnd_clean _ (trimStart_clean s)).
  apply trimEnd_idempotent.
Qed.

Lemma existsb_same_members {A : Type} (f : A -> bool) (l1 l2 : list A) :
  (forall x, In x l1 <-> In x l2) -> existsb f l1 = existsb f l2.
Proof.
  intro H. destruct (existsb f l1) eqn:E1; destruct (existsb f l2) eqn:E2;
    try reflexivity.
  - apply existsb_exists in E1. destruct E1 as [x [Hx Hf]].
    apply H in Hx.
    pose proof (proj1 (CalculatorFacts.existsb_false_iff _ _) E2 x Hx).
    congruence.
  - apply existsb_exists in E2. destruct E2 as [x [Hx Hf]].
    apply H in Hx.
    pose proof (proj1 (CalculatorFacts.existsb_false_iff _ _) E1 x Hx).
    congruence.
Qed.

Lemma includes_nonempty (s needle : string) :
  needle <> EmptyString -> includes s needle = true -> isEmpty s = false.
Proof.
  destruct s; [|reflexivity]. destruct needle; [now intros []|].
  intros _ H. simpl in H. discriminate H.
Qed.

Lemma trim_nonempty (s : string) : isEmpty (trim s) = false -> isEmpty s = false.
Proof. destruct s; [discriminate|reflexivity]. Qed.

(** The result of [in] on a bag value that is a string with a separator. *)
Lemma in_on_separated_string (condition : DocumentCondition)
    (properties : Properties) (s : string) :
  operator condition = "in" ->
  resolveProperty properties (property condition) = JsPrim (SStr s) ->
  (includes (trim s) ";" = true ->
   evaluateCondition condition properties
   = existsb (fun val => String.eqb val
                (normalizeForComparison (trim (value condition))))
             (separatedValues ";" (trim s)))
  /\ (includes (trim s) ";" = false -> includes (trim s) "," = true ->
      evaluateCondition condition properties
      = existsb (fun val => String.eqb val
                   (normalizeForComparison (trim (value condition))))
                (separatedValues "," (trim s))).
Proof.
  intros Hop Hv. unfold evaluateCondition, evaluateIn. rewrite Hop, Hv.
  cbn [String.eqb Ascii.eqb Bool.eqb truthy truthyScalar toString scalarToString].
  split.
  - intro Hi.
    assert (isEmpty (trim s) = false) as Hne
      by (apply (includes_nonempty _ ";"); [discriminate|exact Hi]).
    rewrite (trim_nonempty _ Hne). cbn [negb]. rewrite Hne.
    rewrite !trim_idempotent, Hi. reflexivity.
  - intros Hs Hi.
    assert (isEmpty (trim s) = false) as Hne
      by (apply (includes_nonempty _ ","); [discriminate|exact Hi]).
    rewrite (trim_nonempty _ Hne). cbn [negb]. rewrite Hne.
    rewrite !trim_idempotent, Hs, Hi. reflexivity.
Qed.

(** The part of the invariance that holds: a string separated by
    semicolons and one separated by commas give the same result when they
    hold the same items. *)
Lemma in_semicolons_and_commas_agree (condition : DocumentCondition)
    (bag1 bag2 : Properties) (s1 s2 : string) :
  operator condition = "in" ->
  resolveProperty bag1 (property condition) = JsPrim (SStr s1) ->
  resolveProperty bag2 (property condition) = JsPrim (SStr s2) ->
  includes (trim s1) ";" = true ->
  includes (trim s2) ";" = false ->
  includes (trim s2) "," = true ->
  (forall x, In x (separatedValues ";" (trim s1))
             <-> In x (separatedValues "," (trim s2))) ->
  evaluateCondition condition bag1 = evaluateCondition condition bag2.
Proof.
  intros Hop H1 H2 Hi1 Hs2 Hi2 Hsame.
  rewrite (proj1 (in_on_separated_string _ _ _ Hop H1) Hi1).
  rewrite (proj2 (in_on_separated_string _ _ _ Hop H2) Hs2 Hi2).
  now apply existsb_same_members.
Qed.

Lemma resolve_undefined_or_empty_in
    (condition : DocumentCondition) (properties : Properties) :
  operator condition = "in" ->
  truthy (resolveProperty properties (property condition)) = false ->
  evaluateCondition condition properties = false.
Proof.
  intros Hop Hv. unfold evaluateCondition, evaluateIn.
  rewrite Hop, Hv. reflexivity.
Qed.

(** An absent bag value and an empty one yield [false] for [in]. *)
Lemma in_absent_or_empty_is_false
    (condition : DocumentCondition) (properties : Properties) :
  operator condition = "in" ->
  absentFrom properties (property condition)
  \/ resolveProperty properties (property condition) = JsPrim (SStr EmptyString)
  \/ resolveProperty properties (property condition) = JsArr [] ->
  evaluateCondition condition properties = false.
Proof.
  intros Hop [H|[H|H]].
  - apply resolve_undefined_or_empty_in; [exact Hop|].
    now rewrite (EvaluatorFacts.absent_resolve _ _ H).
  - apply resolve_undefined_or_empty_in; [exact Hop|]. now rewrite H.
  - unfold evaluateCondition, evaluateIn. rewrite Hop, H. reflexivity.
Qed.

(** The result of [in] on a bag value that is a native list: membership
    by trimmed equality. *)
Lemma in_on_native_list (condition : DocumentCondition)
    (properties : Properties) (items : list JsScalar) :
  operator condition = "in" ->
  resolveProperty properties (property condition) = JsArr items ->
  isEmpty (trim (toString (JsArr items))) = false ->
  evaluateCondition condition properties
  = existsb (fun val => String.eqb (trim (scalarToString val))
                                   (trim (value condition)))
            items.
Proof.
  intros Hop Hv Hne. unfold evaluateCondition, evaluateIn. rewrite Hop, Hv.
  cbn [String.eqb Ascii.eqb Bool.eqb truthy]. rewrite Hne. cbn [negb orb].
  now rewrite trim_idempotent.
Qed.

Lemma existsb_filter_map {A B : Type} (f g : B -> bool) (h : A -> B)
    (l : list A) :
  existsb f (filter g (map h l))
  = existsb (fun x => g (h x) && f (h x)) l.
Proof.
  induction l as [|a l IH]; simpl; [reflexivity|].
  destruct (g (h a)); simpl; now rewrite IH.
Qed.

Lemma existsb_agree {A : Type} (f g : A -> bool) (l : list A) :
  (forall x, In x l -> f x = g x) -> existsb f l = existsb g l.
Proof.
  induction l as [|a l IH]; intro H; simpl; [reflexivity|].
  rewrite (H a (or_introl eq_refl)), IH; [reflexivity|].
  intros x Hx. apply H. now right.
Qed.

(** A native list and a separated string that hold the same items give
    the same result when nothing is there to collapse: the condition
    value, trimmed, is not empty and has no run of blanks, and so has
    every item of the list. *)
Lemma in_list_and_string_agree (condition : DocumentCondition)
    (bag : Properties) (items : list JsScalar) (values : list string) :
  operator condition = "in" ->
  resolveProperty bag (property condition) = JsArr items ->
  isEmpty (trim (toString (JsArr items))) = false ->
  isEmpty (trim (value condition)) = false ->
  normalizeForComparison (trim (value condition)) = trim (value condition) ->
  (forall item, In item items ->
     normalizeForComparison (scalarToString item)
     = trim (scalarToString item)) ->
  (forall x,
     In x (filter (fun v => negb (isEmpty v))
             (map (fun item => normalizeForComparison (scalarToString item))
                  items))
     <-> In x values) ->
  evaluateCondition condition bag
  = existsb (fun val => String.eqb val
               (normalizeForComparison (trim (value condition))))
            values.
Proof.
  intros Hop Hv Hne Hval Hc Hitems Hsame.
  rewrite (in_on_native_list _ _ _ Hop Hv Hne).
  rewrite <- (existsb_same_members _ _ _ Hsame).
  rewrite existsb_filter_map. apply existsb_agree.
  intros item Hin. rewrite (Hitems item Hin), Hc.
  destruct (String.eqb_spec (trim (scalarToString item))
              (trim (value condition))) as [E|E].
  - rewrite E, Hval. reflexivity.
  - now rewrite andb_false_r.
Qed.

(** C6, as amended: for a condition with operator [in], an absent or
    empty bag value yields [false]; a string separated by semicolons and
    one separated by commas give the same result when their trimmed and
    collapsed items are the same; a native list is matched by trimmed
    equality, without collapsing, and gives the same result as a
    separated string with the same items when the condition value is not
    blank and neither it nor an item of the list has a run of blanks to
    collapse. *)
Theorem in_membership_by_representation (condition : DocumentCondition) :
  operator condition = "in" ->
  (forall bag,
     absentFrom bag (property condition)
     \/ resolveProperty bag (property condition) = JsPrim (SStr EmptyString)
     \/ resolveProperty bag (property condition) = JsArr [] ->
     evaluateCondition condition bag = false)
  /\ (forall bag1 bag2 s1 s2,
        resolveProperty bag1 (property condition) = JsPrim (SStr s1) ->
        resolveProperty bag2 (property condition) = JsPrim (SStr s2) ->
        includes (trim s1) ";" = true ->
        includes (trim s2) ";" = false ->
        includes (trim s2) "," = true ->
        (forall x, In x (separatedValues ";" (trim s1))
                   <-> In x (separatedValues "," (trim s2))) ->
        evaluateCondition condition bag1 = evaluateCondition condition bag2)
  /\ (forall bag items,
        resolveProperty bag (property condition) = JsArr items ->
        isEmpty (trim (toString (JsArr items))) = false ->
        (evaluateCondition condition bag = true
         <-> exists item,
               In item items
               /\ trim (scalarToString item) = trim (value condition)))
  /\ (forall bag1 bag2 items s (sep : ascii),
        resolveProperty bag1 (property condition) = JsArr items ->
        isEmpty (trim (toString (JsArr items))) = false ->
        resolveProperty bag2 (property condition) = JsPrim (SStr s) ->
        (sep = ";"%char /\ includes (trim s) ";" = true
         \/ sep = ","%char /\ includes (trim s) ";" = false
            /\ includes (trim s) "," = true) ->
        isEmpty (trim (value condition)) = false ->
        normalizeForComparison (trim (value condition))
        = trim (value condition) ->
        (forall item, In item items ->
           normalizeForComparison (scalarToString item)
           = trim (scalarToString item)) ->
        (forall x,
           In x (filter (fun v => negb (isEmpty v))
                   (map (fun item =>
                           normalizeForComparison (scalarToString item))
                        items))
           <-> In x (separatedValues sep (trim s))) ->
        evaluateCondition condition bag1 = evaluateCondition condition bag2).
Proof.
  intro Hop. split; [|split; [|split]].
  - intros bag H. exact (in_absent_or_empty_is_false condition bag Hop H).
  - intros bag1 bag2 s1 s2.
    exact (in_semicolons_and_commas_agree condition bag1 bag2 s1 s2 Hop).
  - intros bag items Hv Hne.
    rewrite (in_on_native_list _ _ _ Hop Hv Hne). rewrite existsb_exists.
    split; intros [item [Hin E]]; exists item; split; try exact Hin.
    + now apply String.eqb_eq.
    + now apply String.eqb_eq.
  - intros bag1 bag2 items s sep H1 Hne H2 Hsep Hval Hc Hitems Hsame.
    rewrite (in_list_and_string_agree condition bag1 items
               (separatedValues sep (trim s)) Hop H1 Hne Hval Hc Hitems Hsame).
    destruct (in_on_separated_string condition bag2 s Hop H2) as [Hs Hk].
    destruct Hsep as [[-> Hi]|[-> [Hn Hi]]].
    + now rewrite (Hs Hi).
    + now rewrite (Hk Hn Hi).
Qed.

Lemma in_membership_by_representation_witness :
  let condition := mkCondition "situation" "in" " Salarie CDI " in
  let asList := JsArr [SStr "Salarie CDI"; SStr "Etudiant"] in
  let withSemicolons := JsPrim (SStr "Salarie CDI;Etudiant") in
  evaluateCondition condition [("situation", asList)]
  = evaluateCondition condition [("situation", withSemicolons)]
  /\ evaluateCondition condition [("situation", asList)] = true
  /\ evaluateCondition condition [] = false.
Proof.
  cbv zeta.
  destruct (in_membership_by_representation
              (mkCondition "situation" "in" " Salarie CDI ") eq_refl)
    as (Habsent & _ & Hlist & Hagree).
  split; [|split].
  - apply (Hagree _ _ [SStr "Salarie CDI"; SStr "Etudiant"]
             "Salarie CDI;Etudiant" ";"%char); try reflexivity.
    + left. split; reflexivity.
    + intros item [<-|[<-|[]]]; reflexivity.
  - apply (Hlist _ [SStr "Salarie CDI"; SStr "Etudiant"]); try reflexivity.
    exists (SStr "Salarie CDI"). split; [now left|reflexivity].
  - apply Habsent. left. intros k [].
Defined.

(** C6, as the claim words it, fails: the condition value and an item of
    the bag differ by inner blanks only.  The bag holds the same items
    in its three representations; the two separated strings match, the
    native list does not. *)
Theorem in_native_list_keeps_inner_blanks :
  let condition := mkCondition "situation" "in" "Salarie  CDI" in
  let asList := JsArr [SStr "Salarie CDI"; SStr "Etudiant"] in
  let withSemicolons := JsPrim (SStr "Salarie CDI;Etudiant") in
  let withCommas := JsPrim (SStr "Salarie CDI,Etudiant") in
  split ";" "Salarie CDI;Etudiant" = ["Salarie CDI"; "Etudiant"]
  /\ split "," "Salarie CDI,Etudiant" = ["Salarie CDI"; "Etudiant"]
  /\ map normalizeForComparison ["Salarie CDI"; "Etudiant"]
     = ["Salarie CDI"; "Etudiant"]
  /\ evaluateCondition condition [("situation", withSemicolons)] = true
  /\ evaluateCondition condition [("situation", withCommas)] = true
  /\ evaluateCondition condition [("situation", asList)] = false
  /\ evaluateCondition condition [("situation", asList)]
     <> evaluateCondition condition [("situation", withSemicolons)].
Proof. vm_compute. repeat split. discriminate. Qed.

End MembershipFacts.

(** * Properties of the extraction of field names *)

Module ErrorPayloadFacts.

Import ErrorPayload.

Lemma setAdd_In (failed : StringSet) (x y : string) :
  In y (setAdd failed x) <-> In y failed \/ y = x.
Proof.
  unfold setAdd. destruct (existsb (String.eqb x) failed) eqn:E.
  - apply existsb_exists in E. destruct E as [z [Hz Hx]].
    apply String.eqb_eq in Hx. subst z. intuition congruence.
  - rewrite in_app_iff. simpl. intuition congruence.
Qed.

Lemma setAddAll_In (xs : list string) :
  forall (failed : StringSet) (y : string),
  In y (setAddAll failed xs) <-> In y failed \/ In y xs.
Proof.
  unfold setAddAll. induction xs as [|x xs IH]; simpl; intros failed y.
  - tauto.
  - rewrite IH, setAdd_In. intuition congruence.
Qed.

Lemma setAdd_NoDup (failed : StringSet) (x : string) :
  NoDup failed -> NoDup (setAdd failed x).
Proof.
  intro H. unfold setAdd. destruct (existsb (String.eqb x) failed) eqn:E.
  - exact H.
  - apply NoDup_app; [exact H|repeat constructor; intros []|].
    intros y Hy Hin. destruct Hin as [Hx|[]]. subst y.
    pose proof (proj1 (CalculatorFacts.existsb_false_iff _ _) E x Hy) as F.
    now rewrite String.eqb_refl in F.
Qed.

Lemma setAddAll_NoDup (xs : list string) :
  forall failed : StringSet, NoDup failed -> NoDup (setAddAll failed xs).
Proof.
  unfold setAddAll. induction xs as [|x xs IH]; simpl; intros failed H.
  - exact H.
  - apply IH. now apply setAdd_NoDup.
Qed.

Lemma collectMatches_In (patterns : list MatchAt) (text : string) :
  forall (failed : StringSet) (y : string),
  In y (collectMatches patterns text failed)
  <-> In y failed
      \/ exists pattern, In pattern patterns /\ In y (execAll pattern text).
Proof.
  unfold collectMatches.
  induction patterns as [|p ps IH]; simpl; intros failed y.
  - split; [auto|]. intros [H|[p [[] _]]]. exact H.
  - rewrite IH, setAddAll_In. split.
    + intros [[H|H]|[q [Hq Hy]]]; eauto.
    + intros [H|[q [[<-|Hq] Hy]]]; eauto.
Qed.

Lemma collectMatches_NoDup (patterns : list MatchAt) (text : string) :
  forall failed : StringSet,
  NoDup failed -> NoDup (collectMatches patterns text failed).
Proof.
  unfold collectMatches.
  induction patterns as [|p ps IH]; simpl; intros failed H.
  - exact H.
  - apply IH. now apply setAddAll_NoDup.
Qed.

(** A match that reaches the end of the text ends the search. *)
Lemma execAllFrom_skip_all (pattern : MatchAt) (text : string) :
  forall skip : nat,
  String.length text <= skip -> execAllFrom pattern skip text = [].
Proof.
  induction text as [|c r IH]; simpl; intros skip H; [reflexivity|].
  destruct skip as [|k]; [lia|]. apply IH. lia.
Qed.

Lemma spanNotQuote_name (name rest : string) :
  noQuote name ->
  spanNotQuote (name ++ String quote rest) = (name, String quote rest).
Proof.
  unfold noQuote. induction name as [|c r IH]; simpl; intro H.
  - reflexivity.
  - destruct (Ascii.eqb_spec c quote) as [E|_].
    + exfalso. apply (H c); auto.
    + rewrite IH; [reflexivity|]. intros c' Hc'. apply H. auto.
Qed.

Lemma length_append (a b : string) :
  String.length (a ++ b) = String.length a + String.length b.
Proof. induction a as [|c r IH]; simpl; [reflexivity|]. now rewrite IH. Qed.

(** The message of the store for one missing field yields that field. *)
Lemma quoted_name_is_extracted (name : string) :
  name <> EmptyString -> noQuote name ->
  execAll quotedDoesNotExist
          (String quote (name ++ String quote " does not exist"))
  = [name].
Proof.
  intros Hne Hq. unfold execAll. cbn [execAllFrom].
  unfold quotedDoesNotExist, quotedName.
  rewrite Ascii.eqb_refl, (spanNotQuote_name _ _ Hq).
  destruct name as [|c r]; [now elim Hne|].
  cbn [isEmpty].
  replace (prefix " does not exist" " does not exist") with true
    by (vm_compute; reflexivity).
  f_equal.
  apply execAllFrom_skip_all. rewrite length_append. simpl. lia.
Qed.

End ErrorPayloadFacts.

(** * Properties of the full save *)

Module FullSaveFacts.

Import ErrorPayload Store.

#[local] Arguments UpdateDocuments.deleteDefined : simpl never.
#[local] Arguments UpdateDocuments.failedPropertiesOf : simpl never.
#[local] Arguments UpdateDocuments.moreFailedPropsOf : simpl never.
#[local] Arguments UpdateDocumentsLoop.deleteAll : simpl never.
#[local] Arguments UpdateDocumentsLoop.extractFailedProperties : simpl never.
#[local] Arguments UpdateDocumentsLoop.failedAfterRetries : simpl never.

Lemma keys_remove (k : string) (b : Batch) :
  keys (remove k b) = filter (fun k' => negb (String.eqb k' k)) (keys b).
Proof.
  unfold remove, keys. induction b as [|[k' v] r IH]; simpl; [reflexivity|].
  destruct (String.eqb k' k); simpl; now rewrite IH.
Qed.

Lemma keys_deleteAll (names : StringSet) :
  forall (b : Batch) (k : string),
  In k (keys (UpdateDocumentsLoop.deleteAll names b))
  <-> In k (keys b) /\ ~ In k names.
Proof.
  unfold UpdateDocumentsLoop.deleteAll.
  induction names as [|n names IH]; simpl; intros b k.
  - tauto.
  - rewrite IH, keys_remove, filter_In, negb_true_iff, String.eqb_neq.
    intuition congruence.
Qed.

Lemma keys_deleteDefined (names : StringSet) :
  forall (b : Batch) (k : string),
  In k (keys (UpdateDocuments.deleteDefined names b)) -> In k (keys b).
Proof.
  unfold UpdateDocuments.deleteDefined.
  induction names as [|n names IH]; simpl; intros b k; [tauto|].
  intro H. apply IH in H. destruct (isUndefined (get b n)); [exact H|].
  rewrite keys_remove in H. now apply filter_In in H.
Qed.

Lemma isEmptyBatch_false (b : Batch) : b <> [] -> isEmptyBatch b = false.
Proof. destruct b; [now intros []|reflexivity]. Qed.

(** *** Names taken from the payload *)

Lemma nested_addFromEntry_In (failed : StringSet) (entry : ErrorEntry)
    (x : string) :
  In x (UpdateDocuments.addFromEntry failed entry)
  <-> In x failed
      \/ In x (contextNames entry)
      \/ truthyString (entry_name entry) = Some x
      \/ namedInMessage UpdateDocuments.patterns entry x.
Proof.
  unfold UpdateDocuments.addFromEntry, namedInMessage, matchedIn.
  destruct (truthyString (entry_message entry)) as [m|];
    destruct (truthyString (entry_name entry)) as [n|];
    rewrite ?ErrorPayloadFacts.collectMatches_In, ?ErrorPayloadFacts.setAdd_In,
      ?ErrorPayloadFacts.setAddAll_In.
  - split.
    + intros [[[H|H]|H]|H]; subst; eauto 10.
    + intros [H|[H|[H|(m' & E & H)]]]; try injection E as <-;
        try injection H as ->; auto.
  - split.
    + intros [[H|H]|H]; eauto 10.
    + intros [H|[H|[H|(m' & E & H)]]]; try injection E as <-;
        try discriminate H; auto.
  - split.
    + intros [[H|H]|H]; subst; auto.
    + intros [H|[H|[H|(m' & E & H)]]]; try discriminate E;
        try injection H as ->; auto.
  - split.
    + intros [H|H]; auto.
    + intros [H|[H|[H|(m' & E & H)]]]; try discriminate; auto.
Qed.

Lemma loop_addFromEntry_In (failed : StringSet) (entry : ErrorEntry)
    (x : string) :
  In x (UpdateDocumentsLoop.addFromEntry failed entry)
  <-> In x failed
      \/ In x (contextNames entry)
      \/ namedInMessage UpdateDocumentsLoop.patterns entry x.
Proof.
  unfold UpdateDocumentsLoop.addFromEntry, namedInMessage, matchedIn.
  destruct (truthyString (entry_message entry)) as [m|];
    rewrite ?ErrorPayloadFacts.collectMatches_In,
      ?ErrorPayloadFacts.setAddAll_In.
  - split.
    + intros [[H|H]|H]; eauto 10.
    + intros [H|[H|(m' & E & H)]]; try injection E as <-; auto.
  - split.
    + intros [H|H]; auto.
    + intros [H|[H|(m' & E & H)]]; try discriminate; auto.
Qed.

Lemma fold_entries_In {P : ErrorEntry -> string -> Prop}
    (add : StringSet -> ErrorEntry -> StringSet) :
  (forall failed entry x,
     In x (add failed entry) <-> In x failed \/ P entry x) ->
  forall (errors : list ErrorEntry) (failed : StringSet) (x : string),
  In x (fold_left add errors failed)
  <-> In x failed \/ exists entry, In entry errors /\ P entry x.
Proof.
  intros Hadd errors. induction errors as [|e r IH]; simpl; intros failed x.
  - split; [auto|]. intros [H|(entry & [] & _)]. exact H.
  - rewrite IH, Hadd. split.
    + intros [[H|H]|(entry & Hin & H)]; eauto.
    + intros [H|(entry & [<-|Hin] & H)]; eauto.
Qed.

(** The names the first text takes from the payload of a first failure. *)
Lemma nested_names_from_payload (b : Body) (x : string) :
  In x (UpdateDocuments.failedPropertiesOf b)
  <-> match b with
      | BodyString s => matchedIn UpdateDocuments.patterns s x
      | BodyObject (Some errors) _ =>
          exists entry,
            In entry errors
            /\ (In x (contextNames entry)
                \/ truthyString (entry_name entry) = Some x
                \/ namedInMessage UpdateDocuments.patterns entry x)
      | _ => False
      end.
Proof.
  unfold UpdateDocuments.failedPropertiesOf.
  destruct b as [|s|[errors|] m]; try (simpl; tauto).
  - rewrite ErrorPayloadFacts.collectMatches_In. unfold matchedIn.
    simpl In at 1. tauto.
  - rewrite (fold_entries_In _ nested_addFromEntry_In). simpl. tauto.
Qed.

(** The names the second text takes from the payload of a failure. *)
Lemma loop_names_from_payload (e : ApiError) (x : string) :
  In x (UpdateDocumentsLoop.extractFailedProperties e)
  <-> match body e with
      | BodyString s => matchedIn UpdateDocumentsLoop.patterns s x
      | BodyObject (Some errors) _ =>
          exists entry,
            In entry errors
            /\ (In x (contextNames entry)
                \/ namedInMessage UpdateDocumentsLoop.patterns entry x)
      | _ => False
      end.
Proof.
  unfold UpdateDocumentsLoop.extractFailedProperties.
  destruct (body e) as [|s|[errors|] m]; try (simpl; tauto).
  - destruct s as [|c r]; cbn [isEmpty].
    + unfold matchedIn. split; [intros []|].
      intros (p & Hp & Hx). unfold execAll in Hx. simpl in Hx. exact Hx.
    + rewrite ErrorPayloadFacts.collectMatches_In. unfold matchedIn.
      simpl In at 1. tauto.
  - rewrite (fold_entries_In _ loop_addFromEntry_In). simpl. tauto.
Qed.

(** *** Nested retries *)

Section Nested.

Import UpdateDocuments.

Variable store : RecordStore.
Variable properties : Batch.

Lemma secondRetry_shape (b : Batch) :
  (status (fst (secondRetry store b)) = "success"
   \/ status (fst (secondRetry store b)) = "error")
  /\ snd (secondRetry store b) = [b].
Proof.
  unfold secondRetry. destruct (store 2 b); simpl; auto.
Qed.

Lemma firstRetry_shape (b : Batch) :
  (status (fst (firstRetry store b)) = "success"
   \/ status (fst (firstRetry store b)) = "error")
  /\ (snd (firstRetry store b) = [b]
      \/ exists b', snd (firstRetry store b) = [b; b']).
Proof.
  unfold firstRetry. destruct (store 1 b) as [r|e]; simpl; auto.
  destruct (isStatus 400 (statusCode e) && bodyTruthy (body e)); simpl; auto.
  destruct (isEmptyBatch _); simpl; auto.
  destruct (secondRetry_shape (deleteDefined (moreFailedPropsOf (body e)) b))
    as [Hs Ht].
  destruct (secondRetry store _) as [res sent]. simpl in *. subst sent.
  split; [exact Hs|]. right. eauto.
Qed.

Lemma nested_budget_and_status :
  1 <= List.length (snd (updateWithRetry store properties)) <= 3
  /\ (status (fst (updateWithRetry store properties)) = "success"
      \/ status (fst (updateWithRetry store properties)) = "error")
  /\ hd_error (snd (updateWithRetry store properties)) = Some properties.
Proof.
  unfold updateWithRetry.
  destruct (store 0 properties) as [r|e]; simpl; [auto|].
  destruct (isStatus 404 (statusCode e) || isStatus 404 (code e));
    simpl; [auto|].
  destruct (isStatus 400 (statusCode e) && bodyTruthy (body e)); simpl; [|auto].
  destruct (failedPropertiesOf (body e)) as [|n names]; simpl; [auto|].
  destruct (isEmptyBatch _); simpl; [auto|].
  destruct (firstRetry_shape (deleteDefined (n :: names) properties))
    as [Hs Ht].
  destruct (firstRetry store _) as [res sent]. simpl in *.
  destruct Ht as [->|[b' ->]]; simpl; auto.
Qed.

Lemma nested_first_retry (b1 : Batch) (rest : list Batch) :
  snd (updateWithRetry store properties) = properties :: b1 :: rest ->
  exists e,
    store 0 properties = Thrown e
    /\ isStatus 400 (statusCode e) = true
    /\ failedPropertiesOf (body e) <> []
    /\ b1 = deleteDefined (failedPropertiesOf (body e)) properties
    /\ b1 <> []
    /\ forall k, In k (keys b1) -> In k (keys properties).
Proof.
  unfold updateWithRetry.
  destruct (store 0 properties) as [r|e]; simpl; [discriminate|].
  destruct (isStatus 404 (statusCode e) || isStatus 404 (code e));
    simpl; [discriminate|].
  destruct (isStatus 400 (statusCode e)) eqn:E400; simpl; [|discriminate].
  destruct (bodyTruthy (body e)); simpl; [|discriminate].
  destruct (failedPropertiesOf (body e)) as [|n names] eqn:Ef;
    simpl; [discriminate|].
  destruct (isEmptyBatch _) eqn:Ee; simpl; [discriminate|].
  destruct (firstRetry_shape (deleteDefined (n :: names) properties))
    as [_ Ht].
  destruct (firstRetry store _) as [res sent]. simpl in *.
  intro H.
  assert (sent = b1 :: rest /\ b1 = deleteDefined (n :: names) properties)
    as [-> Hb1].
  { injection H as ->. destruct Ht as [E|[b' E]]; injection E; intros; subst; auto. }
  exists e. rewrite Ef. split; [reflexivity|]. split; [exact E400|].
  split; [discriminate|]. split; [exact Hb1|]. split.
  - intros ->. rewrite <- Hb1 in Ee. discriminate Ee.
  - intros k Hk. rewrite Hb1 in Hk. exact (keys_deleteDefined _ _ _ Hk).
Qed.

Lemma firstRetry_second (b1 b2 : Batch) (rest : list Batch) :
  snd (firstRetry store b1) = b1 :: b2 :: rest ->
  exists e,
    store 1 b1 = Thrown e
    /\ isStatus 400 (statusCode e) = true
    /\ b2 = deleteDefined (moreFailedPropsOf (body e)) b1
    /\ b2 <> []
    /\ rest = []
    /\ fst (firstRetry store b1) = fst (secondRetry store b2).
Proof.
  unfold firstRetry. destruct (store 1 b1) as [r|e]; simpl; [discriminate|].
  destruct (isStatus 400 (statusCode e)) eqn:E400; simpl; [|discriminate].
  destruct (bodyTruthy (body e)); simpl; [|discriminate].
  destruct (isEmptyBatch _) eqn:Ee; simpl; [discriminate|].
  destruct (secondRetry_shape (deleteDefined (moreFailedPropsOf (body e)) b1))
    as [_ Ht].
  destruct (secondRetry store _) as [res sent] eqn:Es. simpl in *. subst sent.
  intros [= <- <-]. exists e. split; [reflexivity|]. split; [exact E400|].
  split; [reflexivity|]. split; [|split; [reflexivity|]].
  - intro E. rewrite E in Ee. discriminate Ee.
  - now rewrite Es.
Qed.

Lemma nested_run_tail (b1 : Batch) (rest : list Batch) :
  snd (updateWithRetry store properties) = properties :: b1 :: rest ->
  snd (firstRetry store b1) = b1 :: rest
  /\ fst (updateWithRetry store properties) = fst (firstRetry store b1).
Proof.
  unfold updateWithRetry.
  destruct (store 0 properties) as [r|e]; simpl; [discriminate|].
  destruct (isStatus 404 (statusCode e) || isStatus 404 (code e));
    simpl; [discriminate|].
  destruct (isStatus 400 (statusCode e) && bodyTruthy (body e));
    simpl; [|discriminate].
  destruct (failedPropertiesOf (body e)) as [|n names] eqn:Ef;
    simpl; [discriminate|].
  destruct (isEmptyBatch _) eqn:Ee; simpl; [discriminate|].
  destruct (firstRetry_shape (deleteDefined (n :: names) properties))
    as [_ Ht].
  destruct (firstRetry store _) as [res sent] eqn:Er. simpl in *.
  intro H. injection H as ->.
  assert (b1 = deleteDefined (n :: names) properties) as ->.
  { destruct Ht as [E|[b' E]]; injection E; intros; subst; auto. }
  rewrite Er. auto.
Qed.

Lemma nested_second_retry (b1 b2 : Batch) (rest : list Batch) :
  snd (updateWithRetry store properties) = properties :: b1 :: b2 :: rest ->
  exists e,
    store 1 b1 = Thrown e
    /\ isStatus 400 (statusCode e) = true
    /\ b2 = deleteDefined (moreFailedPropsOf (body e)) b1
    /\ b2 <> []
    /\ forall k, In k (keys b2) -> In k (keys b1).
Proof.
  intro H. destruct (nested_run_tail _ _ H) as [Ht _].
  destruct (firstRetry_second _ _ _ Ht) as (e & H1 & H2 & H3 & H4 & _).
  exists e. repeat (split; [assumption|]).
  intros k Hk. rewrite H3 in Hk. exact (keys_deleteDefined _ _ _ Hk).
Qed.

Lemma nested_exhausted (b1 b2 : Batch) (rest : list Batch) (e2 : ApiError) :
  snd (updateWithRetry store properties) = properties :: b1 :: b2 :: rest ->
  store 2 b2 = Thrown e2 ->
  fst (updateWithRetry store properties) = caught e2 /\ rest = [].
Proof.
  intros H H2. destruct (nested_run_tail _ _ H) as [Ht ->].
  destruct (firstRetry_second _ _ _ Ht) as (e & _ & _ & _ & _ & Hr & ->).
  unfold secondRetry. rewrite H2. auto.
Qed.

Lemma nested_empty_batch (e : ApiError) :
  store 0 properties = Thrown e ->
  isStatus 404 (statusCode e) = false ->
  isStatus 404 (code e) = false ->
  isStatus 400 (statusCode e) = true ->
  bodyTruthy (body e) = true ->
  failedPropertiesOf (body e) <> [] ->
  deleteDefined (failedPropertiesOf (body e)) properties = [] ->
  updateWithRetry store properties = (updateSkipped, [properties]).
Proof.
  intros H0 H1 H2 H3 H4 H5 H6. unfold updateWithRetry.
  rewrite H0, H1, H2, H3, H4. simpl.
  destruct (failedPropertiesOf (body e)) as [|n names]; [now elim H5|].
  now rewrite H6.
Qed.

Lemma nested_not_found (e : ApiError) :
  store 0 properties = Thrown e ->
  isStatus 404 (statusCode e) || isStatus 404 (code e) = true ->
  updateWithRetry store properties = (objectNotFound, [properties]).
Proof.
  intros H0 H1. unfold updateWithRetry. now rewrite H0, H1.
Qed.

Lemma nested_accepted (r : UpdateResponse) :
  store 0 properties = Updated r ->
  updateWithRetry store properties = (updatedSuccessfully r, [properties]).
Proof. intro H. unfold updateWithRetry. now rewrite H. Qed.

(** After a 400 that names fields, the reduced batch is sent. *)
Lemma nested_sends_reduced (e : ApiError) :
  store 0 properties = Thrown e ->
  isStatus 404 (statusCode e) = false ->
  isStatus 404 (code e) = false ->
  isStatus 400 (statusCode e) = true ->
  bodyTruthy (body e) = true ->
  failedPropertiesOf (body e) <> [] ->
  deleteDefined (failedPropertiesOf (body e)) properties <> [] ->
  updateWithRetry store properties
  = (fst (firstRetry store
            (deleteDefined (failedPropertiesOf (body e)) properties)),
     properties
       :: snd (firstRetry store
                 (deleteDefined (failedPropertiesOf (body e)) properties))).
Proof.
  intros H0 H1 H2 H3 H4 H5 H6. unfold updateWithRetry.
  rewrite H0, H1, H2, H3, H4. simpl.
  destruct (failedPropertiesOf (body e)) as [|n names]; [now elim H5|].
  rewrite (isEmptyBatch_false _ H6). simpl.
  now destruct (firstRetry store (deleteDefined (n :: names) properties)).
Qed.

Lemma firstRetry_head (b : Batch) :
  hd_error (snd (firstRetry store b)) = Some b.
Proof.
  destruct (firstRetry_shape b) as [_ [E|[b' E]]]; now rewrite E.
Qed.

Lemma firstRetry_accepted (b : Batch) (r : UpdateResponse) :
  store 1 b = Updated r ->
  firstRetry store b = (updatedSuccessfully r, [b]).
Proof. intro H. unfold firstRetry. now rewrite H. Qed.

Lemma firstRetry_sends_reduced (b : Batch) (e : ApiError) :
  store 1 b = Thrown e ->
  isStatus 400 (statusCode e) = true ->
  bodyTruthy (body e) = true ->
  deleteDefined (moreFailedPropsOf (body e)) b <> [] ->
  firstRetry store b
  = (fst (secondRetry store (deleteDefined (moreFailedPropsOf (body e)) b)),
     [b; deleteDefined (moreFailedPropsOf (body e)) b]).
Proof.
  intros H0 H1 H2 H3. unfold firstRetry. rewrite H0, H1, H2. simpl.
  rewrite (isEmptyBatch_false _ H3). simpl.
  destruct (secondRetry_shape (deleteDefined (moreFailedPropsOf (body e)) b))
    as [_ Hs].
  destruct (secondRetry store _) as [res sent]. simpl in *. now subst sent.
Qed.

Lemma secondRetry_accepted (b : Batch) (r : UpdateResponse) :
  store 2 b = Updated r -> fst (secondRetry store b) = updatedSuccessfully r.
Proof. intro H. unfold secondRetry. now rewrite H. Qed.

End Nested.

(** *** Loop with a retry counter *)

Section Loop.

Import UpdateDocumentsLoop.

Variable store : RecordStore.

Lemma loop_budget_and_status (retries attempt : nat) (properties : Batch) :
  List.length (snd (updateLoop store retries attempt properties)) <= retries
  /\ (status (fst (updateLoop store retries attempt properties)) = "success"
      \/ status (fst (updateLoop store retries attempt properties)) = "error")
  /\ (0 < retries ->
      hd_error (snd (updateLoop store retries attempt properties))
      = Some properties).
Proof.
  revert attempt properties.
  induction retries as [|retries IH]; intros attempt properties; simpl.
  - split; [lia|]. split; [auto|lia].
  - destruct (store attempt properties) as [r|e]; simpl.
    { split; [lia|]. auto. }
    destruct (isStatus 404 (statusCode e)); simpl.
    { split; [lia|]. auto. }
    destruct (isStatus 400 (statusCode e)); simpl.
    2:{ split; [lia|]. auto. }
    destruct (extractFailedProperties e) as [|n names]; simpl.
    { split; [lia|]. auto. }
    destruct (isEmptyBatch _); simpl.
    { split; [lia|]. auto. }
    destruct (IH (S attempt) (deleteAll (n :: names) properties))
      as (H1 & H2 & _).
    destruct (updateLoop store retries (S attempt) _) as [res sent].
    simpl in *. split; [lia|]. auto.
Qed.

Lemma loop_step (retries attempt : nat) (properties b1 : Batch)
    (rest : list Batch) :
  snd (updateLoop store (S retries) attempt properties)
  = properties :: b1 :: rest ->
  exists e,
    store attempt properties = Thrown e
    /\ isStatus 404 (statusCode e) = false
    /\ isStatus 400 (statusCode e) = true
    /\ extractFailedProperties e <> []
    /\ b1 = deleteAll (extractFailedProperties e) properties
    /\ b1 <> []
    /\ (forall k, In k (keys b1)
                  <-> In k (keys properties)
                      /\ ~ In k (extractFailedProperties e))
    /\ updateLoop store (S retries) attempt properties
       = (fst (updateLoop store retries (S attempt) b1), properties :: b1 :: rest)
    /\ snd (updateLoop store retries (S attempt) b1) = b1 :: rest.
Proof.
  simpl.
  destruct (store attempt properties) as [r|e]; simpl; [discriminate|].
  destruct (isStatus 404 (statusCode e)) eqn:E404; simpl; [discriminate|].
  destruct (isStatus 400 (statusCode e)) eqn:E400; simpl; [|discriminate].
  destruct (extractFailedProperties e) as [|n names] eqn:Ef;
    simpl; [discriminate|].
  destruct (isEmptyBatch _) eqn:Ee; simpl; [discriminate|].
  destruct (loop_budget_and_status retries (S attempt)
              (deleteAll (n :: names) properties)) as (_ & _ & Hh).
  destruct (updateLoop store retries (S attempt) _) as [res sent] eqn:Er.
  simpl in *. intro H. injection H as Hs.
  destruct retries as [|retries'].
  { simpl in Er. injection Er as <- <-. discriminate Hs. }
  specialize (Hh (Nat.lt_0_succ _)). rewrite Hs in Hh. simpl in Hh.
  injection Hh as ->.
  exists e. rewrite Ef. split; [reflexivity|]. split; [exact E404|].
  split; [exact E400|]. split; [discriminate|]. split; [reflexivity|].
  split; [intro E; rewrite E in Ee; discriminate Ee|].
  split; [apply keys_deleteAll|].
  cbn [updateLoop] in Er |- *. rewrite Er. subst sent. split; reflexivity.
Qed.

Lemma loop_exhausted (properties b1 : Batch) (rest : list Batch)
    (e1 : ApiError) :
  snd (updateLoop store 2 0 properties) = properties :: b1 :: rest ->
  store 1 b1 = Thrown e1 ->
  isStatus 404 (statusCode e1) = false ->
  isStatus 400 (statusCode e1) = true ->
  extractFailedProperties e1 <> [] ->
  deleteAll (extractFailedProperties e1) b1 <> [] ->
  fst (updateLoop store 2 0 properties)
  = failedAfterRetries (deleteAll (extractFailedProperties e1) b1).
Proof.
  intros H H1 H2 H3 H4 H5.
  destruct (loop_step _ _ _ _ _ H) as (e & _ & _ & _ & _ & _ & _ & _ & Hr & _).
  rewrite Hr. simpl. rewrite H1, H2, H3.
  destruct (extractFailedProperties e1) as [|n names]; [now elim H4|].
  now rewrite (isEmptyBatch_false _ H5).
Qed.

Lemma loop_empty_batch (retries attempt : nat) (properties : Batch)
    (e : ApiError) :
  store attempt properties = Thrown e ->
  isStatus 404 (statusCode e) = false ->
  isStatus 400 (statusCode e) = true ->
  extractFailedProperties e <> [] ->
  deleteAll (extractFailedProperties e) properties = [] ->
  updateLoop store (S retries) attempt properties
  = (updateSkipped, [properties]).
Proof.
  intros H0 H1 H2 H3 H4. simpl. rewrite H0, H1, H2.
  destruct (extractFailedProperties e) as [|n names]; [now elim H3|].
  now rewrite H4.
Qed.

Lemma loop_not_found (retries : nat) :
  forall (attempt : nat) (properties : Batch) (n : nat) (b : Batch)
         (e : ApiError),
  nth_error (snd (updateLoop store retries attempt properties)) n = Some b ->
  store (attempt + n) b = Thrown e ->
  isStatus 404 (statusCode e) = true ->
  fst (updateLoop store retries attempt properties) = objectNotFound.
Proof.
  induction retries as [|retries IH]; intros attempt properties n b e; simpl.
  - now destruct n.
  - destruct (store attempt properties) as [r|e0] eqn:E0; simpl.
    { destruct n as [|[|n]]; simpl; try discriminate.
      intros [= <-]. rewrite Nat.add_0_r, E0. discriminate. }
    destruct (isStatus 404 (statusCode e0)) eqn:E404; simpl; [reflexivity|].
    assert (forall res : Result,
              nth_error [properties] n = Some b ->
              store (attempt + n) b = Thrown e ->
              isStatus 404 (statusCode e) = true -> res = objectNotFound)
      as Hone.
    { intros res Hn Hs He. destruct n as [|[|n]]; simpl in Hn; try discriminate.
      injection Hn as <-. rewrite Nat.add_0_r, E0 in Hs. injection Hs as <-.
      rewrite E404 in He. discriminate. }
    destruct (isStatus 400 (statusCode e0)); simpl; [|apply Hone].
    destruct (extractFailedProperties e0) as [|x names]; simpl; [apply Hone|].
    destruct (isEmptyBatch _); simpl; [apply Hone|].
    specialize (IH (S attempt) (deleteAll (x :: names) properties)).
    destruct (updateLoop store retries (S attempt) _) as [res sent].
    simpl in *. destruct n as [|n]; simpl.
    + intros [= <-] Hs He. rewrite Nat.add_0_r, E0 in Hs. injection Hs as <-.
      rewrite E404 in He. discriminate.
    + intros Hn Hs He. apply (IH n b e Hn); [|exact He].
      replace (S (attempt + n)) with (attempt + S n) by lia. exact Hs.
Qed.

Lemma loop_accepted (retries attempt : nat) (properties : Batch)
    (r : UpdateResponse) :
  store attempt properties = Updated r ->
  updateLoop store (S retries) attempt properties
  = (updatedSuccessfully r, [properties]).
Proof. intro H. simpl. now rewrite H. Qed.

(** After a 400 that names fields, the reduced batch is sent. *)
Lemma loop_sends_reduced (retries attempt : nat) (properties : Batch)
    (e : ApiError) :
  store attempt properties = Thrown e ->
  isStatus 404 (statusCode e) = false ->
  isStatus 400 (statusCode e) = true ->
  extractFailedProperties e <> [] ->
  deleteAll (extractFailedProperties e) properties <> [] ->
  updateLoop store (S retries) attempt properties
  = (fst (updateLoop store retries (S attempt)
            (deleteAll (extractFailedProperties e) properties)),
     properties
       :: snd (updateLoop store retries (S attempt)
                 (deleteAll (extractFailedProperties e) properties))).
Proof.
  intros H0 H1 H2 H3 H4. simpl. rewrite H0, H1, H2.
  destruct (extractFailedProperties e) as [|n names]; [now elim H3|].
  rewrite (isEmptyBatch_false _ H4).
  now destruct (updateLoop store retries (S attempt)
                  (deleteAll (n :: names) properties)).
Qed.

Lemma loop_last_attempt (attempt : nat) (b : Batch) :
  snd (updateLoop store 1 attempt b) = [b].
Proof.
  simpl. destruct (store attempt b) as [r|e]; [reflexivity|].
  destruct (isStatus 404 (statusCode e)); [reflexivity|].
  destruct (isStatus 400 (statusCode e)); [|reflexivity].
  destruct (extractFailedProperties e); [reflexivity|].
  now destruct (isEmptyBatch _).
Qed.

End Loop.

Lemma main_runs_the_retries (store : RecordStore) (ctx : Context)
    (docs : Dict JsValue) :
  tokenMissing ctx = false ->
  documents ctx = Some docs ->
  isEmpty (objectInstanceId ctx) = false ->
  buildProperties docs <> [] ->
  UpdateDocuments.main store ctx
  = UpdateDocuments.updateWithRetry store (buildProperties docs)
  /\ UpdateDocumentsLoop.main store ctx
     = UpdateDocumentsLoop.updateLoop store 2 0 (buildProperties docs).
Proof.
  intros H1 H2 H3 H4. unfold UpdateDocuments.main, UpdateDocumentsLoop.main.
  now rewrite H1, H2, H3, (isEmptyBatch_false _ H4).
Qed.

(** C4, as amended: on a 400 error the full save takes the field names
    from the error payload, deletes them from the batch and sends the
    reduced batch again, at most twice more in the first text and once
    more in the second: when the first call is refused with such an
    error and the reduced batch is not empty, it is the second batch
    sent, and its acceptance is the result; a batch left empty is
    reported as success; an attempt that still fails at the end of the
    budget is reported with status error, and no result has another
    status than success or error; an error 404 is reported as success,
    on the first call in the first text and on every call in the
    second. *)
Theorem full_save_elimination_within_budget
    (store : RecordStore) (properties : Batch) :
  let nested := UpdateDocuments.updateWithRetry store properties in
  let looped := UpdateDocumentsLoop.updateLoop store 2 0 properties in
  (1 <= List.length (snd nested) <= 3
   /\ 1 <= List.length (snd looped) <= 2
   /\ hd_error (snd nested) = Some properties
   /\ hd_error (snd looped) = Some properties)
  /\ ((status (fst nested) = "success" \/ status (fst nested) = "error")
      /\ (status (fst looped) = "success" \/ status (fst looped) = "error"))
  /\ (forall b1 rest,
        snd nested = properties :: b1 :: rest ->
        exists e,
          store 0 properties = Thrown e
          /\ isStatus 400 (statusCode e) = true
          /\ UpdateDocuments.failedPropertiesOf (body e) <> []
          /\ b1 = UpdateDocuments.deleteDefined
                    (UpdateDocuments.failedPropertiesOf (body e)) properties
          /\ b1 <> []
          /\ forall k, In k (keys b1) -> In k (keys properties))
  /\ (forall b1 b2 rest,
        snd nested = properties :: b1 :: b2 :: rest ->
        exists e,
          store 1 b1 = Thrown e
          /\ isStatus 400 (statusCode e) = true
          /\ b2 = UpdateDocuments.deleteDefined
                    (UpdateDocuments.moreFailedPropsOf (body e)) b1
          /\ b2 <> []
          /\ forall k, In k (keys b2) -> In k (keys b1))
  /\ (forall b1 rest,
        snd looped = properties :: b1 :: rest ->
        exists e,
          store 0 properties = Thrown e
          /\ isStatus 400 (statusCode e) = true
          /\ UpdateDocumentsLoop.extractFailedProperties e <> []
          /\ b1 = UpdateDocumentsLoop.deleteAll
                    (UpdateDocumentsLoop.extractFailedProperties e) properties
          /\ b1 <> []
          /\ forall k, In k (keys b1)
                       <-> In k (keys properties)
                           /\ ~ In k (UpdateDocumentsLoop.extractFailedProperties e))
  /\ (forall e,
        store 0 properties = Thrown e ->
        isStatus 404 (statusCode e) = false ->
        isStatus 404 (code e) = false ->
        isStatus 400 (statusCode e) = true ->
        bodyTruthy (body e) = true ->
        UpdateDocuments.failedPropertiesOf (body e) <> [] ->
        UpdateDocuments.deleteDefined
          (UpdateDocuments.failedPropertiesOf (body e)) properties = [] ->
        nested = (UpdateDocuments.updateSkipped, [properties]))
  /\ (forall e,
        store 0 properties = Thrown e ->
        isStatus 404 (statusCode e) = false ->
        isStatus 400 (statusCode e) = true ->
        UpdateDocumentsLoop.extractFailedProperties e <> [] ->
        UpdateDocumentsLoop.deleteAll
          (UpdateDocumentsLoop.extractFailedProperties e) properties = [] ->
        looped = (UpdateDocumentsLoop.updateSkipped, [properties]))
  /\ (forall b1 b2 rest e2,
        snd nested = properties :: b1 :: b2 :: rest ->
        store 2 b2 = Thrown e2 ->
        fst nested = caught e2)
  /\ (forall b1 rest e1,
        snd looped = properties :: b1 :: rest ->
        store 1 b1 = Thrown e1 ->
        isStatus 404 (statusCode e1) = false ->
        isStatus 400 (statusCode e1) = true ->
        UpdateDocumentsLoop.extractFailedProperties e1 <> [] ->
        UpdateDocumentsLoop.deleteAll
          (UpdateDocumentsLoop.extractFailedProperties e1) b1 <> [] ->
        fst looped
        = UpdateDocumentsLoop.failedAfterRetries
            (UpdateDocumentsLoop.deleteAll
               (UpdateDocumentsLoop.extractFailedProperties e1) b1))
  /\ (forall e,
        store 0 properties = Thrown e ->
        isStatus 404 (statusCode e) || isStatus 404 (code e) = true ->
        nested = (objectNotFound, [properties]))
  /\ (forall n b e,
        nth_error (snd looped) n = Some b ->
        store n b = Thrown e ->
        isStatus 404 (statusCode e) = true ->
        fst looped = objectNotFound)
  /\ (forall b x,
        In x (UpdateDocuments.failedPropertiesOf b)
        <-> match b with
            | BodyString s => matchedIn UpdateDocuments.patterns s x
            | BodyObject (Some errors) _ =>
                exists entry,
                  In entry errors
                  /\ (In x (contextNames entry)
                      \/ truthyString (entry_name entry) = Some x
                      \/ namedInMessage UpdateDocuments.patterns entry x)
            | _ => False
            end)
  /\ (forall e x,
        In x (UpdateDocumentsLoop.extractFailedProperties e)
        <-> match body e with
            | BodyString s => matchedIn UpdateDocumentsLoop.patterns s x
            | BodyObject (Some errors) _ =>
                exists entry,
                  In entry errors
                  /\ (In x (contextNames entry)
                      \/ namedInMessage UpdateDocumentsLoop.patterns entry x)
            | _ => False
            end)
  /\ (forall r,
        store 0 properties = Updated r ->
        nested = (updatedSuccessfully r, [properties])
        /\ looped = (updatedSuccessfully r, [properties]))
  /\ (forall e,
        store 0 properties = Thrown e ->
        isStatus 404 (statusCode e) = false ->
        isStatus 404 (code e) = false ->
        isStatus 400 (statusCode e) = true ->
        bodyTruthy (body e) = true ->
        UpdateDocuments.failedPropertiesOf (body e) <> [] ->
        let b1 := UpdateDocuments.deleteDefined
                    (UpdateDocuments.failedPropertiesOf (body e)) properties in
        b1 <> [] ->
        nth_error (snd nested) 1 = Some b1
        /\ (forall r,
              store 1 b1 = Updated r ->
              nested = (updatedSuccessfully r, [properties; b1]))
        /\ (forall e1,
              store 1 b1 = Thrown e1 ->
              isStatus 400 (statusCode e1) = true ->
              bodyTruthy (body e1) = true ->
              let b2 := UpdateDocuments.deleteDefined
                          (UpdateDocuments.moreFailedPropsOf (body e1)) b1 in
              b2 <> [] ->
              snd nested = [properties; b1; b2]
              /\ (forall r,
                    store 2 b2 = Updated r ->
                    fst nested = updatedSuccessfully r)))
  /\ (forall e,
        store 0 properties = Thrown e ->
        isStatus 404 (statusCode e) = false ->
        isStatus 400 (statusCode e) = true ->
        UpdateDocumentsLoop.extractFailedProperties e <> [] ->
        let b1 := UpdateDocumentsLoop.deleteAll
                    (UpdateDocumentsLoop.extractFailedProperties e)
                    properties in
        b1 <> [] ->
        snd looped = [properties; b1]
        /\ (forall r,
              store 1 b1 = Updated r ->
              fst looped = updatedSuccessfully r)).
Proof.
  cbv zeta.
  destruct (nested_budget_and_status store properties) as (N1 & N2 & N3).
  destruct (loop_budget_and_status store 2 0 properties) as (L1 & L2 & L3).
  specialize (L3 (Nat.lt_0_succ _)).
  split.
  { repeat split; try assumption; try lia.
    destruct (snd (UpdateDocumentsLoop.updateLoop store 2 0 properties));
      [discriminate L3|simpl; lia]. }
  split; [auto|].
  split; [intros b1 rest H; exact (nested_first_retry store properties b1 rest H)|].
  split; [intros b1 b2 rest H;
          exact (nested_second_retry store properties b1 b2 rest H)|].
  split.
  { intros b1 rest H.
    destruct (loop_step store _ _ _ _ _ H)
      as (e & H1 & _ & H3 & H4 & H5 & H6 & H7 & _).
    exists e. auto 10. }
  split; [intros e; apply nested_empty_batch|].
  split; [intros e; apply loop_empty_batch|].
  split.
  { intros b1 b2 rest e2 H H2.
    exact (proj1 (nested_exhausted store properties b1 b2 rest e2 H H2)). }
  split; [intros b1 rest e1; apply loop_exhausted|].
  split; [intros e; apply nested_not_found|].
  split.
  { intros n b e Hn Hs He.
    exact (loop_not_found store 2 0 properties n b e Hn Hs He). }
  split; [exact nested_names_from_payload|].
  split; [exact loop_names_from_payload|].
  split.
  { intros r H. split;
      [exact (nested_accepted store properties r H)
      |exact (loop_accepted store 1 0 properties r H)]. }
  split.
  { intros e H0 H1 H2 H3 H4 H5 H6.
    rewrite (nested_sends_reduced store properties e H0 H1 H2 H3 H4 H5 H6).
    set (b1 := UpdateDocuments.deleteDefined
                 (UpdateDocuments.failedPropertiesOf (body e)) properties)
      in *.
    cbn [fst snd nth_error].
    split; [exact (firstRetry_head store b1)|]. split.
    - intros r Hr. now rewrite (firstRetry_accepted store b1 r Hr).
    - intros e1 G0 G1 G2 G3.
      rewrite (firstRetry_sends_reduced store b1 e1 G0 G1 G2 G3).
      cbn [fst snd]. split; [reflexivity|].
      intros r Hr. exact (secondRetry_accepted store _ r Hr). }
  intros e H0 H1 H2 H3 H4.
  rewrite (loop_sends_reduced store 1 0 properties e H0 H1 H2 H3 H4).
  cbn [fst snd].
  rewrite (loop_last_attempt store 1). split; [reflexivity|].
  intros r Hr. now rewrite (loop_accepted store 0 1 _ r Hr).
Qed.

Lemma full_save_elimination_within_budget_witness :
  UpdateDocuments.updateWithRetry Scenarios.recordGone
    (buildProperties Scenarios.flagsToSave)
  = (objectNotFound, [buildProperties Scenarios.flagsToSave])
  /\ fst (UpdateDocumentsLoop.updateLoop Scenarios.recordGone 2 0
            (buildProperties Scenarios.flagsToSave))
     = objectNotFound
  /\ UpdateDocumentsLoop.updateLoop Scenarios.rejectsFirstField 2 0
       [("foo_required", JsPrim (SStr "true"))]
     = (UpdateDocumentsLoop.updateSkipped,
        [[("foo_required", JsPrim (SStr "true"))]])
  /\ status (fst (UpdateDocumentsLoop.updateLoop Scenarios.rejectsFirstField
                    2 0 (buildProperties Scenarios.flagsToSave)))
     = "error"
  /\ UpdateDocuments.updateWithRetry Scenarios.withoutFooRequired
       (buildProperties Scenarios.flagsToSave)
     = (updatedSuccessfully (mkUpdateResponse (Some "123")),
        [buildProperties Scenarios.flagsToSave;
         [("foo_provided", JsPrim (SStr "false"));
          ("bar_required", JsPrim (SStr "true"));
          ("bar_provided", JsPrim (SStr "true"))]])
  /\ snd (UpdateDocumentsLoop.updateLoop Scenarios.withoutFooRequired 2 0
            (buildProperties Scenarios.flagsToSave))
     = [buildProperties Scenarios.flagsToSave;
        [("foo_provided", JsPrim (SStr "false"));
         ("bar_required", JsPrim (SStr "true"));
         ("bar_provided", JsPrim (SStr "true"))]].
Proof.
  split; [|split; [|split; [|split; [|split]]]].
  - destruct (full_save_elimination_within_budget Scenarios.recordGone
                (buildProperties Scenarios.flagsToSave))
      as (_ & _ & _ & _ & _ & _ & _ & _ & _ & H & _).
    apply (H (mkApiError (Some 404%Z) None BodyAbsent "Not Found"));
      reflexivity.
  - destruct (full_save_elimination_within_budget Scenarios.recordGone
                (buildProperties Scenarios.flagsToSave))
      as (_ & _ & _ & _ & _ & _ & _ & _ & _ & _ & H & _).
    apply (H 0 (buildProperties Scenarios.flagsToSave)
             (mkApiError (Some 404%Z) None BodyAbsent "Not Found"));
      reflexivity.
  - destruct (full_save_elimination_within_budget Scenarios.rejectsFirstField
                [("foo_required", JsPrim (SStr "true"))])
      as (_ & _ & _ & _ & _ & _ & H & _).
    apply (H (Scenarios.fieldDoesNotExist "foo_required"));
      try reflexivity; vm_compute; discriminate.
  - destruct (full_save_elimination_within_budget Scenarios.rejectsFirstField
                (buildProperties Scenarios.flagsToSave))
      as (_ & _ & _ & _ & _ & _ & _ & _ & H & _).
    rewrite (H [("foo_provided", JsPrim (SStr "false"));
                ("bar_required", JsPrim (SStr "true"));
                ("bar_provided", JsPrim (SStr "true"))]
               []
               (Scenarios.fieldDoesNotExist "foo_provided"));
      try reflexivity; vm_compute; discriminate.
  - destruct (full_save_elimination_within_budget Scenarios.withoutFooRequired
                (buildProperties Scenarios.flagsToSave))
      as (_ & _ & _ & _ & _ & _ & _ & _ & _ & _ & _ & _ & _ & _ & H & _).
    assert (UpdateDocuments.failedPropertiesOf
              (body (Scenarios.fieldDoesNotExist "foo_required")) <> [])
      as Hnames by (vm_compute; discriminate).
    assert (UpdateDocuments.deleteDefined
              (UpdateDocuments.failedPropertiesOf
                 (body (Scenarios.fieldDoesNotExist "foo_required")))
              (buildProperties Scenarios.flagsToSave) <> [])
      as Hleft by (vm_compute; discriminate).
    pose proof (H (Scenarios.fieldDoesNotExist "foo_required")
                  eq_refl eq_refl eq_refl eq_refl eq_refl Hnames Hleft)
      as (_ & Hacc & _).
    exact (Hacc (mkUpdateResponse (Some "123")) eq_refl).
  - destruct (full_save_elimination_within_budget Scenarios.withoutFooRequired
                (buildProperties Scenarios.flagsToSave))
      as (_ & _ & _ & _ & _ & _ & _ & _ & _ & _ & _ & _ & _ & _ & _ & H).
    assert (UpdateDocumentsLoop.extractFailedProperties
              (Scenarios.fieldDoesNotExist "foo_required") <> [])
      as Hnames by (vm_compute; discriminate).
    assert (UpdateDocumentsLoop.deleteAll
              (UpdateDocumentsLoop.extractFailedProperties
                 (Scenarios.fieldDoesNotExist "foo_required"))
              (buildProperties Scenarios.flagsToSave) <> [])
      as Hleft by (vm_compute; discriminate).
    pose proof (H (Scenarios.fieldDoesNotExist "foo_required")
                  eq_refl eq_refl eq_refl Hnames Hleft) as (Hsent & _).
    exact Hsent.
Defined.

(** C4, as stated, fails: when the store still rejects a field on the
    last attempt of the budget, the result has status error, not
    partial_success, in both texts; the fields not yet rejected were
    never written. *)
Lemma full_save_reports_error_when_budget_is_spent :
  let nested := UpdateDocuments.main Scenarios.rejectsFirstField
                  Scenarios.saveContext in
  let looped := UpdateDocumentsLoop.main Scenarios.rejectsFirstField
                  Scenarios.saveContext in
  map keys (snd nested)
  = [["foo_required"; "foo_provided"; "bar_required"; "bar_provided"];
     ["foo_provided"; "bar_required"; "bar_provided"];
     ["bar_required"; "bar_provided"]]
  /\ fst nested = caught (Scenarios.fieldDoesNotExist "bar_required")
  /\ status (fst nested) <> "partial_success"
  /\ map keys (snd looped)
     = [["foo_required"; "foo_provided"; "bar_required"; "bar_provided"];
        ["foo_provided"; "bar_required"; "bar_provided"]]
  /\ fst looped
     = mkResult "error"
         (Text "Update failed after retries. Remaining properties: bar_required, bar_provided")
         NoData
  /\ status (fst looped) <> "partial_success".
Proof. vm_compute. repeat split; discriminate. Qed.

End FullSaveFacts.

(** * Further properties of the checklist component *)

Module ChecklistFacts.

Import Evaluator DocumentList Checklist.

(** ** Completion and missing documents *)

Lemma isMissing_counts (props : Properties) (doc : Document) :
  isMissing props doc = countsAsRequired props doc && negb (provided doc).
Proof.
  unfold isMissing, countsAsRequired.
  destruct (required doc), (hasConditions doc); reflexivity.
Qed.

Lemma filter_split_length {A : Type} (f g : A -> bool) (l : list A) :
  List.length (filter (fun x => f x && negb (g x)) l)
  + List.length (filter (fun x => f x && g x) l)
  = List.length (filter f l).
Proof.
  induction l as [|a l IH]; simpl; [reflexivity|].
  destruct (f a), (g a); simpl; lia.
Qed.

Lemma filter_length_le {A : Type} (f : A -> bool) (l : list A) :
  List.length (filter f l) <= List.length l.
Proof.
  induction l as [|a l IH]; simpl; [lia|]. destruct (f a); simpl; lia.
Qed.

Lemma filter_all {A : Type} (f : A -> bool) (l : list A) :
  (forall x, In x l -> f x = true) -> filter f l = l.
Proof.
  induction l as [|a l IH]; simpl; intro H; [reflexivity|].
  rewrite (H a) by auto. f_equal. apply IH. auto.
Qed.

(** X1: the documents listed as missing and the documents counted as
    provided never exceed the documents counted as required, and make them
    up exactly when no document has a blank name; the HTML list is empty
    exactly when nothing is listed. *)
Theorem missing_documents_complete_the_progress
    (props : Properties) (docs : list Document) :
  let p := calculateProgress props docs in
  let missing := getMissingDocumentsList docs props in
  List.length missing + progress_provided p <= progress_required p
  /\ ((forall d, In d docs -> trim (name d) <> EmptyString) ->
      List.length missing + progress_provided p = progress_required p)
  /\ (calculateMissingDocuments docs props = EmptyString <-> missing = []).
Proof.
  cbv zeta. unfold calculateMissingDocuments, getMissingDocumentsList.
  unfold calculateProgress. cbn [progress_provided progress_required].
  rewrite CalculatorFacts.filter_filter.
  pose proof (filter_split_length (countsAsRequired props) provided docs) as E.
  assert (filter (isMissing props) docs
          = filter (fun x => countsAsRequired props x && negb (provided x)) docs)
    as Em by (apply filter_ext; intro d; apply isMissing_counts).
  rewrite Em. split; [|split].
  - pose proof (filter_length_le
                  (fun docName => negb (String.eqb (trim docName) EmptyString))
                  (map name (filter (fun x => countsAsRequired props x
                                              && negb (provided x)) docs))) as L.
    rewrite length_map in L. lia.
  - intro Hn. rewrite filter_all.
    + rewrite length_map. exact E.
    + intros x Hx. apply in_map_iff in Hx. destruct Hx as [d [<- Hd]].
      apply filter_In in Hd. apply negb_true_iff, String.eqb_neq, Hn, Hd.
  - destruct (filter _ (map name _)) as [|n r]; [tauto|].
    split; discriminate.
Qed.

Lemma missing_documents_complete_the_progress_witness :
  let docs := fetchedDocuments Scenarios.catalogD1 (Scenarios.bagX "false") in
  List.length (getMissingDocumentsList docs (Scenarios.bagX "false")) = 1.
Proof.
  cbv zeta.
  destruct (missing_documents_complete_the_progress (Scenarios.bagX "false")
              (fetchedDocuments Scenarios.catalogD1 (Scenarios.bagX "false")))
    as (_ & H & _).
  rewrite <- Nat.add_0_r at 1.
  change 0 with (progress_provided
                   (calculateProgress (Scenarios.bagX "false")
                      (fetchedDocuments Scenarios.catalogD1
                         (Scenarios.bagX "false")))) at 1.
  rewrite H; [reflexivity|].
  intros d [<-|[]]. vm_compute. discriminate.
Defined.



(** X3: the completion flag holds exactly when the dossier state is
    [COMPLETE]. *)
Theorem completion_is_the_complete_state (docs : list Document) :
  checkCompletion docs = true <-> calculateDossierState docs = COMPLETE.
Proof.
  unfold checkCompletion, calculateDossierState.
  destruct (find (fun doc => required doc && negb (provided doc)) docs)
    as [d|] eqn:F.
  - apply find_some in F. destruct F as [Hin Hd].
    assert (existsb (fun doc => required doc && negb (provided doc)) docs = true)
      as -> by (apply existsb_exists; eauto).
    destruct (existsb required docs), (existsb provided docs); simpl;
      split; discriminate.
  - assert (existsb (fun doc => required doc && negb (provided doc)) docs = false)
      as Hx.
    { apply CalculatorFacts.existsb_false_iff. intros x Hx.
      exact (find_none _ _ F x Hx). }
    rewrite Hx. destruct (existsb required docs) eqn:R; simpl.
    + apply existsb_exists in R. destruct R as [d [Hin Hr]].
      pose proof (proj1 (CalculatorFacts.existsb_false_iff _ _) Hx d Hin) as Hd.
      simpl in Hd. rewrite Hr in Hd. simpl in Hd. apply negb_false_iff in Hd.
      assert (existsb provided docs = true) as -> by (apply existsb_exists; eauto).
      tauto.
    + split; discriminate.
Qed.

End ChecklistFacts.

(** * Toggles, unsaved changes and the fetch *)

Module SessionFacts.

Import Evaluator DocumentList Checklist.

Lemma check_withRequired (doc : Document) (b : bool) (props : Properties)
    (tabId : option string) :
  checkDocumentConditions (withRequired doc b) props tabId
  = checkDocumentConditions doc props tabId.
Proof. reflexivity. Qed.

Lemma hasConditions_withRequired (doc : Document) (b : bool) :
  hasConditions (withRequired doc b) = hasConditions doc.
Proof. reflexivity. Qed.

Lemma Forall2_map_self {A B : Type} (P : A -> B -> Prop) (f : A -> B)
    (l : list A) :
  (forall x, P x (f x)) -> Forall2 P l (map f l).
Proof. intro H. induction l; simpl; constructor; auto. Qed.

(** X4: a toggle neither adds, removes nor reorders documents; it leaves
    the identity, the name, the property names and the view configuration
    of every document alone, and every document with another id
    untouched; a toggle of "provided" changes no required flag and a
    toggle of "required" no provided flag. *)
Theorem toggle_changes_flags_only (st : State) (documentId : string)
    (field : Field) (checked : bool) :
  Forall2
    (fun before after =>
       id after = id before
       /\ name after = name before
       /\ requiredProperty after = requiredProperty before
       /\ providedProperty after = providedProperty before
       /\ tabConfig after = tabConfig before
       /\ (id before <> documentId -> after = before)
       /\ (field = FieldProvided -> required after = required before)
       /\ (field = FieldRequired -> provided after = provided before))
    (documents st)
    (newDocs (handleCheckboxToggle st documentId field checked)).
Proof.
  unfold handleCheckboxToggle. cbn [newDocs].
  apply Forall2_map_self. intro doc. unfold toggleDocument.
  destruct (String.eqb_spec (id doc) documentId) as [E|E].
  - destruct field.
    + destruct (hasConditions doc && negb (String.eqb (selectedTab st) "autre")),
        (checkDocumentConditions doc (recordProperties st) None), checked;
        simpl; repeat split; try reflexivity; try discriminate;
        intro H; now elim H.
    + simpl. repeat split; try reflexivity; try discriminate.
      intro H; now elim H.
  - repeat split; reflexivity.
Qed.

Lemma toggleDocument_state (st st' : State) (documentId : string)
    (field : Field) (checked : bool) (doc : Document) :
  recordProperties st' = recordProperties st ->
  selectedTab st' = selectedTab st ->
  toggleDocument st' documentId field checked doc
  = toggleDocument st documentId field checked doc.
Proof. intros H1 H2. unfold toggleDocument. now rewrite H1, H2. Qed.

Lemma toggleDocument_idempotent (st : State) (documentId : string)
    (field : Field) (checked : bool) (doc : Document) :
  toggleDocument st documentId field checked
    (toggleDocument st documentId field checked doc)
  = toggleDocument st documentId field checked doc.
Proof.
  unfold toggleDocument at 2.
  destruct (String.eqb (id doc) documentId) eqn:E.
  - destruct field.
    + destruct (hasConditions doc
                && negb (String.eqb (selectedTab st) "autre")) eqn:H.
      * destruct (checkDocumentConditions doc (recordProperties st) None) eqn:M,
          checked; simpl; unfold toggleDocument;
          rewrite ?check_withRequired, ?hasConditions_withRequired;
          cbn [id withRequired]; rewrite E, H, M; reflexivity.
      * unfold toggleDocument.
        rewrite ?check_withRequired, ?hasConditions_withRequired.
        cbn [id withRequired]. rewrite E, H. reflexivity.
    + unfold toggleDocument. cbn [id withProvided]. rewrite E. reflexivity.
  - unfold toggleDocument. rewrite E. reflexivity.
Qed.

(** X5: a toggle repeated with the same arguments changes nothing more:
    the documents, the aggregates and the flag of unsaved changes are
    those of the first toggle. *)
Theorem toggle_twice_is_toggle_once (s : Session) (documentId : string)
    (field : Field) (checked : bool) :
  toggle (toggle s documentId field checked) documentId field checked
  = toggle s documentId field checked.
Proof.
  assert (forall docs,
            map (toggleDocument
                   (withDocuments (state s)
                      (map (toggleDocument (state s) documentId field checked)
                           docs))
                   documentId field checked)
                (map (toggleDocument (state s) documentId field checked) docs)
            = map (toggleDocument (state s) documentId field checked) docs)
    as E.
  { intro docs. rewrite map_map. apply map_ext. intro doc.
    rewrite (toggleDocument_state (state s)) by reflexivity.
    apply toggleDocument_idempotent. }
  unfold toggle, handleCheckboxToggle.
  cbn [state documents initialDocuments initialCompletionStatus
       initialDossierState newDocs newCompletionStatus newDossierState].
  change (documents (withDocuments (state s)
            (map (toggleDocument (state s) documentId field checked)
                 (documents (state s)))))
    with (map (toggleDocument (state s) documentId field checked)
              (documents (state s))).
  rewrite E. reflexivity.
Qed.

(** ** The flag of unsaved changes *)

Lemma documentsChanged_from (current : list Document) :
  forall before initial : list Document,
  List.length current = List.length initial ->
  existsb (differsFromInitial (before ++ initial))
          (combine (seq (List.length before) (List.length current)) current)
  = false
  <-> map flags current = map flags initial.
Proof.
  induction current as [|c cs IH]; intros before initial Hl;
    destruct initial as [|i rest]; simpl in Hl; try discriminate.
  - simpl. tauto.
  - injection Hl as Hl. cbn [List.length seq combine existsb map].
    unfold differsFromInitial at 1. cbn [fst snd].
    rewrite nth_error_app2 by lia. rewrite Nat.sub_diag. cbn [nth_error].
    specialize (IH (before ++ [i])%list rest Hl).
    rewrite <- app_assoc in IH. cbn [app] in IH.
    rewrite length_app in IH. cbn [List.length] in IH.
    rewrite Nat.add_1_r in IH.
    rewrite orb_false_iff, IH.
    change (flags c) with (required c, provided c).
    change (flags i) with (required i, provided i). split.
    + intros [H1 H2]. apply orb_false_iff in H1. destruct H1 as [Ha Hb].
      apply negb_false_iff, Bool.eqb_prop in Ha.
      apply negb_false_iff, Bool.eqb_prop in Hb.
      now rewrite Ha, Hb, H2.
    + intro H. injection H as Ha Hb Hc.
      rewrite Ha, Hb, !Bool.eqb_reflx. auto.
Qed.

Lemma documentsChanged_spec (current initial : list Document) :
  List.length current = List.length initial ->
  documentsChanged current initial = false
  <-> map flags current = map flags initial.
Proof. exact (documentsChanged_from current [] initial). Qed.

Lemma existsb_by_flags (f : bool * bool -> bool) (l : list Document) :
  existsb (fun d => f (flags d)) l = existsb f (map flags l).
Proof. induction l as [|a l IH]; simpl; [reflexivity|]. now rewrite IH. Qed.

Lemma find_is_existsb {A : Type} (f : A -> bool) (l : list A) :
  match find f l with Some _ => true | None => false end = existsb f l.
Proof.
  induction l as [|a l IH]; simpl; [reflexivity|]. now destruct (f a).
Qed.

(** Both aggregates read nothing but the flags. *)
Lemma aggregates_read_the_flags (l l' : list Document) :
  map flags l = map flags l' ->
  checkCompletion l = checkCompletion l'
  /\ calculateDossierState l = calculateDossierState l'.
Proof.
  intro E.
  assert (existsb required l = existsb required l') as E1.
  { change required with (fun d => fst (flags d)).
    now rewrite !(existsb_by_flags fst), E. }
  assert (existsb provided l = existsb provided l') as E2.
  { change provided with (fun d => snd (flags d)).
    now rewrite !(existsb_by_flags snd), E. }
  assert (existsb (fun doc => required doc && negb (provided doc)) l
          = existsb (fun doc => required doc && negb (provided doc)) l') as E3.
  { change (fun doc => required doc && negb (provided doc))
      with (fun d => (fun fl : bool * bool => fst fl && negb (snd fl)) (flags d)).
    now rewrite !(existsb_by_flags (fun fl => fst fl && negb (snd fl))), E. }
  unfold checkCompletion, calculateDossierState.
  rewrite E1, E2, E3. split; [|reflexivity].
  pose proof (find_is_existsb (fun doc => required doc && negb (provided doc)) l)
    as F.
  pose proof (find_is_existsb (fun doc => required doc && negb (provided doc)) l')
    as F'.
  rewrite E3 in F.
  destruct (find _ l), (find _ l'); try reflexivity; congruence.
Qed.

(** Once the baseline agrees with its documents, it still does after a
    toggle, and the flag of unsaved changes set by the toggle is off
    exactly when every document carries the two flags it had at the
    baseline. *)
Lemma toggle_keeps_track (s : Session) (documentId : string)
    (field : Field) (checked : bool) :
  Baseline s ->
  let s' := toggle s documentId field checked in
  Baseline s'
  /\ (isChanged s' = false
      <-> map flags (documents (state s')) = map flags (initialDocuments s'))
  /\ isChanged s' = checkForChanges s'.
Proof.
  intros (B1 & B2 & B3). cbv zeta. unfold toggle, handleCheckboxToggle.
  cbn [isChanged state documents withDocuments initialDocuments newDocs
       newCompletionStatus newDossierState].
  set (docs' := map (toggleDocument (state s) documentId field checked)
                    (documents (state s))).
  assert (List.length docs' = List.length (initialDocuments s)) as L
      by (unfold docs'; now rewrite length_map).
  split; [|split].
  - unfold Baseline.
    cbn [initialCompletionStatus initialDossierState initialDocuments state
         documents withDocuments].
    auto.
  - rewrite !orb_false_iff, (documentsChanged_spec _ _ L). split; [tauto|].
    intro E. destruct (aggregates_read_the_flags _ _ E) as [E1 E2].
    rewrite E1, E2, <- B1, <- B2.
    rewrite Bool.eqb_reflx, String.eqb_refl. auto.
  - unfold checkForChanges.
    cbn [isCompleted dossierState initialCompletionStatus initialDossierState
         initialDocuments state documents withDocuments].
    reflexivity.
Qed.

(** ** The fetch *)

Lemma differsFromString_false (a : JsValue) (s : string) :
  differsFromString a s = false -> a = JsPrim (SStr s).
Proof.
  destruct a as [[| |b|n|x]|items]; simpl; try discriminate.
  intro H. apply negb_false_iff, String.eqb_eq in H. now subst.
Qed.

Lemma get_set_same (k : string) (v : JsValue) (d : Properties) :
  get (Js.set k v d) k = v.
Proof.
  unfold get. now rewrite GroupingFacts.lookup_set, String.eqb_refl.
Qed.

Lemma fetch_answered (DOCUMENTS_CONFIG : list DocumentConfig) (s : Session)
    (properties : Properties) :
  truthy (get properties "error") = false ->
  fetchDocumentValues DOCUMENTS_CONFIG s (Fetched properties)
  = loadProperties DOCUMENTS_CONFIG s properties.
Proof. unfold fetchDocumentValues. now intros ->. Qed.

Lemma fetch_fields (DOCUMENTS_CONFIG : list DocumentConfig) (s : Session)
    (properties : Properties) :
  let s' := loadProperties DOCUMENTS_CONFIG s properties in
  let docs := documents (state s') in
  initialDocuments s' = docs
  /\ isCompleted s' = checkCompletion docs
  /\ dossierState s' = DOSSIER_STATES (calculateDossierState docs)
  /\ initialCompletionStatus s' = isCompleted s'
  /\ initialDossierState s' = dossierState s'
  /\ isChanged s' = false.
Proof.
  cbv zeta. unfold loadProperties.
  set (nd := resolveNatureDemande properties).
  set (bag := if negb (isEmpty nd)
              then Js.set "sous_categorie" (JsPrim (SStr nd)) properties
              else properties).
  set (docs := fetchedDocuments DOCUMENTS_CONFIG bag).
  set (drift := negb (Bool.eqb (checkCompletion docs)
                               (toBool (get properties "documents_completed")))
                || differsFromString (currentDossierStateOf properties)
                     (DOSSIER_STATES (calculateDossierState docs))).
  assert ((if drift then checkCompletion docs
           else toBool (get properties "documents_completed"))
          = checkCompletion docs) as Ec.
  { destruct drift eqn:D; [reflexivity|]. unfold drift in D.
    apply orb_false_iff in D. destruct D as [D _].
    apply negb_false_iff, Bool.eqb_prop in D. now rewrite D. }
  assert ((if drift then DOSSIER_STATES (calculateDossierState docs)
           else toString (currentDossierStateOf properties))
          = DOSSIER_STATES (calculateDossierState docs)) as Ed.
  { destruct drift eqn:D; [reflexivity|]. unfold drift in D.
    apply orb_false_iff in D. destruct D as [_ D].
    now rewrite (differsFromString_false _ _ D). }
  cbn [state documents recordProperties initialDocuments isCompleted
       dossierState initialCompletionStatus initialDossierState isChanged].
  rewrite Ec, Ed. repeat split; reflexivity.
Qed.

(** X6: a fetch that is answered without an error leaves the documents
    built from the bag it keeps, makes them the baseline, and stores the
    completion flag and the dossier state computed from them, whatever
    the store held; no change is pending afterwards.  A fetch that is
    rejected or answered with an error leaves the state as it was. *)
Theorem fetch_recomputes_the_aggregates
    (DOCUMENTS_CONFIG : list DocumentConfig) (s : Session)
    (properties : Properties) :
  truthy (get properties "error") = false ->
  let s' := fetchDocumentValues DOCUMENTS_CONFIG s (Fetched properties) in
  let docs := documents (state s') in
  docs = fetchedDocuments DOCUMENTS_CONFIG (recordProperties (state s'))
  /\ initialDocuments s' = docs
  /\ isCompleted s' = checkCompletion docs
  /\ dossierState s' = DOSSIER_STATES (calculateDossierState docs)
  /\ initialCompletionStatus s' = isCompleted s'
  /\ initialDossierState s' = dossierState s'
  /\ isChanged s' = false
  /\ checkForChanges s' = false
  /\ Baseline s'
  /\ (forall error,
        fetchDocumentValues DOCUMENTS_CONFIG s (FetchFailed error) = s)
  /\ (forall answer, truthy (get answer "error") = true ->
        fetchDocumentValues DOCUMENTS_CONFIG s (Fetched answer) = s).
Proof.
  intro NoError. cbv zeta. rewrite (fetch_answered _ _ _ NoError).
  destruct (fetch_fields DOCUMENTS_CONFIG s properties)
    as (F1 & F2 & F3 & F4 & F5 & F6).
  cbv zeta in F1, F2, F3, F4, F5, F6.
  assert (documentsChanged
            (documents (state (loadProperties DOCUMENTS_CONFIG s properties)))
            (initialDocuments (loadProperties DOCUMENTS_CONFIG s properties))
          = false) as Ch
      by (apply documentsChanged_spec; now rewrite F1).
  split; [reflexivity|].
  split; [exact F1|]. split; [exact F2|]. split; [exact F3|].
  split; [exact F4|]. split; [exact F5|]. split; [exact F6|].
  split; [|split; [|split]].
  - unfold checkForChanges.
    now rewrite Ch, F4, F5, Bool.eqb_reflx, String.eqb_refl.
  - unfold Baseline. rewrite F4, F5, F1. auto.
  - reflexivity.
  - intros answer E. unfold fetchDocumentValues. now rewrite E.
Qed.

Lemma fetch_recomputes_the_aggregates_witness :
  let s' := fetchDocumentValues Scenarios.catalogD1
              (initialSession Scenarios.catalogD1 "decret")
              (Fetched (("documents_completed", JsPrim (SStr "true"))
                        :: Scenarios.bagX "false")) in
  isCompleted s' = false /\ isChanged s' = false.
Proof.
  cbv zeta.
  destruct (fetch_recomputes_the_aggregates Scenarios.catalogD1
              (initialSession Scenarios.catalogD1 "decret")
              (("documents_completed", JsPrim (SStr "true"))
               :: Scenarios.bagX "false") eq_refl)
    as (_ & _ & H & _ & _ & _ & H' & _).
  split; [rewrite H; reflexivity|exact H'].
Defined.

(** X7: after a successful fetch the category kept in the state is
    trimmed and, when it is not empty, it is the value of [sous_categorie]
    in the bag kept beside it; the visibility filter then evaluates the
    conditions on that very bag, and a document counts as required for
    the progress exactly when it carries the required flag. *)
Theorem fetch_keeps_the_category_in_the_bag
    (DOCUMENTS_CONFIG : list DocumentConfig) (s : Session)
    (properties : Properties) :
  truthy (get properties "error") = false ->
  let st := state (fetchDocumentValues DOCUMENTS_CONFIG s (Fetched properties)) in
  trim (natureDemande st) = natureDemande st
  /\ (natureDemande st <> EmptyString ->
      get (recordProperties st) "sous_categorie"
      = JsPrim (SStr (natureDemande st)))
  /\ (natureDemande st = EmptyString -> recordProperties st = properties)
  /\ propsForConditions st = recordProperties st
  /\ (forall d, In d (documents st) ->
        countsAsRequired (recordProperties st) d = required d).
Proof.
  intro NoError. cbv zeta. rewrite (fetch_answered _ _ _ NoError).
  unfold loadProperties.
  cbn [state natureDemande recordProperties documents].
  set (nd := resolveNatureDemande properties).
  assert (trim nd = nd) as Et.
  { unfold nd, resolveNatureDemande.
    match goal with
    | |- trim (if ?c then _ else _) = _ => destruct c
    end; [apply MembershipFacts.trim_idempotent|reflexivity]. }
  split; [exact Et|].
  destruct nd as [|c r] eqn:E; cbn [isEmpty negb].
  - split; [intro H; now elim H|]. split; [reflexivity|].
    split; [reflexivity|].
    intros d Hd. exact (CalculatorFacts.fetched_counts_by_flag _ _ _ Hd).
  - split; [intros _; apply get_set_same|]. split; [discriminate|].
    split.
    + unfold propsForConditions.
      cbn [natureDemande recordProperties isEmpty negb].
      now rewrite get_set_same.
    + intros d Hd. exact (CalculatorFacts.fetched_counts_by_flag _ _ _ Hd).
Qed.

Lemma fetch_keeps_the_category_in_the_bag_witness :
  let st := state (fetchDocumentValues Scenarios.catalogD1
                     (initialSession Scenarios.catalogD1 "decret")
                     (Fetched [("Sous_Categorie", JsPrim (SStr " X "))])) in
  get (recordProperties st) "sous_categorie" = JsPrim (SStr "X").
Proof.
  cbv zeta.
  destruct (fetch_keeps_the_category_in_the_bag Scenarios.catalogD1
              (initialSession Scenarios.catalogD1 "decret")
              [("Sous_Categorie", JsPrim (SStr " X "))] eq_refl)
    as (_ & H & _).
  rewrite H; [reflexivity|]. vm_compute. discriminate.
Defined.

(** ** Runs of the component *)

Lemma unflagged_toggleDocument (st : State) (documentId : string)
    (field : Field) (checked : bool) (doc : Document) :
  unflagged (toggleDocument st documentId field checked doc) = unflagged doc.
Proof.
  unfold toggleDocument.
  destruct (String.eqb (id doc) documentId); [|reflexivity].
  destruct field; [|reflexivity].
  destruct (hasConditions doc && negb (String.eqb (selectedTab st) "autre"));
    [|reflexivity].
  destruct (checkDocumentConditions doc (recordProperties st) None && negb checked);
    [reflexivity|].
  destruct (negb (checkDocumentConditions doc (recordProperties st) None) && checked);
    reflexivity.
Qed.

Lemma unflagged_fetchedDocuments (DOCUMENTS_CONFIG : list DocumentConfig)
    (bag : Properties) :
  map unflagged (fetchedDocuments DOCUMENTS_CONFIG bag)
  = INITIAL_DOCUMENTS DOCUMENTS_CONFIG.
Proof.
  unfold fetchedDocuments, INITIAL_DOCUMENTS. rewrite !map_map.
  apply map_ext. reflexivity.
Qed.

Lemma unflagged_initial (DOCUMENTS_CONFIG : list DocumentConfig) :
  map unflagged (INITIAL_DOCUMENTS DOCUMENTS_CONFIG)
  = INITIAL_DOCUMENTS DOCUMENTS_CONFIG.
Proof.
  unfold INITIAL_DOCUMENTS. rewrite map_map. apply map_ext. reflexivity.
Qed.

Lemma toggle_lists_the_catalog (DOCUMENTS_CONFIG : list DocumentConfig)
    (st : State) (documentId : string) (field : Field) (checked : bool)
    (docs : list Document) :
  ListsTheCatalog DOCUMENTS_CONFIG docs ->
  ListsTheCatalog DOCUMENTS_CONFIG
    (map (toggleDocument st documentId field checked) docs).
Proof.
  intros [->|E]; [now left|]. right. rewrite map_map, <- E.
  apply map_ext. intro d. apply unflagged_toggleDocument.
Qed.

Lemma fetch_lists_the_catalog (DOCUMENTS_CONFIG : list DocumentConfig)
    (s : Session) (properties : Properties) :
  ListsTheCatalog DOCUMENTS_CONFIG
    (documents (state (loadProperties DOCUMENTS_CONFIG s properties))).
Proof.
  right. unfold loadProperties. cbn [state documents].
  apply unflagged_fetchedDocuments.
Qed.

Lemma load_consistent (DOCUMENTS_CONFIG : list DocumentConfig)
    (s : Session) (properties : Properties) :
  Consistent DOCUMENTS_CONFIG (loadProperties DOCUMENTS_CONFIG s properties).
Proof.
  destruct (fetch_fields DOCUMENTS_CONFIG s properties)
    as (F1 & F2 & F3 & F4 & F5 & F6).
  cbv zeta in F1, F2, F3, F4, F5, F6.
  pose proof (fetch_lists_the_catalog DOCUMENTS_CONFIG s properties) as L.
  unfold Consistent. rewrite F4, F5, F1, F6.
  repeat match goal with |- _ /\ _ => split end; try assumption.
  right. split; [reflexivity|]. split; reflexivity.
Qed.

Lemma handle_consistent (DOCUMENTS_CONFIG : list DocumentConfig)
    (s : Session) (event : Event) :
  Consistent DOCUMENTS_CONFIG s ->
  Consistent DOCUMENTS_CONFIG (handle DOCUMENTS_CONFIG s event).
Proof.
  intros (C1 & C2 & I1 & I2 & I3 & I4 & I5).
  destruct event as [[error|properties]|documentId field checked| | |tabId|value];
    cbn [handle].
  - unfold Consistent, fetchDocumentValues. auto 10.
  - unfold fetchDocumentValues.
    destruct (truthy (get properties "error"));
      [unfold Consistent; auto 10|].
    now apply load_consistent.
  - assert (ListsTheCatalog DOCUMENTS_CONFIG
              (documents (state (toggle s documentId field checked)))) as L
        by (now apply toggle_lists_the_catalog).
    destruct I5 as [E|[Ln T]].
    + unfold Consistent. split; [exact L|].
      unfold toggle, handleCheckboxToggle.
      cbn [isCompleted dossierState initialCompletionStatus
           initialDossierState initialDocuments state documents
           withDocuments newDocs newCompletionStatus newDossierState].
      repeat match goal with |- _ /\ _ => split end; auto.
    + destruct (toggle_keeps_track s documentId field checked)
        as ((B1 & B2 & B3) & H & _); [unfold Baseline; auto|].
      cbv zeta in H.
      unfold Consistent.
      repeat match goal with |- _ /\ _ => split end; try assumption.
      * reflexivity.
      * reflexivity.
      * right. split; assumption.
  - unfold Consistent, resetChanges.
    cbn [isCompleted dossierState initialCompletionStatus
         initialDossierState initialDocuments state documents withDocuments
         isChanged].
    repeat match goal with |- _ /\ _ => split end; try assumption.
    right. split; [reflexivity|]. split; reflexivity.
  - unfold Consistent, markSaved.
    cbn [isCompleted dossierState initialCompletionStatus
         initialDossierState initialDocuments state documents isChanged].
    repeat match goal with |- _ /\ _ => split end; try assumption.
    right. split; [reflexivity|]. split; reflexivity.
  - unfold Consistent, withState, selectTab.
    cbn [isCompleted dossierState initialCompletionStatus
         initialDossierState initialDocuments state documents isChanged].
    auto 10.
  - unfold Consistent, withState, search.
    cbn [isCompleted dossierState initialCompletionStatus
         initialDossierState initialDocuments state documents isChanged].
    auto 10.
Qed.

Lemma initial_documents_have_no_flag (DOCUMENTS_CONFIG : list DocumentConfig) :
  existsb required (INITIAL_DOCUMENTS DOCUMENTS_CONFIG) = false
  /\ find (fun doc => required doc && negb (provided doc))
          (INITIAL_DOCUMENTS DOCUMENTS_CONFIG) = None.
Proof.
  induction DOCUMENTS_CONFIG as [|c l [IH1 IH2]]; [split; reflexivity|].
  split; simpl; assumption.
Qed.

Lemma run_consistent (DOCUMENTS_CONFIG : list DocumentConfig)
    (firstTab : string) (events : list Event) :
  Consistent DOCUMENTS_CONFIG (run DOCUMENTS_CONFIG firstTab events).
Proof.
  unfold run.
  assert (Consistent DOCUMENTS_CONFIG
            (initialSession DOCUMENTS_CONFIG firstTab)) as I.
  { destruct (initial_documents_have_no_flag DOCUMENTS_CONFIG) as [E1 E2].
    unfold Consistent, initialSession.
    cbn [isCompleted dossierState initialCompletionStatus
         initialDossierState initialDocuments state documents isChanged].
    unfold checkCompletion, calculateDossierState. rewrite E1, E2.
    repeat match goal with |- _ /\ _ => split end; try reflexivity.
    - right. apply unflagged_initial.
    - now left.
    - now left. }
  revert I. generalize (initialSession DOCUMENTS_CONFIG firstTab).
  induction events as [|e events IH]; intros s I; cbn [fold_left].
  - exact I.
  - apply IH. now apply handle_consistent.
Qed.

(** *** The save in two steps *)

(** The save in one step is a save answered in the render of its
    click. *)
Lemma markSaved_installs_the_capture (s : Session) :
  markSaved s = installSaved s (captureOf s).
Proof. reflexivity. Qed.

Lemma initial_consistent (DOCUMENTS_CONFIG : list DocumentConfig)
    (firstTab : string) :
  Consistent DOCUMENTS_CONFIG (initialSession DOCUMENTS_CONFIG firstTab).
Proof. exact (run_consistent DOCUMENTS_CONFIG firstTab []). Qed.

Lemma load_coherent (DOCUMENTS_CONFIG : list DocumentConfig)
    (s : Session) (properties : Properties) :
  Coherent DOCUMENTS_CONFIG (loadProperties DOCUMENTS_CONFIG s properties).
Proof.
  destruct (load_consistent DOCUMENTS_CONFIG s properties)
    as (C1 & C2 & I1 & I2 & I3 & I4 & _).
  destruct (fetch_fields DOCUMENTS_CONFIG s properties)
    as (_ & _ & _ & _ & _ & F6).
  cbv zeta in F6. unfold Coherent.
  repeat match goal with |- _ /\ _ => split end; try assumption.
  rewrite F6. discriminate.
Qed.

(** A toggle raises the flag of unsaved changes only over flags that
    differ from the baseline, whatever the baseline is. *)
Lemma toggle_coherent (DOCUMENTS_CONFIG : list DocumentConfig)
    (s : Session) (documentId : string) (field : Field) (checked : bool) :
  Coherent DOCUMENTS_CONFIG s ->
  Coherent DOCUMENTS_CONFIG (toggle s documentId field checked).
Proof.
  intros (C1 & C2 & I1 & I2 & I3 & I4 & _).
  assert (ListsTheCatalog DOCUMENTS_CONFIG
            (documents (state (toggle s documentId field checked)))) as L
      by (now apply toggle_lists_the_catalog).
  unfold Coherent. split; [exact L|]. clear L.
  unfold toggle, handleCheckboxToggle.
  cbn [isCompleted dossierState initialCompletionStatus
       initialDossierState initialDocuments state documents
       withDocuments newDocs newCompletionStatus newDossierState isChanged].
  set (docs' := map (toggleDocument (state s) documentId field checked)
                    (documents (state s))).
  repeat match goal with |- _ /\ _ => split end; auto.
  intros Ch E.
  assert (List.length docs' = List.length (initialDocuments s)) as Ln
      by (apply (f_equal (@List.length _)) in E; now rewrite !length_map in E).
  destruct (aggregates_read_the_flags _ _ E) as [E1 E2].
  rewrite E1, E2, <- I3, <- I4 in Ch.
  rewrite Bool.eqb_reflx, String.eqb_refl in Ch. cbn [negb orb] in Ch.
  rewrite (proj2 (documentsChanged_spec _ _ Ln) E) in Ch. discriminate Ch.
Qed.

Lemma asyncHandle_coherent (DOCUMENTS_CONFIG : list DocumentConfig)
    (r : Running) (event : AsyncEvent) :
  Coherent DOCUMENTS_CONFIG (session r) ->
  (forall c, inFlight r = Some c -> WellFormed DOCUMENTS_CONFIG c) ->
  let r' := asyncHandle DOCUMENTS_CONFIG r event in
  Coherent DOCUMENTS_CONFIG (session r')
  /\ (forall c, inFlight r' = Some c -> WellFormed DOCUMENTS_CONFIG c).
Proof.
  intros C W. cbv zeta.
  destruct event as [[error|properties]|documentId field checked| |
                     |succeeded|tabId|value];
    cbn [asyncHandle session inFlight].
  - split; assumption.
  - split; [|exact W]. unfold fetchDocumentValues.
    destruct (truthy (get properties "error")); [exact C|].
    apply load_coherent.
  - split; [|exact W]. now apply toggle_coherent.
  - split; [|exact W]. destruct C as (C1 & C2 & I1 & I2 & I3 & I4 & I5).
    unfold Coherent, resetChanges.
    cbn [isCompleted dossierState initialCompletionStatus
         initialDossierState initialDocuments state documents withDocuments
         isChanged].
    repeat match goal with |- _ /\ _ => split end; try assumption.
    discriminate.
  - destruct (inFlight r) as [c|] eqn:F; cbn [session inFlight].
    + split; [exact C|]. intros c' E. apply W. rewrite <- F. exact E.
    + split; [exact C|]. intros c' E. injection E as <-.
      destruct C as (C1 & C2 & I1 & I2 & I3 & I4 & I5).
      unfold WellFormed, captureOf.
      cbn [savedDocuments savedCompletion savedDossierState]. auto.
  - destruct (inFlight r) as [c|] eqn:F; cbn [session inFlight].
    + split; [|discriminate]. destruct succeeded; [|exact C].
      destruct (W c eq_refl) as (W1 & W2 & W3).
      destruct C as (C1 & C2 & I1 & I2 & I3 & I4 & I5).
      unfold Coherent, installSaved.
      cbn [isCompleted dossierState initialCompletionStatus
           initialDossierState initialDocuments state documents isChanged].
      repeat match goal with |- _ /\ _ => split end; try assumption.
      discriminate.
    + split; [exact C|]. intros c' E. rewrite F in E. discriminate E.
  - split; [|exact W]. destruct C as (C1 & C2 & I1 & I2 & I3 & I4 & I5).
    unfold Coherent, withState, selectTab.
    cbn [isCompleted dossierState initialCompletionStatus
         initialDossierState initialDocuments state documents isChanged].
    auto 10.
  - split; [|exact W]. destruct C as (C1 & C2 & I1 & I2 & I3 & I4 & I5).
    unfold Coherent, withState, search.
    cbn [isCompleted dossierState initialCompletionStatus
         initialDossierState initialDocuments state documents isChanged].
    auto 10.
Qed.

Lemma asyncRun_coherent (DOCUMENTS_CONFIG : list DocumentConfig)
    (events : list AsyncEvent) :
  forall r,
    Coherent DOCUMENTS_CONFIG (session r) ->
    (forall c, inFlight r = Some c -> WellFormed DOCUMENTS_CONFIG c) ->
    Coherent DOCUMENTS_CONFIG
      (session (fold_left (asyncHandle DOCUMENTS_CONFIG) events r)).
Proof.
  induction events as [|e events IH]; intros r C W; cbn [fold_left].
  - exact C.
  - destruct (asyncHandle_coherent DOCUMENTS_CONFIG r e C W) as [C' W'].
    now apply IH.
Qed.

(** While no event replaces the list during a save, the capture in
    flight is the list and the aggregates shown, and the answer of the
    save is the save in one step. *)
Lemma asyncHandle_undisturbed (DOCUMENTS_CONFIG : list DocumentConfig)
    (r : Running) (event : AsyncEvent) :
  Consistent DOCUMENTS_CONFIG (session r) ->
  (forall c, inFlight r = Some c -> c = captureOf (session r)) ->
  (replacesTheList event = true -> inFlight r = None) ->
  let r' := asyncHandle DOCUMENTS_CONFIG r event in
  Consistent DOCUMENTS_CONFIG (session r')
  /\ (forall c, inFlight r' = Some c -> c = captureOf (session r')).
Proof.
  intros C K Q. cbv zeta.
  destruct event as [response|documentId field checked| | |succeeded
                     |tabId|value];
    cbn [asyncHandle session inFlight].
  - rewrite (Q eq_refl). split; [|discriminate].
    exact (handle_consistent DOCUMENTS_CONFIG (session r) (Fetch response) C).
  - rewrite (Q eq_refl). split; [|discriminate].
    exact (handle_consistent DOCUMENTS_CONFIG (session r)
             (Toggle documentId field checked) C).
  - rewrite (Q eq_refl). split; [|discriminate].
    exact (handle_consistent DOCUMENTS_CONFIG (session r) Reset C).
  - destruct (inFlight r) as [c|] eqn:F; cbn [session inFlight].
    + split; [exact C|]. intros c' E. apply K. rewrite <- F. exact E.
    + split; [exact C|]. now intros c' [= <-].
  - destruct (inFlight r) as [c|] eqn:F; cbn [session inFlight].
    + split; [|discriminate]. destruct succeeded; [|exact C].
      rewrite (K c eq_refl).
      exact (handle_consistent DOCUMENTS_CONFIG (session r) Saved C).
    + split; [exact C|]. intros c' E. rewrite F in E. discriminate E.
  - split.
    + exact (handle_consistent DOCUMENTS_CONFIG (session r)
               (SelectTab tabId) C).
    + intros c E. now rewrite (K c E).
  - split.
    + exact (handle_consistent DOCUMENTS_CONFIG (session r) (Search value) C).
    + intros c E. now rewrite (K c E).
Qed.

Lemma asyncRun_undisturbed (DOCUMENTS_CONFIG : list DocumentConfig)
    (events : list AsyncEvent) :
  forall r,
    Consistent DOCUMENTS_CONFIG (session r) ->
    (forall c, inFlight r = Some c -> c = captureOf (session r)) ->
    undisturbed DOCUMENTS_CONFIG r events = true ->
    Consistent DOCUMENTS_CONFIG
      (session (fold_left (asyncHandle DOCUMENTS_CONFIG) events r)).
Proof.
  induction events as [|e events IH]; intros r C K U; cbn [fold_left].
  - exact C.
  - cbn [undisturbed] in U. apply andb_true_iff in U. destruct U as [Q U].
    assert (replacesTheList e = true -> inFlight r = None) as Q'.
    { intro R. rewrite R in Q. cbn [negb orb] in Q.
      now destruct (inFlight r). }
    destruct (asyncHandle_undisturbed DOCUMENTS_CONFIG r e C K Q')
      as [C' K'].
    now apply IH.
Qed.

Lemma initial_coherent (DOCUMENTS_CONFIG : list DocumentConfig)
    (firstTab : string) :
  Coherent DOCUMENTS_CONFIG (initialSession DOCUMENTS_CONFIG firstTab).
Proof.
  destruct (initial_consistent DOCUMENTS_CONFIG firstTab)
    as (C1 & C2 & I1 & I2 & I3 & I4 & _).
  unfold Coherent.
  repeat match goal with |- _ /\ _ => split end; try assumption.
  discriminate.
Qed.

(** X8: whatever happens to the component, from its first render and in
    any order (answers to fetches, clicks on checkboxes, resets, clicks
    on the save button and, later, the answers to the saves, changes of
    tab and of search term), the list it shows is the catalog, in the
    order of the catalog and flags apart, or nothing; the completion
    flag and the dossier state it shows are those computed from that
    list, the baseline ones are those of the baseline list, and a raised
    flag of unsaved changes means that some document does not carry the
    two flags of the baseline.  When no fetch answer, checkbox or reset
    comes between the click on the save button and the answer to the
    save, the flag of unsaved changes is, once a baseline exists, off
    exactly when every document carries the two flags of the
    baseline. *)
Theorem the_component_stays_consistent
    (DOCUMENTS_CONFIG : list DocumentConfig) (firstTab : string)
    (events : list AsyncEvent) :
  let s := session (asyncRun DOCUMENTS_CONFIG firstTab events) in
  let docs := documents (state s) in
  (docs = [] \/ map unflagged docs = INITIAL_DOCUMENTS DOCUMENTS_CONFIG)
  /\ isCompleted s = checkCompletion docs
  /\ dossierState s = DOSSIER_STATES (calculateDossierState docs)
  /\ initialCompletionStatus s = checkCompletion (initialDocuments s)
  /\ initialDossierState s
     = DOSSIER_STATES (calculateDossierState (initialDocuments s))
  /\ (isChanged s = true -> map flags docs <> map flags (initialDocuments s))
  /\ (undisturbed DOCUMENTS_CONFIG (firstRender DOCUMENTS_CONFIG firstTab)
        events = true ->
      initialDocuments s = []
      \/ (List.length docs = List.length (initialDocuments s)
          /\ (isChanged s = false
              <-> map flags docs = map flags (initialDocuments s)))).
Proof.
  cbv zeta. unfold asyncRun.
  assert (Coherent DOCUMENTS_CONFIG
            (session (fold_left (asyncHandle DOCUMENTS_CONFIG) events
                        (firstRender DOCUMENTS_CONFIG firstTab)))) as C.
  { apply asyncRun_coherent.
    - apply initial_coherent.
    - intros c E. discriminate E. }
  destruct C as (C1 & _ & I1 & I2 & I3 & I4 & I5).
  repeat match goal with |- _ /\ _ => split end; try assumption.
  intro U.
  assert (Consistent DOCUMENTS_CONFIG
            (session (fold_left (asyncHandle DOCUMENTS_CONFIG) events
                        (firstRender DOCUMENTS_CONFIG firstTab)))) as K.
  { apply asyncRun_undisturbed; [| |exact U].
    - apply initial_consistent.
    - intros c E. discriminate E. }
  destruct K as (_ & _ & _ & _ & _ & _ & K). exact K.
Qed.

(** A fetch, a click on the provided box of the one document, a click on
    the save button, a change of tab and the answer to the save. *)
Lemma the_component_stays_consistent_witness :
  let events :=
    [FetchAnswered (Fetched (Scenarios.bagX "false"));
     CheckboxToggled "d1" FieldProvided true;
     SaveClicked; TabSelected "autre"; SaveAnswered true] in
  let s := session (asyncRun Scenarios.catalogD1 "decret" events) in
  map flags (documents (state s)) = map flags (initialDocuments s)
  /\ map flags (documents (state s)) = [(true, true)].
Proof.
  cbv zeta.
  destruct (the_component_stays_consistent Scenarios.catalogD1 "decret"
              [FetchAnswered (Fetched (Scenarios.bagX "false"));
               CheckboxToggled "d1" FieldProvided true;
               SaveClicked; TabSelected "autre"; SaveAnswered true])
    as (_ & _ & _ & _ & _ & _ & H).
  destruct (H eq_refl) as [E|[_ [Hoff _]]].
  - discriminate E.
  - split; [apply Hoff; reflexivity|reflexivity].
Defined.

(** A click on the provided box between the click on the save button
    and the answer to the save: the answer makes the list of the click
    the baseline and lowers the flag of unsaved changes over a list that
    differs from it. *)
Example toggle_during_a_save_goes_unnoticed :
  let events :=
    [FetchAnswered (Fetched (Scenarios.bagY));
     CheckboxToggled "d1" FieldProvided false;
     SaveClicked;
     CheckboxToggled "d1" FieldProvided true;
     SaveAnswered true] in
  let s := session (asyncRun Scenarios.catalogD1 "decret" events) in
  undisturbed Scenarios.catalogD1 (firstRender Scenarios.catalogD1 "decret")
    events = false
  /\ isChanged s = false
  /\ map flags (documents (state s)) = [(true, true)]
  /\ map flags (initialDocuments s) = [(true, false)].
Proof. vm_compute. repeat split. Qed.

End SessionFacts.

(** * The save: from the checklist to the batch sent to the store *)

Module SaveFacts.

Import Js Evaluator DocumentList Checklist Store.

Lemma set_fresh {A : Type} (k : string) (v : A) (m : Dict A) :
  lookup k m = None -> Js.set k v m = (m ++ [(k, v)])%list.
Proof.
  induction m as [|[k' v'] r IH]; simpl; [reflexivity|].
  destruct (String.eqb k' k); [discriminate|]. intro H. now rewrite IH.
Qed.

Lemma keys_set {A : Type} (k : string) (v : A) (m : Dict A) :
  keys (Js.set k v m)
  = match lookup k m with
    | Some _ => keys m
    | None => (keys m ++ [k])%list
    end.
Proof.
  induction m as [|[k' v'] r IH]; simpl; [reflexivity|].
  destruct (String.eqb k' k) eqn:E; [reflexivity|]. simpl. rewrite IH.
  now destruct (lookup k r).
Qed.

Lemma keys_set_NoDup {A : Type} (k : string) (v : A) (m : Dict A) :
  NoDup (keys m) -> NoDup (keys (Js.set k v m)).
Proof.
  intro H. rewrite keys_set. destruct (lookup k m) eqn:E; [exact H|].
  apply GroupingFacts.lookup_None_keys in E.
  apply NoDup_app; [exact H|constructor; [intros []|constructor]|].
  intros x Hx [<-|[]]. now apply E.
Qed.

Lemma find_rev_none {A : Type} (f : A -> bool) (l : list A) :
  existsb f l = false -> find f (rev l) = None.
Proof.
  intro H. destruct (find f (rev l)) eqn:E; [|reflexivity].
  apply find_some in E. destruct E as [Hin Hf]. apply in_rev in Hin.
  assert (existsb f l = true) by (apply existsb_exists; eauto). congruence.
Qed.

Lemma find_rev_some {A : Type} (f : A -> bool) (l : list A) :
  existsb f l = true -> exists x, find f (rev l) = Some x.
Proof.
  intro H. destruct (find f (rev l)) eqn:E; [eauto|].
  apply existsb_exists in H. destruct H as (x & Hin & Hf).
  apply in_rev in Hin. pose proof (find_none _ _ E _ Hin). congruence.
Qed.

(** *** The loop as a sequence of writes *)

Lemma recordDocument_writes (visibleDocIds : list string)
    (docs : list Document) :
  forall acc : SaveAccumulator,
  fold_left (recordDocument visibleDocIds) docs acc
  = fold_left applyWrite (flat_map (writesOf visibleDocIds) docs) acc.
Proof.
  induction docs as [|d docs IH]; intro acc; [reflexivity|].
  cbn [fold_left flat_map]. unfold writesOf at 1.
  cbn [app fold_left]. apply IH.
Qed.

Lemma isWriteOf_other (prop : string) (visibleOnly : bool) (w : Write) :
  String.eqb (write_property w) prop = false ->
  isWriteOf prop visibleOnly w = false.
Proof. unfold isWriteOf. now intros ->. Qed.

Lemma isWriteOf_same (visibleOnly : bool) (w : Write) :
  isWriteOf (write_property w) visibleOnly w
  = (write_visible w || negb visibleOnly).
Proof. unfold isWriteOf. now rewrite String.eqb_refl. Qed.

Lemma winner_snoc_other (prop : string) (ws : list Write) (w : Write) :
  String.eqb (write_property w) prop = false ->
  winner prop (ws ++ [w]) = winner prop ws.
Proof.
  intro E. unfold winner, lastWrite. rewrite rev_app_distr. cbn [rev app find].
  now rewrite !(isWriteOf_other _ _ _ E).
Qed.

Lemma winner_snoc_same (ws : list Write) (w : Write) :
  winner (write_property w) (ws ++ [w])
  = if write_visible w then Some (write_flag w)
    else if existsb (isWriteOf (write_property w) true) ws
         then winner (write_property w) ws
         else Some (write_flag w).
Proof.
  unfold winner, lastWrite. rewrite rev_app_distr. cbn [rev app find].
  rewrite !isWriteOf_same. cbn [negb].
  destruct (write_visible w); cbn [orb]; [reflexivity|].
  destruct (existsb (isWriteOf (write_property w) true) ws) eqn:E.
  - destruct (find_rev_some _ _ E) as [x ->]. reflexivity.
  - now rewrite (find_rev_none _ _ E).
Qed.

Lemma applyWrite_tracks (ws : list Write) (acc : SaveAccumulator) (w : Write) :
  Tracks ws acc -> Tracks (ws ++ [w]) (applyWrite acc w).
Proof.
  intros T prop. destruct acc as [seen props].
  destruct (T prop) as [T1 T2]. destruct (T (write_property w)) as [W1 W2].
  cbn [fst snd] in T1, T2, W1, W2.
  rewrite !existsb_app. cbn [existsb]. rewrite !orb_false_r.
  destruct (String.eqb (write_property w) prop) eqn:E.
  - apply String.eqb_eq in E. subst prop.
    rewrite winner_snoc_same, !isWriteOf_same. cbn [negb].
    rewrite orb_true_r, orb_true_r, orb_false_r.
    unfold applyWrite, recordProperty.
    destruct (lookup (write_property w) seen) as [previous|] eqn:L;
      cbn [option_map] in W2.
    + destruct (existsb (isWriteOf (write_property w) false) ws);
        [|discriminate W2].
      injection W2 as W2. rewrite <- W2.
      destruct (write_visible w), (seen_isVisible previous); cbn [andb negb orb];
        cbn [fst snd]; rewrite ?GroupingFacts.lookup_set, ?String.eqb_refl;
        cbn [option_map seen_isVisible]; try (split; reflexivity).
      split; [exact W1|]. now rewrite L, W2.
    + destruct (existsb (isWriteOf (write_property w) false) ws) eqn:X;
        [discriminate W2|].
      assert (existsb (isWriteOf (write_property w) true) ws = false) as X'.
      { apply CalculatorFacts.existsb_false_iff. intros x Hx.
        pose proof (proj1 (CalculatorFacts.existsb_false_iff _ _) X x Hx) as F.
        unfold isWriteOf in *. cbn [negb] in *.
        rewrite orb_true_r, andb_true_r in F. now rewrite F. }
      rewrite X'. cbn [fst snd].
      rewrite !GroupingFacts.lookup_set, String.eqb_refl.
      cbn [option_map seen_isVisible orb].
      split; [now destruct (write_visible w)|reflexivity].
  - rewrite (winner_snoc_other _ _ _ E), !(isWriteOf_other _ _ _ E),
      !orb_false_r.
    unfold applyWrite, recordProperty.
    destruct (lookup (write_property w) seen) as [previous|];
      [destruct (write_visible w && negb (seen_isVisible previous));
       [|destruct (negb (write_visible w) && seen_isVisible previous)]|];
      cbn [fst snd]; rewrite ?GroupingFacts.lookup_set, ?E; split; assumption.
Qed.

Lemma writes_track (ws : list Write) :
  Tracks ws (fold_left applyWrite ws ([], [])).
Proof.
  induction ws as [|w ws IH] using rev_ind.
  - intro prop. split; reflexivity.
  - rewrite fold_left_app. cbn [fold_left]. now apply applyWrite_tracks.
Qed.

Lemma applyWrite_NoDup (acc : SaveAccumulator) (w : Write) :
  NoDup (keys (snd acc)) -> NoDup (keys (snd (applyWrite acc w))).
Proof.
  destruct acc as [seen props]. unfold applyWrite, recordProperty.
  cbn [snd]. intro H.
  destruct (lookup (write_property w) seen) as [previous|];
    [destruct (write_visible w && negb (seen_isVisible previous));
     [|destruct (negb (write_visible w) && seen_isVisible previous)]|];
    cbn [snd]; try assumption; now apply keys_set_NoDup.
Qed.

Lemma documentProperties_NoDup (visibleDocIds : list string)
    (docs : list Document) :
  NoDup (keys (documentProperties visibleDocIds docs)).
Proof.
  unfold documentProperties. rewrite recordDocument_writes.
  generalize (flat_map (writesOf visibleDocIds) docs). intro ws.
  assert (NoDup (keys (snd (([], []) : SaveAccumulator)))) as H
      by constructor.
  revert H. generalize (([], []) : SaveAccumulator).
  induction ws as [|w ws IH]; intros acc H; [exact H|].
  cbn [fold_left]. apply IH. now apply applyWrite_NoDup.
Qed.

(** *** The batch built from booleans *)

Lemma lookup_map_entry {A B : Type} (f : A -> B) (k : string) (d : Dict A) :
  lookup k (map (fun kv => (fst kv, f (snd kv))) d)
  = option_map f (lookup k d).
Proof.
  induction d as [|[k' v] r IH]; simpl; [reflexivity|].
  now destruct (String.eqb k' k).
Qed.

Lemma keys_map_entry {A B : Type} (f : A -> B) (d : Dict A) :
  keys (map (fun kv => (fst kv, f (snd kv))) d) = keys d.
Proof. unfold keys. rewrite map_map. reflexivity. Qed.

Lemma build_from_booleans (dict : Dict bool) :
  forall (l : Dict bool) (acc : Batch),
  (forall kv, In kv l -> lookup (fst kv) dict = Some (snd kv)) ->
  NoDup (keys acc ++ keys l) ->
  fold_left (addProperty (map boolEntry dict)) (keys l) acc
  = (acc ++ map textEntry l)%list.
Proof.
  induction l as [|[k b] l IH]; intros acc Hl Hnd.
  - cbn. now rewrite app_nil_r.
  - cbn [keys map fst fold_left].
    assert (addProperty (map boolEntry dict) acc k
            = (acc ++ [textEntry (k, b)])%list) as ->.
    { unfold addProperty, get, boolEntry.
      rewrite (lookup_map_entry (fun b => JsPrim (SBool b))).
      pose proof (Hl (k, b) (or_introl eq_refl)) as Hk.
      cbn [fst snd] in Hk. rewrite Hk. cbn [option_map].
      apply set_fresh. apply GroupingFacts.lookup_None_keys.
      apply NoDup_remove_2 in Hnd. intro H. apply Hnd.
      apply in_or_app. now left. }
    change (map fst l) with (keys l). rewrite IH.
    + now rewrite <- app_assoc.
    + intros kv H. apply Hl. now right.
    + unfold keys in *. rewrite map_app, <- app_assoc. exact Hnd.
Qed.

Lemma buildProperties_of_booleans (dict : Dict bool) :
  NoDup (keys dict) ->
  buildProperties (map boolEntry dict) = map textEntry dict.
Proof.
  intro H. unfold buildProperties.
  change (map boolEntry dict)
    with (map (fun kv => (fst kv, (fun b => JsPrim (SBool b)) (snd kv))) dict)
    at 2.
  rewrite keys_map_entry.
  rewrite (build_from_booleans dict dict []); [reflexivity| |exact H].
  intros [k b] Hin. now apply GroupingFacts.lookup_In.
Qed.

Lemma batch_of_the_save (DOCUMENTS_CONFIG : list DocumentConfig) (st : State)
    (docs : list Document) (prop : string) :
  lookup prop (buildProperties (documentsParameter DOCUMENTS_CONFIG st docs))
  = option_map flagText
      (winner prop
         (flat_map
            (writesOf (map id (getVisibleDocuments DOCUMENTS_CONFIG st)))
            docs)).
Proof.
  unfold documentsParameter.
  set (visibleDocIds := map id (getVisibleDocuments DOCUMENTS_CONFIG st)).
  change (fun kv : string * bool => (fst kv, JsPrim (SBool (snd kv))))
    with boolEntry.
  rewrite buildProperties_of_booleans by apply documentProperties_NoDup.
  unfold textEntry. rewrite (lookup_map_entry flagText).
  f_equal. unfold documentProperties. rewrite recordDocument_writes.
  apply writes_track.
Qed.

(** X9: the batch the store receives for a save holds, for every
    property name, the flag of the last visible document that carries the
    name, and when no visible document carries it, the flag of the last
    document that does; the flag is stored as the text true or false, and
    a name that no document carries is not in the batch. *)
Theorem save_prefers_visible_then_last
    (DOCUMENTS_CONFIG : list DocumentConfig) (st : State)
    (docs : list Document) (prop : string) :
  let visibleDocIds := map id (getVisibleDocuments DOCUMENTS_CONFIG st) in
  let ws := flat_map (writesOf visibleDocIds) docs in
  lookup prop (documentProperties visibleDocIds docs) = winner prop ws
  /\ lookup prop
       (buildProperties (documentsParameter DOCUMENTS_CONFIG st docs))
     = option_map flagText (winner prop ws)
  /\ (winner prop ws = None
      <-> ~ In prop (flat_map propertyNames docs)).
Proof.
  cbv zeta. split; [|split].
  - unfold documentProperties. rewrite recordDocument_writes.
    apply writes_track.
  - apply batch_of_the_save.
  - set (ws := flat_map _ docs).
    assert (In prop (flat_map propertyNames docs)
            <-> existsb (isWriteOf prop false) ws = true) as ->.
    { unfold ws. rewrite existsb_exists. split.
      - intro H. apply in_flat_map in H. destruct H as (d & Hd & Hp).
        destruct Hp as [<-|[<-|[]]].
        + eexists. split.
          * apply in_flat_map. exists d. split; [exact Hd|]. left. reflexivity.
          * unfold isWriteOf. cbn. now rewrite String.eqb_refl, orb_true_r.
        + eexists. split.
          * apply in_flat_map. exists d. split; [exact Hd|].
            right. left. reflexivity.
          * unfold isWriteOf. cbn. now rewrite String.eqb_refl, orb_true_r.
      - intros (w & Hw & Hp). apply in_flat_map in Hw.
        destruct Hw as (d & Hd & Hw). apply in_flat_map. exists d.
        split; [exact Hd|]. unfold isWriteOf in Hp.
        apply andb_prop in Hp. destruct Hp as [Hp _].
        apply String.eqb_eq in Hp. subst prop.
        destruct Hw as [<-|[<-|[]]]; cbn; auto. }
    unfold winner, lastWrite.
    destruct (existsb (isWriteOf prop false) ws) eqn:X.
    + destruct (find (isWriteOf prop true) (rev ws));
        [split; [discriminate|intro H; now elim H]|].
      destruct (find_rev_some _ _ X) as [x ->]. cbn.
      split; [discriminate|intro H; now elim H].
    + rewrite (find_rev_none _ _ X).
      destruct (find (isWriteOf prop true) (rev ws)) eqn:F.
      * apply find_some in F. destruct F as [Hin Hf].
        apply in_rev in Hin.
        pose proof (proj1 (CalculatorFacts.existsb_false_iff _ _) X _ Hin) as G.
        unfold isWriteOf in *. apply andb_prop in Hf. destruct Hf as [Hf _].
        rewrite Hf in G. cbn in G. now rewrite orb_true_r in G.
      * split; [discriminate|reflexivity].
Qed.

(** *** Catalogs without a shared property name *)

Lemma winner_is_a_write (prop : string) (ws : list Write) (flag : bool) :
  winner prop ws = Some flag ->
  exists w, In w ws /\ write_property w = prop /\ write_flag w = flag.
Proof.
  unfold winner, lastWrite.
  destruct (find (isWriteOf prop true) (rev ws)) as [w|] eqn:F.
  - intro H. injection H as <-. apply find_some in F. destruct F as [Hin Hf].
    exists w. split; [now apply in_rev|]. split; [|reflexivity].
    unfold isWriteOf in Hf. apply andb_prop in Hf.
    now apply String.eqb_eq.
  - destruct (find (isWriteOf prop false) (rev ws)) as [w|] eqn:G;
      [|discriminate].
    intro H. injection H as <-. apply find_some in G. destruct G as [Hin Hf].
    exists w. split; [now apply in_rev|]. split; [|reflexivity].
    unfold isWriteOf in Hf. apply andb_prop in Hf.
    now apply String.eqb_eq.
Qed.

Lemma winner_exists (prop : string) (ws : list Write) (w : Write) :
  In w ws -> write_property w = prop -> exists flag, winner prop ws = Some flag.
Proof.
  intros Hin Hp. unfold winner, lastWrite.
  destruct (find (isWriteOf prop true) (rev ws)); [eauto|].
  assert (existsb (isWriteOf prop false) ws = true) as X.
  { apply existsb_exists. exists w. split; [exact Hin|].
    unfold isWriteOf. rewrite Hp, String.eqb_refl. cbn.
    now rewrite orb_true_r. }
  destruct (find_rev_some _ _ X) as [x ->]. cbn. eauto.
Qed.

Lemma NoDup_flat_map_owner {A B : Type} (f : A -> list B) (l : list A)
    (a b : A) (x : B) :
  NoDup (flat_map f l) -> In a l -> In b l -> In x (f a) -> In x (f b) ->
  a = b.
Proof.
  induction l as [|c l IH]; cbn [flat_map]; intros Hnd Ha Hb Hxa Hxb;
    [now destruct Ha|].
  assert (forall d, In d l -> In x (f d) -> In x (f c) -> False) as Clash.
  { intros d Hd Hxd Hxc. revert Hnd. clear - Hd Hxd Hxc.
    intro Hnd. induction (f c) as [|y r IHr]; [now destruct Hxc|].
    cbn in Hnd. inversion Hnd as [|? ? Hnotin Hnd']; subst.
    destruct Hxc as [->|Hxc]; [|now apply IHr].
    apply Hnotin. apply in_or_app. right. apply in_flat_map. eauto. }
  destruct Ha as [->|Ha], Hb as [->|Hb].
  - reflexivity.
  - exfalso. eapply Clash; eauto.
  - exfalso. eapply Clash; eauto.
  - apply IH; auto. now apply NoDup_app_remove_l in Hnd.
Qed.

Lemma NoDup_flat_map_inside {A B : Type} (f : A -> list B) (l : list A)
    (a : A) :
  NoDup (flat_map f l) -> In a l -> NoDup (f a).
Proof.
  induction l as [|c l IH]; cbn [flat_map]; intros Hnd Ha; [now destruct Ha|].
  destruct Ha as [->|Ha].
  - now apply NoDup_app_remove_r in Hnd.
  - apply IH; [|exact Ha]. now apply NoDup_app_remove_l in Hnd.
Qed.

Lemma winner_without_sharing (visibleDocIds : list string)
    (docs : list Document) (d : Document) :
  NoDup (flat_map propertyNames docs) -> In d docs ->
  winner (requiredProperty d) (flat_map (writesOf visibleDocIds) docs)
  = Some (required d)
  /\ winner (providedProperty d) (flat_map (writesOf visibleDocIds) docs)
     = Some (provided d).
Proof.
  intros Hnd Hd.
  pose proof (NoDup_flat_map_inside _ _ _ Hnd Hd) as Hin.
  unfold propertyNames in Hin.
  assert (requiredProperty d <> providedProperty d) as Hne.
  { inversion Hin as [|? ? Hnotin _]; subst. intro E. apply Hnotin.
    left. now symmetry. }
  set (ws := flat_map (writesOf visibleDocIds) docs).
  assert (forall w, In w ws ->
            exists d', In d' docs
              /\ ((write_property w = requiredProperty d'
                   /\ write_flag w = required d')
                  \/ (write_property w = providedProperty d'
                      /\ write_flag w = provided d'))) as Origin.
  { intros w Hw. apply in_flat_map in Hw. destruct Hw as (d' & Hd' & Hw).
    exists d'. split; [exact Hd'|].
    destruct Hw as [<-|[<-|[]]]; cbn; auto. }
  assert (In (mkWrite d (existsb (String.eqb (id d)) visibleDocIds)
                (requiredProperty d) (required d)) ws) as W1.
  { apply in_flat_map. exists d. split; [exact Hd|]. left. reflexivity. }
  assert (In (mkWrite d (existsb (String.eqb (id d)) visibleDocIds)
                (providedProperty d) (provided d)) ws) as W2.
  { apply in_flat_map. exists d. split; [exact Hd|]. right. left. reflexivity. }
  split.
  - destruct (winner_exists (requiredProperty d) ws _ W1 eq_refl) as [flag E].
    rewrite E.
    f_equal. destruct (winner_is_a_write _ _ _ E) as (w & Hw & Hp & <-).
    destruct (Origin w Hw) as (d' & Hd' & [[Hp' Hf]|[Hp' Hf]]).
    + assert (d = d') as <-.
      { apply (NoDup_flat_map_owner propertyNames docs d d'
                 (requiredProperty d) Hnd Hd Hd'); cbn; [auto|].
        left. congruence. }
      exact Hf.
    + assert (d = d') as <-.
      { apply (NoDup_flat_map_owner propertyNames docs d d'
                 (requiredProperty d) Hnd Hd Hd'); cbn; [auto|].
        right. left. congruence. }
      elim Hne. congruence.
  - destruct (winner_exists (providedProperty d) ws _ W2 eq_refl) as [flag E].
    rewrite E.
    f_equal. destruct (winner_is_a_write _ _ _ E) as (w & Hw & Hp & <-).
    destruct (Origin w Hw) as (d' & Hd' & [[Hp' Hf]|[Hp' Hf]]).
    + assert (d = d') as <-.
      { apply (NoDup_flat_map_owner propertyNames docs d d'
                 (providedProperty d) Hnd Hd Hd'); cbn; [auto|].
        left. congruence. }
      elim Hne. congruence.
    + assert (d = d') as <-.
      { apply (NoDup_flat_map_owner propertyNames docs d d'
                 (providedProperty d) Hnd Hd Hd'); cbn; [auto|].
        right. left. congruence. }
      exact Hf.
Qed.

Lemma batch_without_sharing (DOCUMENTS_CONFIG : list DocumentConfig)
    (st : State) (docs : list Document) (d : Document) :
  NoDup (flat_map propertyNames docs) -> In d docs ->
  lookup (requiredProperty d)
         (buildProperties (documentsParameter DOCUMENTS_CONFIG st docs))
  = Some (flagText (required d))
  /\ lookup (providedProperty d)
            (buildProperties (documentsParameter DOCUMENTS_CONFIG st docs))
     = Some (flagText (provided d)).
Proof.
  intros Hnd Hd. rewrite !batch_of_the_save.
  destruct (winner_without_sharing
              (map id (getVisibleDocuments DOCUMENTS_CONFIG st)) docs d Hnd Hd)
    as [-> ->].
  split; reflexivity.
Qed.

Lemma batch_keys (DOCUMENTS_CONFIG : list DocumentConfig) (st : State)
    (docs : list Document) (prop : string) :
  In prop (keys (buildProperties (documentsParameter DOCUMENTS_CONFIG st docs)))
  <-> In prop (flat_map propertyNames docs).
Proof.
  set (batch := buildProperties _).
  set (ws := flat_map
               (writesOf (map id (getVisibleDocuments DOCUMENTS_CONFIG st)))
               docs).
  assert (lookup prop batch = option_map flagText (winner prop ws)) as L
      by apply batch_of_the_save.
  split.
  - intro H. destruct (lookup prop batch) eqn:E.
    + destruct (winner prop ws) as [flag|] eqn:W; [|discriminate L].
      destruct (winner_is_a_write _ _ _ W) as (w & Hw & Hp & _).
      apply in_flat_map in Hw. destruct Hw as (d & Hd & Hw).
      apply in_flat_map. exists d. split; [exact Hd|]. subst prop.
      destruct Hw as [<-|[<-|[]]]; cbn; auto.
    + apply GroupingFacts.lookup_None_keys in E. now elim E.
  - intro H. apply in_flat_map in H. destruct H as (d & Hd & Hp).
    assert (exists w, In w ws /\ write_property w = prop) as (w & Hw & Hwp).
    { destruct Hp as [<-|[<-|[]]].
      - eexists. split; [apply in_flat_map; exists d; split;
                         [exact Hd|left; reflexivity]|reflexivity].
      - eexists. split; [apply in_flat_map; exists d; split;
                         [exact Hd|right; left; reflexivity]|reflexivity]. }
    destruct (winner_exists _ _ _ Hw Hwp) as [flag W].
    rewrite W in L. cbn in L.
    destruct (in_dec string_dec prop (keys batch)) as [Hin|Hnot];
      [exact Hin|].
    apply GroupingFacts.lookup_None_keys in Hnot. congruence.
Qed.

Lemma batch_NoDup (DOCUMENTS_CONFIG : list DocumentConfig) (st : State)
    (docs : list Document) :
  NoDup (keys (buildProperties (documentsParameter DOCUMENTS_CONFIG st docs))).
Proof.
  unfold documentsParameter.
  change (fun kv : string * bool => (fst kv, JsPrim (SBool (snd kv))))
    with boolEntry.
  rewrite buildProperties_of_booleans by apply documentProperties_NoDup.
  unfold textEntry. rewrite (keys_map_entry flagText).
  apply documentProperties_NoDup.
Qed.

(** X10: when no two property names of the documents saved are the same,
    the batch the store receives holds the two flags of every document
    under its two names, as the texts true and false, and nothing else:
    two entries per document, whatever is visible. *)
Theorem save_sends_every_flag
    (DOCUMENTS_CONFIG : list DocumentConfig) (st : State)
    (docs : list Document) :
  NoDup (flat_map propertyNames docs) ->
  let batch := buildProperties (documentsParameter DOCUMENTS_CONFIG st docs) in
  (forall d, In d docs ->
     get batch (requiredProperty d) = flagText (required d)
     /\ get batch (providedProperty d) = flagText (provided d))
  /\ Permutation (keys batch) (flat_map propertyNames docs)
  /\ List.length batch = 2 * List.length docs.
Proof.
  intros Hnd. cbv zeta.
  assert (Permutation
            (keys (buildProperties
                     (documentsParameter DOCUMENTS_CONFIG st docs)))
            (flat_map propertyNames docs)) as P.
  { apply NoDup_Permutation; [apply batch_NoDup|exact Hnd|].
    intro prop. apply batch_keys. }
  split; [|split].
  - intros d Hd.
    destruct (batch_without_sharing DOCUMENTS_CONFIG st docs d Hnd Hd)
      as [E1 E2].
    unfold get. now rewrite E1, E2.
  - exact P.
  - apply Permutation_length in P. unfold keys in P.
    rewrite length_map in P. rewrite P.
    clear. induction docs as [|d docs IH]; [reflexivity|].
    cbn [flat_map propertyNames app List.length]. rewrite IH. lia.
Qed.

Lemma save_sends_every_flag_witness :
  get (buildProperties
         (documentsParameter Scenarios.catalogD1
            (Scenarios.stateAfterFetch (Scenarios.bagX "true") "decret")
            (fetchedDocuments Scenarios.catalogD1 (Scenarios.bagX "true"))))
      "d1_required"
  = flagText true.
Proof.
  assert (NoDup (flat_map propertyNames
                   (fetchedDocuments Scenarios.catalogD1
                      (Scenarios.bagX "true")))) as Hnd.
  { cbn. repeat constructor; cbn; intuition discriminate. }
  destruct (save_sends_every_flag Scenarios.catalogD1
              (Scenarios.stateAfterFetch (Scenarios.bagX "true") "decret")
              _ Hnd) as [H _].
  exact (proj1 (H _ (or_introl eq_refl))).
Defined.

Lemma toBool_flagText (b : bool) : toBool (flagText b) = b.
Proof. now destruct b. Qed.

Lemma flags_read_back
    (DOCUMENTS_CONFIG : list DocumentConfig) (st : State)
    (docs : list Document) (bag : Properties) :
  map unflagged docs = INITIAL_DOCUMENTS DOCUMENTS_CONFIG ->
  NoDup (flat_map propertyNames docs) ->
  Holds bag (buildProperties (documentsParameter DOCUMENTS_CONFIG st docs)) ->
  map flags (fetchedDocuments DOCUMENTS_CONFIG bag)
  = map (flagsReadBack bag) docs
  /\ ((forall d, In d docs -> hasConditions d = true ->
         required d
         = (checkDocumentConditions d bag None || (provided d && required d))) ->
      map flags (fetchedDocuments DOCUMENTS_CONFIG bag) = map flags docs).
Proof.
  intros Hc Hnd Hh.
  assert (map flags (fetchedDocuments DOCUMENTS_CONFIG bag)
          = map (flagsReadBack bag) docs) as E.
  { unfold fetchedDocuments. rewrite <- Hc, !map_map.
    apply map_ext_in. intros d Hd.
    destruct (batch_without_sharing DOCUMENTS_CONFIG st docs d Hnd Hd)
      as [E1 E2].
    apply Hh in E1. apply Hh in E2.
    unfold flags, flagsReadBack, fetchedDocument.
    cbn [required provided requiredProperty providedProperty unflagged].
    change (hasConditions (unflagged d)) with (hasConditions d).
    change (checkDocumentConditions (unflagged d) bag None)
      with (checkDocumentConditions d bag None).
    rewrite E1, E2, !toBool_flagText.
    destruct (hasConditions d), (checkDocumentConditions d bag None),
      (provided d), (required d); reflexivity. }
  split; [exact E|].
  intro Stable. rewrite E. apply map_ext_in. intros d Hd.
  unfold flagsReadBack, flags.
  destruct (hasConditions d) eqn:Hcs; [|reflexivity].
  now rewrite <- (Stable d Hd Hcs).
Qed.

(** X11: a fetch that reads back what a save wrote returns the provided
    flags as they were saved; it returns the required flag as saved for a
    document without conditions, and for a document with conditions it
    returns required exactly when the conditions are met in the bag read
    back or the document was saved both required and provided.  So the
    flags come back unchanged when every document with conditions met was
    saved required and every document with conditions saved required was
    saved provided or has its conditions met. *)
Theorem saved_flags_come_back
    (DOCUMENTS_CONFIG : list DocumentConfig) (st : State)
    (docs : list Document) (bag : Properties) :
  map unflagged docs = INITIAL_DOCUMENTS DOCUMENTS_CONFIG ->
  NoDup (flat_map propertyNames docs) ->
  Holds bag (buildProperties (documentsParameter DOCUMENTS_CONFIG st docs)) ->
  map flags (fetchedDocuments DOCUMENTS_CONFIG bag)
  = map (flagsReadBack bag) docs
  /\ ((forall d, In d docs -> hasConditions d = true ->
         required d
         = (checkDocumentConditions d bag None || (provided d && required d))) ->
      map flags (fetchedDocuments DOCUMENTS_CONFIG bag) = map flags docs).
Proof. exact (flags_read_back DOCUMENTS_CONFIG st docs bag). Qed.

Lemma saved_flags_come_back_witness :
  map flags
    (fetchedDocuments Scenarios.catalogD1
       [("sous_categorie", JsPrim (SStr "Y"));
        ("d1_required", JsPrim (SStr "true"));
        ("d1_provided", JsPrim (SStr "false"))])
  = [(false, false)].
Proof.
  assert (Holds [("sous_categorie", JsPrim (SStr "Y"));
                 ("d1_required", JsPrim (SStr "true"));
                 ("d1_provided", JsPrim (SStr "false"))]
            (buildProperties
               (documentsParameter Scenarios.catalogD1
                  (Scenarios.stateAfterFetch Scenarios.bagY "decret")
                  (map (fun d => withProvided d false)
                       (fetchedDocuments Scenarios.catalogD1 Scenarios.bagY)))))
    as Hh.
  { intros p v. vm_compute buildProperties.
    cbn [lookup].
    destruct (String.eqb_spec "d1_required" p) as [<-|_];
      [intro H; injection H as <-; reflexivity|].
    destruct (String.eqb_spec "d1_provided" p) as [<-|_];
      [intro H; injection H as <-; reflexivity|discriminate]. }
  assert (NoDup (flat_map propertyNames
                   (map (fun d => withProvided d false)
                        (fetchedDocuments Scenarios.catalogD1 Scenarios.bagY))))
    as Hnd.
  { cbn. repeat constructor; cbn; intuition discriminate. }
  assert (map unflagged
            (map (fun d => withProvided d false)
                 (fetchedDocuments Scenarios.catalogD1 Scenarios.bagY))
          = INITIAL_DOCUMENTS Scenarios.catalogD1) as Hc by reflexivity.
  rewrite (proj1 (saved_flags_come_back Scenarios.catalogD1
                    (Scenarios.stateAfterFetch Scenarios.bagY "decret")
                    _ _ Hc Hnd Hh)).
  reflexivity.
Defined.

End SaveFacts.

(** * Rows: what the screen shows and what is stored *)

Module RowFacts.

Import Js Evaluator DocumentList Checklist.













End RowFacts.

(** * Views: what the two tabs show together *)

Module ViewFacts.

Import Js Evaluator DocumentList Checklist.

Lemma selectTab_view (DOCUMENTS_CONFIG : list DocumentConfig) (st : State)
    (tabId : string) (doc : Document) :
  In doc (getVisibleDocuments DOCUMENTS_CONFIG (selectTab st tabId))
  <-> In doc (documents st)
      /\ isVisible (selectTab st tabId) (getActiveTabId DOCUMENTS_CONFIG st)
                   (propsForConditions st) doc = true.
Proof.
  rewrite VisibilityFacts.getVisibleDocuments_In by reflexivity.
  reflexivity.
Qed.

(** X13: with an active view [t], a click on its tab and a click on the
    overflow tab show, between them, every document that belongs to [t] or
    carries a flag, and no other document; a document is shown under both
    tabs exactly when it belongs to [t], its conditions there are not met
    and it is both required and provided. *)
Theorem views_cover_the_checklist
    (DOCUMENTS_CONFIG : list DocumentConfig) (st : State) (t : string)
    (doc : Document) :
  getActiveTabId DOCUMENTS_CONFIG st = Some t ->
  t <> EmptyString -> t <> "autre" ->
  In doc (documents st) ->
  let inActive :=
    In doc (getVisibleDocuments DOCUMENTS_CONFIG (selectTab st t)) in
  let inOverflow :=
    In doc (getVisibleDocuments DOCUMENTS_CONFIG (selectTab st "autre")) in
  let conditionsMet :=
    checkDocumentConditions doc (propsForConditions st) (Some t) in
  (inActive \/ inOverflow
   <-> documentBelongsToTab doc t = true
       \/ required doc = true \/ provided doc = true)
  /\ (inActive /\ inOverflow
      <-> documentBelongsToTab doc t = true /\ conditionsMet = false
          /\ required doc = true /\ provided doc = true).
Proof.
  intros Ha Ht Hautre Hdoc. cbv zeta.
  rewrite !selectTab_view, Ha.
  unfold isVisible, selectTab. cbn [selectedTab truthyTab].
  assert (isEmpty t = false) as -> by (destruct t; [now elim Ht|reflexivity]).
  assert (String.eqb t "autre" = false) as ->
      by now apply String.eqb_neq.
  rewrite String.eqb_refl. cbn [String.eqb Ascii.eqb Bool.eqb].
  destruct (documentBelongsToTab doc t),
    (checkDocumentConditions doc (propsForConditions st) (Some t)),
    (required doc), (provided doc); cbn; intuition congruence.
Qed.

Lemma views_cover_the_checklist_witness :
  let st := Scenarios.stateAfterFetch (Scenarios.bagX "false") "decret" in
  let doc := fetchedDocument (Scenarios.bagX "false")
               (initialDocument Scenarios.d1Config) in
  In doc (getVisibleDocuments Scenarios.catalogD1 (selectTab st "decret"))
  \/ In doc (getVisibleDocuments Scenarios.catalogD1 (selectTab st "autre")).
Proof.
  cbv zeta.
  assert (getActiveTabId Scenarios.catalogD1
            (Scenarios.stateAfterFetch (Scenarios.bagX "false") "decret")
          = Some "decret") as Ha by (vm_compute; reflexivity).
  assert ("decret" <> EmptyString) as Ht by discriminate.
  assert ("decret" <> "autre") as Hautre by discriminate.
  assert (In (fetchedDocument (Scenarios.bagX "false")
                (initialDocument Scenarios.d1Config))
             (documents (Scenarios.stateAfterFetch (Scenarios.bagX "false")
                           "decret"))) as Hdoc by (left; reflexivity).
  pose proof (views_cover_the_checklist Scenarios.catalogD1
                (Scenarios.stateAfterFetch (Scenarios.bagX "false") "decret")
                "decret"
                (fetchedDocument (Scenarios.bagX "false")
                   (initialDocument Scenarios.d1Config))
                Ha Ht Hautre Hdoc) as H.
  cbv zeta in H. destruct H as [H _]. apply H.
  left. vm_compute. reflexivity.
Defined.

(** *** The rows of the table *)

Lemma insertSorted_perm (compare : Document -> Document -> Z)
    (x : Document) (l : list Document) :
  Permutation (insertSorted compare x l) (x :: l).
Proof.
  induction l as [|y l IH]; cbn [insertSorted]; [reflexivity|].
  destruct (compare x y <=? 0)%Z; [reflexivity|].
  rewrite IH. apply perm_swap.
Qed.

Lemma sortWith_perm (compare : Document -> Document -> Z)
    (l : list Document) :
  Permutation (sortWith compare l) l.
Proof.
  induction l as [|x l IH]; cbn [sortWith fold_right]; [reflexivity|].
  fold (sortWith compare l). rewrite insertSorted_perm. now constructor.
Qed.

Lemma filter_perm {A : Type} (f : A -> bool) (l l' : list A) :
  Permutation l l' -> Permutation (filter f l) (filter f l').
Proof.
  induction 1 as [|x l l' _ IH|x y l|l l' l'' _ IH1 _ IH2]; cbn [filter].
  - reflexivity.
  - destruct (f x); [now constructor|exact IH].
  - destruct (f x), (f y); try reflexivity. apply perm_swap.
  - now transitivity (filter f l').
Qed.

Lemma filter_sorted {A : Type} (R : A -> A -> Prop) (f : A -> bool)
    (l : list A) :
  StronglySorted R l -> StronglySorted R (filter f l).
Proof.
  induction 1 as [|x l _ IH Hx]; cbn [filter]; [constructor|].
  destruct (f x); [|exact IH]. constructor; [exact IH|].
  rewrite Forall_forall in Hx |- *. intros y Hy.
  apply filter_In in Hy. now apply Hx.
Qed.

(** A stable insertion sort with a comparator that is a total and
    transitive order sorts. *)
Lemma insertSorted_sorted (compare : Document -> Document -> Z)
    (x : Document) (l : list Document) :
  (forall a b, (compare a b <= 0)%Z \/ (compare b a <= 0)%Z) ->
  (forall a b c, (compare a b <= 0)%Z -> (compare b c <= 0)%Z ->
                 (compare a c <= 0)%Z) ->
  StronglySorted (fun a b => (compare a b <= 0)%Z) l ->
  StronglySorted (fun a b => (compare a b <= 0)%Z) (insertSorted compare x l).
Proof.
  intros Total Trans. induction 1 as [|y l Hl IH Hy]; cbn [insertSorted].
  - constructor; constructor.
  - destruct (Z.leb_spec (compare x y) 0) as [Hxy|Hxy].
    + constructor; [now constructor|]. constructor; [exact Hxy|].
      rewrite Forall_forall in Hy |- *. intros z Hz.
      exact (Trans x y z Hxy (Hy z Hz)).
    + constructor; [exact IH|].
      rewrite Forall_forall in Hy |- *. intros z Hz.
      apply (Permutation_in _ (insertSorted_perm compare x l)) in Hz.
      destruct Hz as [<-|Hz]; [|now apply Hy].
      destruct (Total x y) as [H|H]; [lia|exact H].
Qed.

Lemma sortWith_sorted (compare : Document -> Document -> Z)
    (l : list Document) :
  (forall a b, (compare a b <= 0)%Z \/ (compare b a <= 0)%Z) ->
  (forall a b c, (compare a b <= 0)%Z -> (compare b c <= 0)%Z ->
                 (compare a c <= 0)%Z) ->
  StronglySorted (fun a b => (compare a b <= 0)%Z) (sortWith compare l).
Proof.
  intros Total Trans.
  induction l as [|x l IH]; cbn [sortWith fold_right]; [constructor|].
  now apply insertSorted_sorted.
Qed.

(** The comparator of the table says that its first argument comes
    first exactly when the two rows are in the order of [RowBefore]. *)
Lemma compareRows_before (localeCompare : string -> string -> Z)
    (tab : string) (a b : Document) :
  (compareRows localeCompare tab a b <= 0)%Z
  <-> RowBefore localeCompare tab a b.
Proof.
  unfold compareRows, RowBefore.
  destruct (required a), (required b); cbn [andb negb].
  - destruct (Z.eqb_spec (getOrderForTab a tab) (getOrderForTab b tab))
      as [E|E]; cbn [negb].
    + split.
      * intro H. right. split; [reflexivity|]. right. auto.
      * intros [[_ H]|[_ [H|[_ H]]]]; [discriminate H|lia|exact H].
    + split.
      * intro H. right. split; [reflexivity|]. left. lia.
      * intros [[_ H]|[_ [H|[H _]]]]; [discriminate H|lia|contradiction].
  - split; [intro; left; auto|lia].
  - split; [lia|]. intros [[H _]|[H _]]; discriminate H.
  - destruct (Z.eqb_spec (getOrderForTab a tab) (getOrderForTab b tab))
      as [E|E]; cbn [negb].
    + split.
      * intro H. right. split; [reflexivity|]. right. auto.
      * intros [[H _]|[_ [H|[_ H]]]]; [discriminate H|lia|exact H].
    + split.
      * intro H. right. split; [reflexivity|]. left. lia.
      * intros [[H _]|[_ [H|[H _]]]]; [discriminate H|lia|contradiction].
Qed.

Lemma compareRows_total (localeCompare : string -> string -> Z)
    (tab : string) :
  (forall x y, (localeCompare x y <= 0)%Z \/ (localeCompare y x <= 0)%Z) ->
  forall a b,
    (compareRows localeCompare tab a b <= 0)%Z
    \/ (compareRows localeCompare tab b a <= 0)%Z.
Proof.
  intros Total a b. rewrite !compareRows_before. unfold RowBefore.
  destruct (required a), (required b); auto.
  - destruct (Z.lt_trichotomy (getOrderForTab a tab) (getOrderForTab b tab))
      as [H|[H|H]]; auto 6.
    destruct (Total (name a) (name b)); [left|right]; right; auto.
  - destruct (Z.lt_trichotomy (getOrderForTab a tab) (getOrderForTab b tab))
      as [H|[H|H]]; auto 6.
    destruct (Total (name a) (name b)); [left|right]; right; auto.
Qed.

Lemma compareRows_trans (localeCompare : string -> string -> Z)
    (tab : string) :
  (forall x y z, (localeCompare x y <= 0)%Z -> (localeCompare y z <= 0)%Z ->
                 (localeCompare x z <= 0)%Z) ->
  forall a b c,
    (compareRows localeCompare tab a b <= 0)%Z ->
    (compareRows localeCompare tab b c <= 0)%Z ->
    (compareRows localeCompare tab a c <= 0)%Z.
Proof.
  intros Trans a b c. rewrite !compareRows_before. unfold RowBefore.
  intros [[A1 A2]|[A1 A2]] [[B1 B2]|[B1 B2]].
  - rewrite A2 in B1. discriminate B1.
  - left. split; [exact A1|]. now rewrite <- B1.
  - left. split; [now rewrite A1|exact B2].
  - right. split; [now rewrite A1|].
    destruct A2 as [A2|[A2 A3]], B2 as [B2|[B2 B3]].
    + left. lia.
    + left. lia.
    + left. lia.
    + right. split; [lia|]. exact (Trans _ _ _ A3 B3).
Qed.

Lemma byCodeUnits_le (a b : string) :
  (byCodeUnits a b <= 0)%Z <-> String.compare a b <> Gt.
Proof.
  unfold byCodeUnits. destruct (String.compare a b); split;
    try lia; try discriminate. intro H. now elim H.
Qed.

Lemma byCodeUnits_sign (a b : string) :
  (0 < byCodeUnits a b)%Z <-> (byCodeUnits b a < 0)%Z.
Proof.
  unfold byCodeUnits. rewrite (String.compare_antisym a b).
  destruct (String.compare b a); cbn [CompOpp]; lia.
Qed.

Lemma byCodeUnits_trans (a : string) :
  forall b c,
    (byCodeUnits a b <= 0)%Z -> (byCodeUnits b c <= 0)%Z ->
    (byCodeUnits a c <= 0)%Z.
Proof.
  intros b c. rewrite !byCodeUnits_le. revert b c.
  induction a as [|x a IH]; intros [|y b] [|z c]; cbn [String.compare];
    try discriminate; try (intros H; now elim H);
    try (intros _ H; now elim H).
  unfold Ascii.compare.
  destruct (N.compare_spec (N_of_ascii x) (N_of_ascii y)) as [Exy|Exy|Exy];
    destruct (N.compare_spec (N_of_ascii y) (N_of_ascii z)) as [Eyz|Eyz|Eyz];
    destruct (N.compare_spec (N_of_ascii x) (N_of_ascii z)) as [Exz|Exz|Exz];
    try lia; try discriminate; try (intros H; now elim H);
    try (intros _ H; now elim H).
  apply IH.
Qed.

(** X14: the rows of the table are the visible documents with an id,
    sorted a second time before they are drawn: the documents that
    carry the required flag come first; among documents with the same
    flag, those with the smaller order number for the selected tab (9999
    without one); and among those with the same number, the names in the
    order of the collation, for any collation that is a consistent
    comparator (the sign of the comparison turns with its arguments, and
    the order is transitive). *)
Theorem the_rows_are_in_order
    (localeCompare : string -> string -> Z)
    (DOCUMENTS_CONFIG : list DocumentConfig) (st : State) :
  (forall x y, (0 < localeCompare x y)%Z <-> (localeCompare y x < 0)%Z) ->
  (forall x y z, (localeCompare x y <= 0)%Z -> (localeCompare y z <= 0)%Z ->
                 (localeCompare x z <= 0)%Z) ->
  let shown := tableRows localeCompare DOCUMENTS_CONFIG st in
  Permutation shown
    (filter (fun doc => negb (isEmpty (id doc)))
            (getVisibleDocuments DOCUMENTS_CONFIG st))
  /\ (forall doc,
        In doc shown
        <-> In doc (getVisibleDocuments DOCUMENTS_CONFIG st)
            /\ id doc <> EmptyString)
  /\ StronglySorted (RowBefore localeCompare (selectedTab st)) shown.
Proof.
  intros Sign Trans.
  assert (forall x y, (localeCompare x y <= 0)%Z
                      \/ (localeCompare y x <= 0)%Z) as Total.
  { intros x y. destruct (Z.le_gt_cases (localeCompare x y) 0) as [H|H];
      [now left|]. right. apply Sign in H. lia. }
  cbv zeta. unfold tableRows.
  set (compare := compareRows localeCompare (selectedTab st)).
  set (visible := getVisibleDocuments DOCUMENTS_CONFIG st).
  assert (Permutation
            (filter (fun doc => negb (isEmpty (id doc)))
                    (sortWith compare visible))
            (filter (fun doc => negb (isEmpty (id doc))) visible)) as P
      by (apply filter_perm, sortWith_perm).
  split; [exact P|]. split.
  - intro doc. split.
    + intro H. apply (Permutation_in _ P) in H. apply filter_In in H.
      destruct H as [H1 H2]. split; [exact H1|].
      intro E. rewrite E in H2. discriminate H2.
    + intros [H1 H2]. apply (Permutation_in _ (Permutation_sym P)).
      apply filter_In. split; [exact H1|].
      destruct (id doc); [now elim H2|reflexivity].
  - apply filter_sorted.
    assert (StronglySorted (fun a b => (compare a b <= 0)%Z)
              (sortWith compare visible)) as S.
    { apply sortWith_sorted.
      - exact (compareRows_total localeCompare (selectedTab st) Total).
      - exact (compareRows_trans localeCompare (selectedTab st) Trans). }
    revert S. generalize (sortWith compare visible) as l.
    induction 1 as [|x l _ IH Hx]; constructor; [exact IH|].
    rewrite Forall_forall in Hx |- *. intros y Hy.
    apply compareRows_before. now apply Hx.
Qed.

Lemma the_rows_are_in_order_witness :
  let st := mkState Scenarios.uncheckedButMet (Scenarios.bagX "true")
              "autre" EmptyString "X" in
  map name (getVisibleDocuments Scenarios.catalogD1 st)
  = ["Titre de sejour"; "Acte de naissance"]
  /\ map name (tableRows byCodeUnits Scenarios.catalogD1 st)
     = ["Acte de naissance"; "Titre de sejour"]
  /\ StronglySorted (RowBefore byCodeUnits "autre")
       (tableRows byCodeUnits Scenarios.catalogD1 st).
Proof.
  cbv zeta.
  destruct (the_rows_are_in_order byCodeUnits Scenarios.catalogD1
              (mkState Scenarios.uncheckedButMet (Scenarios.bagX "true")
                 "autre" EmptyString "X")
              byCodeUnits_sign byCodeUnits_trans) as (_ & _ & S).
  split; [reflexivity|]. split; [reflexivity|]. exact S.
Defined.

End ViewFacts.

(** * Rules: conditions, property names and the routed view *)

Module RuleFacts.

Import Js Evaluator DocumentList Checklist.

(** The conditions of a document are met when every condition has a
    satisfied condition on the same property beside it. *)
Lemma conditions_met_iff (doc : Document) (properties : Properties)
    (tabId : option string) :
  checkDocumentConditions doc properties tabId = true
  <-> forall c, In c (conditionsFor doc tabId) ->
        exists c', In c' (conditionsFor doc tabId)
                   /\ property c' = property c
                   /\ evaluateCondition c' properties = true.
Proof.
  unfold checkDocumentConditions.
  set (conds := conditionsFor doc tabId).
  destruct conds as [|c0 rest] eqn:E.
  - split; [intros _ c []|reflexivity].
  - rewrite <- E. clear E. rewrite forallb_forall. split.
    + intros H c Hc.
      set (l := filter (sameProperty (property c)) conds).
      assert (In c l) as Hl.
      { apply filter_In. split; [exact Hc|].
        unfold sameProperty. apply String.eqb_refl. }
      assert (In (property c, l) (groupByProperty conds)) as Hg.
      { apply GroupingFacts.groupByProperty_entries. split; [|reflexivity].
        intro N. rewrite N in Hl. now destruct Hl. }
      apply H in Hg. cbn [snd] in Hg. apply existsb_exists in Hg.
      destruct Hg as (c' & Hc' & Hev). exists c'.
      apply filter_In in Hc'. destruct Hc' as [Hin Hsame].
      unfold sameProperty in Hsame. apply String.eqb_eq in Hsame. auto.
    + intros H [k l] Hg. cbn [snd].
      apply GroupingFacts.groupByProperty_entries in Hg.
      destruct Hg as [Hne ->].
      destruct (filter (sameProperty k) conds) as [|c r] eqn:F;
        [now elim Hne|].
      assert (In c (filter (sameProperty k) conds)) as Hc
          by (rewrite F; now left).
      apply filter_In in Hc. destruct Hc as [Hc Hk].
      unfold sameProperty in Hk. apply String.eqb_eq in Hk.
      destruct (H c Hc) as (c' & Hc' & Hp & Hev).
      rewrite <- F. apply existsb_exists. exists c'. split; [|exact Hev].
      apply filter_In. split; [exact Hc'|].
      unfold sameProperty. apply String.eqb_eq. congruence.
Qed.

(** X15: whether the conditions of a document are met depends on the set
    of its conditions only: neither their order in the catalog nor a
    condition written twice changes the outcome. *)
Theorem conditions_are_met_as_a_set (doc doc' : Document)
    (properties : Properties) (tabId tabId' : option string) :
  (forall c, In c (conditionsFor doc tabId)
             <-> In c (conditionsFor doc' tabId')) ->
  checkDocumentConditions doc properties tabId
  = checkDocumentConditions doc' properties tabId'.
Proof.
  intro Same.
  apply Bool.eq_true_iff_eq. rewrite !conditions_met_iff. split.
  - intros H c Hc. apply Same in Hc. destruct (H c Hc) as (c' & Hc' & R).
    exists c'. split; [now apply Same|exact R].
  - intros H c Hc. apply Same in Hc. destruct (H c Hc) as (c' & Hc' & R).
    exists c'. split; [now apply Same|exact R].
Qed.

Lemma conditions_are_met_as_a_set_witness :
  checkDocumentConditions Examples.eitherCategory Scenarios.bagY None
  = checkDocumentConditions Examples.eitherCategoryReversed Scenarios.bagY
      (Some "decret").
Proof.
  apply conditions_are_met_as_a_set. intro c. cbn. tauto.
Defined.

(** X16: a document whose views have distinct, non-empty names and whose
    conditions are met in each of its views has its conditions met when
    all its views are pooled, which is what makes it required; with a
    single view the two outcomes are the same. *)
Theorem met_in_every_view_is_met (doc : Document) (properties : Properties) :
  NoDup (keys (tabConfig doc)) ->
  ~ In EmptyString (keys (tabConfig doc)) ->
  ((forall t, In t (keys (tabConfig doc)) ->
      checkDocumentConditions doc properties (Some t) = true) ->
   checkDocumentConditions doc properties None = true)
  /\ (forall t config, tabConfig doc = [(t, config)] ->
        checkDocumentConditions doc properties None
        = checkDocumentConditions doc properties (Some t)).
Proof.
  intros Hnd Hne. split.
  - intro Every. apply conditions_met_iff. intros c Hc.
    cbn [conditionsFor] in Hc |- *.
    rewrite ConditionsFacts.getAllConditions_pooled in Hc |- *.
    apply in_flat_map in Hc. destruct Hc as (config & Hconfig & Hc).
    apply in_map_iff in Hconfig. destruct Hconfig as ([t config'] & E & Hin).
    cbn [snd] in E. subst config'.
    assert (In t (keys (tabConfig doc))) as Ht
        by (unfold keys; apply in_map_iff; now exists (t, config)).
    pose proof (Every t Ht) as Met. rewrite conditions_met_iff in Met.
    assert (conditionsFor doc (Some t) = conditionsOrEmpty config) as Ec.
    { cbn [conditionsFor].
      assert (isEmpty t = false) as ->
          by (destruct t; [now elim Hne|reflexivity]).
      unfold getConditionsForTab.
      now rewrite (proj1 (GroupingFacts.lookup_In _ _ _ Hnd) Hin). }
    rewrite Ec in Met. destruct (Met c Hc) as (c' & Hc' & R).
    exists c'. split; [|exact R].
    apply in_flat_map. exists config. split; [|exact Hc'].
    apply in_map_iff. now exists (t, config).
  - intros t config E.
    apply conditions_are_met_as_a_set. intro c.
    cbn [conditionsFor].
    assert (isEmpty t = false) as ->.
    { destruct t; [|reflexivity]. elim Hne. rewrite E. now left. }
    rewrite ConditionsFacts.getAllConditions_pooled.
    unfold getConditionsForTab. rewrite E. cbn.
    rewrite String.eqb_refl, app_nil_r. tauto.
Qed.

Lemma met_in_every_view_is_met_witness :
  checkDocumentConditions Examples.eitherCategory Scenarios.bagY None
  = checkDocumentConditions Examples.eitherCategory Scenarios.bagY
      (Some "decret").
Proof.
  assert (NoDup (keys (tabConfig Examples.eitherCategory))) as Hnd
      by (repeat constructor; intros []).
  assert (~ In EmptyString (keys (tabConfig Examples.eitherCategory))) as Hne
      by (cbn; intuition discriminate).
  exact (proj2 (met_in_every_view_is_met Examples.eitherCategory
                  Scenarios.bagY Hnd Hne) _ _ eq_refl).
Defined.

(** *** Property names *)

Lemma toLowerCase_empty (s : string) :
  toLowerCase s = EmptyString -> s = EmptyString.
Proof. destruct s; [reflexivity|discriminate]. Qed.

Lemma get_absent (bag : Properties) (k : string) :
  ~ In k (keys bag) -> get bag k = undefined.
Proof.
  intro H. apply GroupingFacts.lookup_None_keys in H. unfold get.
  now rewrite H.
Qed.

Lemma findKeyIgnoringCase_same (bag : Properties) (p p' : string) :
  toLowerCase p = toLowerCase p' ->
  findKeyIgnoringCase bag p = findKeyIgnoringCase bag p'.
Proof. unfold findKeyIgnoringCase. now intros ->. Qed.

Lemma resolveProperty_of_key (bag : Properties) (p k : string) :
  (forall k1 k2, In k1 (keys bag) -> In k2 (keys bag) ->
     toLowerCase k1 = toLowerCase k2 -> k1 = k2) ->
  findKeyIgnoringCase bag p = Some k ->
  resolveProperty bag p = get bag k.
Proof.
  intros D F. unfold resolveProperty. rewrite F.
  unfold findKeyIgnoringCase in F. apply find_some in F.
  destruct F as [Hk E]. apply String.eqb_eq in E.
  destruct (in_dec string_dec p (keys bag)) as [Hp|Hp].
  - assert (k = p) as -> by (apply D; auto).
    destruct (isUndefined (get bag p)); [|reflexivity].
    now destruct (isEmpty p).
  - rewrite (get_absent _ _ Hp). cbn [isUndefined undefined].
    destruct k as [|a k]; [|reflexivity].
    cbn in E. symmetry in E. apply toLowerCase_empty in E. subst p.
    now elim Hp.
Qed.

Lemma resolveProperty_none (bag : Properties) (p : string) :
  findKeyIgnoringCase bag p = None -> resolveProperty bag p = undefined.
Proof.
  intro F. unfold resolveProperty. rewrite F.
  assert (~ In p (keys bag)) as Hp.
  { intro Hp. unfold findKeyIgnoringCase in F.
    pose proof (find_none _ _ F p Hp) as N. cbv beta in N.
    now rewrite String.eqb_refl in N. }
  rewrite (get_absent _ _ Hp). reflexivity.
Qed.

(** X17: when no two names of the record differ by letter case only, a
    condition reads the same value, and so has the same outcome, however
    the letters of its property name are cased. *)
Theorem property_names_ignore_case (bag : Properties)
    (p p' op v : string) :
  (forall k1 k2, In k1 (keys bag) -> In k2 (keys bag) ->
     toLowerCase k1 = toLowerCase k2 -> k1 = k2) ->
  toLowerCase p = toLowerCase p' ->
  resolveProperty bag p = resolveProperty bag p'
  /\ evaluateCondition (mkCondition p op v) bag
     = evaluateCondition (mkCondition p' op v) bag.
Proof.
  intros D E.
  assert (resolveProperty bag p = resolveProperty bag p') as R.
  { pose proof (findKeyIgnoringCase_same bag p p' E) as F.
    destruct (findKeyIgnoringCase bag p) as [k|] eqn:Fp.
    - rewrite (resolveProperty_of_key bag p k D Fp).
      now rewrite (resolveProperty_of_key bag p' k D (eq_sym F)).
    - rewrite (resolveProperty_none bag p Fp).
      now rewrite (resolveProperty_none bag p' (eq_sym F)). }
  split; [exact R|].
  unfold evaluateCondition. cbn [property operator value]. now rewrite R.
Qed.

Lemma property_names_ignore_case_witness :
  evaluateCondition (mkCondition "sous_categorie" "equals" "X")
                    Examples.bagInCapitals
  = evaluateCondition (mkCondition "Sous_Categorie" "equals" "X")
                      Examples.bagInCapitals.
Proof.
  apply property_names_ignore_case; [|reflexivity].
  intros k1 k2 [<-|[]] [<-|[]] _. reflexivity.
Defined.

(** X18: a value of the record that JavaScript takes as false (the
    boolean false, the number 0, the empty text, null) is read as no
    value at all: every condition on it has the outcome it has on a
    record without the property. *)
Theorem falsy_values_read_as_absent (c : DocumentCondition)
    (bag : Properties) :
  truthy (resolveProperty bag (property c)) = false ->
  evaluateCondition c bag = evaluateCondition c [].
Proof.
  intro F. unfold evaluateCondition.
  assert (resolveProperty [] (property c) = undefined) as -> by reflexivity.
  rewrite F. cbn [truthy undefined truthyScalar].
  unfold evaluateIn. rewrite F. reflexivity.
Qed.

Lemma falsy_values_read_as_absent_witness :
  evaluateCondition (mkCondition "refugie" "equals" "false")
                    Examples.bagWithFalse = false.
Proof.
  rewrite (falsy_values_read_as_absent
             (mkCondition "refugie" "equals" "false") Examples.bagWithFalse);
    reflexivity.
Defined.

(** *** The routed view *)

Lemma firstMatchingDocument_some (nv : string)
    (catalog : list DocumentConfig) (t : string) :
  firstMatchingDocument nv catalog = Some t ->
  exists doc entries config,
    In doc catalog /\ config_tabConfig doc = Some entries
    /\ In (t, config) entries /\ hostsCategory nv config = true.
Proof.
  induction catalog as [|doc rest IH]; cbn [firstMatchingDocument];
    [discriminate|].
  destruct (config_tabConfig doc) as [entries|] eqn:E.
  - rewrite RouterFacts.firstMatchingTab_hosts.
    destruct (find _ entries) as [[t' config]|] eqn:F; cbn [option_map fst].
    + intro H. injection H as ->. apply find_some in F.
      destruct F as [Hin Hh]. exists doc, entries, config.
      cbn [snd] in Hh. auto with datatypes.
    + intro H. destruct (IH H) as (d & en & cf & Hd & R).
      exists d, en, cf. auto with datatypes.
  - intro H. destruct (IH H) as (d & en & cf & Hd & R).
    exists d, en, cf. auto with datatypes.
Qed.

(** X19: when a fetch answered without an error finds a view for the category of the record, it
    selects that view, and the catalog has a document with, in that view,
    a condition that the category equals a value which is the category up
    to blanks; when neither the category nor that value holds a run of
    blanks, this condition is satisfied in the bag the fetch keeps. *)
Theorem the_routed_view_is_hosted
    (DOCUMENTS_CONFIG : list DocumentConfig) (s : Session)
    (properties : Properties) (t : string) :
  truthy (get properties "error") = false ->
  let st :=
    state (fetchDocumentValues DOCUMENTS_CONFIG s (Fetched properties)) in
  getActiveTabId DOCUMENTS_CONFIG st = Some t ->
  t <> EmptyString ->
  selectedTab st = t
  /\ exists doc entries config c,
       In doc DOCUMENTS_CONFIG
       /\ config_tabConfig doc = Some entries
       /\ In (t, config) entries
       /\ In c (conditionsOrEmpty config)
       /\ property c = "sous_categorie"
       /\ operator c = "equals"
       /\ normalize (value c) = normalize (natureDemande st)
       /\ (normalize (natureDemande st) = natureDemande st ->
           normalize (value c) = trim (value c) ->
           evaluateCondition c (recordProperties st) = true).
Proof.
  intro NoError. cbv zeta. rewrite (SessionFacts.fetch_answered _ _ _ NoError).
  unfold loadProperties, getActiveTabId.
  cbn [state natureDemande selectedTab recordProperties].
  set (nd := resolveNatureDemande properties).
  destruct (isEmpty nd) eqn:En; [discriminate|]. cbn [negb].
  intros Hr Ht. rewrite Hr.
  assert (isEmpty t = false) as -> by (destruct t; [now elim Ht|reflexivity]).
  split; [reflexivity|].
  unfold getTabForNatureDemande in Hr. rewrite En in Hr.
  destruct (firstMatchingDocument_some _ _ _ Hr)
    as (doc & entries & config & Hdoc & Econf & Hin & Hh).
  unfold hostsCategory in Hh.
  destruct (conditions config) as [cs|] eqn:Ecs; [|discriminate Hh].
  apply existsb_exists in Hh. destruct Hh as (c & Hc & Hcat).
  unfold isCategoryCondition in Hcat.
  apply andb_prop in Hcat. destruct Hcat as [Hcat Hv].
  apply andb_prop in Hcat. destruct Hcat as [Hp Ho].
  apply String.eqb_eq in Hp, Ho, Hv.
  exists doc, entries, config, c.
  repeat match goal with |- _ /\ _ => split end; auto.
  - unfold conditionsOrEmpty. now rewrite Ecs.
  - intros Clean CleanV. unfold evaluateCondition.
    rewrite Hp, Ho. cbn [String.eqb Ascii.eqb Bool.eqb].
    assert (resolveProperty
              (Js.set "sous_categorie" (JsPrim (SStr nd)) properties)
              "sous_categorie" = JsPrim (SStr nd)) as ->.
    { unfold resolveProperty. rewrite SessionFacts.get_set_same.
      reflexivity. }
    cbn [truthy truthyScalar toString scalarToString]. rewrite En.
    cbn [negb]. apply String.eqb_eq.
    rewrite <- CleanV, Hv, Clean.
    unfold nd, resolveNatureDemande.
    match goal with
    | |- trim (if ?c then _ else _) = _ => destruct c
    end; [apply MembershipFacts.trim_idempotent|reflexivity].
Qed.

Lemma the_routed_view_is_hosted_witness :
  selectedTab
    (state (fetchDocumentValues Scenarios.catalogD1
              (initialSession Scenarios.catalogD1 "autre")
              (Fetched (Scenarios.bagX "false"))))
  = "decret".
Proof.
  apply (the_routed_view_is_hosted Scenarios.catalogD1
           (initialSession Scenarios.catalogD1 "autre")
           (Scenarios.bagX "false") "decret").
  - reflexivity.
  - reflexivity.
  - discriminate.
Defined.

End RuleFacts.

(** * The save function: what reaches the store *)

Module BatchFacts.

Import Js ErrorPayload Store StoreModel.

(** *** The batch built from the documents *)

Lemma addProperty_stored (documents : Dict JsValue) (properties : Batch)
    (key : string) :
  addProperty documents properties key
  = match storedText (get documents key) with
    | Some v => Js.set key v properties
    | None => properties
    end.
Proof.
  unfold addProperty, storedText.
  destruct (get documents key) as [[| |b|n|s]|items]; try reflexivity.
  now destruct (isEmpty s).
Qed.

Lemma fold_addProperty (documents : Dict JsValue) (ks : list string) :
  forall (acc : Batch) (k : string),
  lookup k (fold_left (addProperty documents) ks acc)
  = if existsb (String.eqb k) ks
    then match storedText (get documents k) with
         | Some v => Some v
         | None => lookup k acc
         end
    else lookup k acc.
Proof.
  induction ks as [|k0 ks IH]; intros acc k; cbn [fold_left existsb];
    [reflexivity|].
  rewrite IH, addProperty_stored.
  destruct (String.eqb_spec k k0) as [->|Hne]; cbn [orb].
  - destruct (storedText (get documents k0)) as [v|] eqn:E.
    + rewrite GroupingFacts.lookup_set, String.eqb_refl.
      now destruct (existsb (String.eqb k0) ks).
    + now destruct (existsb (String.eqb k0) ks).
  - destruct (storedText (get documents k0)) as [v0|]; [|reflexivity].
    rewrite GroupingFacts.lookup_set.
    destruct (String.eqb_spec k0 k) as [->|_]; [now elim Hne|reflexivity].
Qed.

Lemma lookup_buildProperties (documents : Dict JsValue) (k : string) :
  lookup k (buildProperties documents) = storedText (get documents k).
Proof.
  unfold buildProperties. rewrite fold_addProperty. cbn [lookup].
  destruct (existsb (String.eqb k) (keys documents)) eqn:E.
  - now destruct (storedText (get documents k)).
  - assert (~ In k (keys documents)) as Hk.
    { intro Hin.
      pose proof (proj1 (CalculatorFacts.existsb_false_iff _ _) E k Hin) as F.
      now rewrite String.eqb_refl in F. }
    apply GroupingFacts.lookup_None_keys in Hk. unfold get. now rewrite Hk.
Qed.

Lemma fold_addProperty_NoDup (documents : Dict JsValue) (ks : list string) :
  forall acc : Batch,
  NoDup (keys acc) -> NoDup (keys (fold_left (addProperty documents) ks acc)).
Proof.
  induction ks as [|k0 ks IH]; intros acc H; [exact H|].
  cbn [fold_left]. apply IH. rewrite addProperty_stored.
  destruct (storedText (get documents k0)); [|exact H].
  now apply SaveFacts.keys_set_NoDup.
Qed.

Lemma buildProperties_NoDup (documents : Dict JsValue) :
  NoDup (keys (buildProperties documents)).
Proof. apply fold_addProperty_NoDup. constructor. Qed.

Lemma storedText_defined (v w : JsValue) :
  storedText v = Some w -> isUndefined w = false.
Proof.
  unfold storedText.
  destruct v as [[| |b|n|s]|items]; try discriminate;
    try (intro H; injection H as <-; reflexivity).
  destruct (isEmpty s); [discriminate|].
  intro H. injection H as <-. reflexivity.
Qed.

(** *** Deleting names *)

Lemma remove_incl (k : string) (b : Batch) (kv : string * JsValue) :
  In kv (remove k b) -> In kv b.
Proof. unfold remove. intro H. now apply filter_In in H. Qed.

Lemma deleteAll_incl (names : StringSet) :
  forall (b : Batch) (kv : string * JsValue),
  In kv (UpdateDocumentsLoop.deleteAll names b) -> In kv b.
Proof.
  unfold UpdateDocumentsLoop.deleteAll.
  induction names as [|n names IH]; cbn [fold_left]; intros b kv H;
    [exact H|].
  apply IH in H. now apply remove_incl in H.
Qed.

Lemma deleteDefined_incl (names : StringSet) :
  forall (b : Batch) (kv : string * JsValue),
  In kv (UpdateDocuments.deleteDefined names b) -> In kv b.
Proof.
  unfold UpdateDocuments.deleteDefined.
  induction names as [|n names IH]; cbn [fold_left]; intros b kv H;
    [exact H|].
  apply IH in H. destruct (isUndefined (get b n)); [exact H|].
  now apply remove_incl in H.
Qed.

#[local] Arguments UpdateDocuments.deleteDefined : simpl never.
#[local] Arguments UpdateDocumentsLoop.deleteAll : simpl never.
#[local] Arguments UpdateDocuments.failedPropertiesOf : simpl never.
#[local] Arguments UpdateDocuments.moreFailedPropsOf : simpl never.
#[local] Arguments UpdateDocumentsLoop.extractFailedProperties : simpl never.

Lemma isEmptyBatch_spec (b : Batch) : isEmptyBatch b = false <-> b <> [].
Proof. destruct b; cbn; split; congruence. Qed.

Lemma nested_sent (store : RecordStore) (properties : Batch) (b : Batch) :
  properties <> [] ->
  In b (snd (UpdateDocuments.updateWithRetry store properties)) ->
  b <> [] /\ forall kv, In kv b -> In kv properties.
Proof.
  intros Hne.
  assert (forall p, p <> [] ->
            forall b, In b (snd (UpdateDocuments.secondRetry store p)) ->
            b <> [] /\ forall kv, In kv b -> In kv p) as Second.
  { intros p Hp b' H. unfold UpdateDocuments.secondRetry in H.
    destruct (store 2 p); cbn in H; destruct H as [<-|[]]; auto. }
  assert (forall p, p <> [] ->
            forall b, In b (snd (UpdateDocuments.firstRetry store p)) ->
            b <> [] /\ forall kv, In kv b -> In kv p) as First.
  { intros p Hp b' H. unfold UpdateDocuments.firstRetry in H.
    destruct (store 1 p) as [r|e]; [cbn in H; destruct H as [<-|[]]; auto|].
    destruct (isStatus 400 (statusCode e) && bodyTruthy (body e));
      [|cbn in H; destruct H as [<-|[]]; auto].
    destruct (isEmptyBatch _) eqn:E; cbn [negb] in H;
      [cbn in H; destruct H as [<-|[]]; auto|].
    apply isEmptyBatch_spec in E.
    destruct (UpdateDocuments.secondRetry store _) as [res sent] eqn:R.
    cbn [snd] in H. destruct H as [<-|H]; [auto|].
    pose proof (Second _ E b') as S. rewrite R in S. cbn [snd] in S.
    destruct (S H) as [S1 S2]. split; [exact S1|].
    intros kv Hkv. apply S2 in Hkv. now apply deleteDefined_incl in Hkv. }
  intro H. unfold UpdateDocuments.updateWithRetry in H.
  destruct (store 0 properties) as [r|e];
    [cbn in H; destruct H as [<-|[]]; auto|].
  destruct (isStatus 404 (statusCode e) || isStatus 404 (code e));
    [cbn in H; destruct H as [<-|[]]; auto|].
  destruct (isStatus 400 (statusCode e) && bodyTruthy (body e));
    [|cbn in H; destruct H as [<-|[]]; auto].
  destruct (UpdateDocuments.failedPropertiesOf (body e)) as [|n names] eqn:F;
    [cbn in H; destruct H as [<-|[]]; auto|].
  destruct (isEmptyBatch _) eqn:E; cbn [negb] in H;
    [cbn in H; destruct H as [<-|[]]; auto|].
  apply isEmptyBatch_spec in E.
  destruct (UpdateDocuments.firstRetry store _) as [res sent] eqn:R.
  cbn [snd] in H. destruct H as [<-|H]; [auto|].
  pose proof (First _ E b) as S. rewrite R in S. cbn [snd] in S.
  destruct (S H) as [S1 S2]. split; [exact S1|].
  intros kv Hkv. apply S2 in Hkv. now apply deleteDefined_incl in Hkv.
Qed.

Lemma loop_sent (store : RecordStore) (retries : nat) :
  forall (attempt : nat) (properties b : Batch),
  properties <> [] ->
  In b (snd (UpdateDocumentsLoop.updateLoop store retries attempt properties)) ->
  b <> [] /\ forall kv, In kv b -> In kv properties.
Proof.
  induction retries as [|retries IH]; intros attempt properties b Hne H;
    cbn [UpdateDocumentsLoop.updateLoop] in H; [now destruct H|].
  destruct (store attempt properties) as [r|e];
    [cbn in H; destruct H as [<-|[]]; auto|].
  destruct (isStatus 404 (statusCode e));
    [cbn in H; destruct H as [<-|[]]; auto|].
  destruct (isStatus 400 (statusCode e));
    [|cbn in H; destruct H as [<-|[]]; auto].
  destruct (UpdateDocumentsLoop.extractFailedProperties e) as [|n names] eqn:F;
    [cbn in H; destruct H as [<-|[]]; auto|].
  destruct (isEmptyBatch _) eqn:E;
    [cbn in H; destruct H as [<-|[]]; auto|].
  apply isEmptyBatch_spec in E.
  destruct (UpdateDocumentsLoop.updateLoop store retries (S attempt) _)
    as [res sent] eqn:R.
  cbn [snd] in H. destruct H as [<-|H]; [auto|].
  pose proof (IH (S attempt) _ b E) as S. rewrite R in S. cbn [snd] in S.
  destruct (S H) as [S1 S2]. split; [exact S1|].
  intros kv Hkv. apply S2 in Hkv. now apply deleteAll_incl in Hkv.
Qed.

Lemma main_sends (store : RecordStore) (ctx : Context) (b : Batch) :
  In b (snd (UpdateDocuments.main store ctx))
  \/ In b (snd (UpdateDocumentsLoop.main store ctx)) ->
  exists docs,
    tokenMissing ctx = false /\ documents ctx = Some docs
    /\ isEmpty (objectInstanceId ctx) = false
    /\ buildProperties docs <> []
    /\ (In b (snd (UpdateDocuments.updateWithRetry store (buildProperties docs)))
        \/ In b (snd (UpdateDocumentsLoop.updateLoop store 2 0
                        (buildProperties docs)))).
Proof.
  unfold UpdateDocuments.main, UpdateDocumentsLoop.main.
  destruct (tokenMissing ctx); [intros [[]|[]]|].
  destruct (documents ctx) as [docs|]; [|intros [[]|[]]].
  destruct (isEmpty (objectInstanceId ctx)); [intros [[]|[]]|].
  destruct (isEmptyBatch (buildProperties docs)) eqn:E; [intros [[]|[]]|].
  apply isEmptyBatch_spec in E. intro H. exists docs. auto.
Qed.

(** X20: whatever the store answers, every batch that either text of the
    save function sends is non-empty and holds, under each of its names,
    the value the caller gave under that name, a boolean being sent as
    the text true or false; a value that is null, undefined or the empty
    text is never sent; and nothing at all is sent without a token, a
    [documents] parameter and a record id. *)
Theorem every_batch_comes_from_the_documents
    (store : RecordStore) (ctx : Context) (b : Batch) :
  In b (snd (UpdateDocuments.main store ctx))
  \/ In b (snd (UpdateDocumentsLoop.main store ctx)) ->
  b <> []
  /\ tokenMissing ctx = false
  /\ isEmpty (objectInstanceId ctx) = false
  /\ exists docs,
       documents ctx = Some docs
       /\ forall k v, In (k, v) b ->
            storedText (get docs k) = Some v
            /\ isUndefined v = false
            /\ v <> JsPrim SNull
            /\ v <> JsPrim (SStr EmptyString)
            /\ (forall flag, get docs k = JsPrim (SBool flag) ->
                  v = JsPrim (SStr (if flag then "true" else "false"))).
Proof.
  intro H. destruct (main_sends store ctx b H)
    as (docs & Ht & Hd & Hi & Hne & Hs).
  assert (b <> [] /\ forall kv, In kv b -> In kv (buildProperties docs))
    as [Hb Hin].
  { destruct Hs as [Hs|Hs].
    - exact (nested_sent store _ b Hne Hs).
    - exact (loop_sent store 2 0 _ b Hne Hs). }
  split; [exact Hb|]. split; [exact Ht|]. split; [exact Hi|].
  exists docs. split; [exact Hd|].
  intros k v Hkv. apply Hin in Hkv.
  apply (GroupingFacts.lookup_In k v _ (buildProperties_NoDup docs)) in Hkv.
  rewrite lookup_buildProperties in Hkv.
  split; [exact Hkv|]. split; [exact (storedText_defined _ _ Hkv)|].
  unfold storedText in Hkv.
  destruct (get docs k) as [[| |flag|n|s]|items]; try discriminate Hkv.
  - injection Hkv as <-. split; [discriminate|].
    split; [now destruct flag|].
    intros flag' E. now injection E as <-.
  - injection Hkv as <-. repeat split; discriminate.
  - destruct (isEmpty s) eqn:Es; [discriminate Hkv|].
    injection Hkv as <-. split; [discriminate|]. split; [|discriminate].
    intro E. injection E as ->. discriminate Es.
  - injection Hkv as <-. repeat split; discriminate.
Qed.

Lemma every_batch_comes_from_the_documents_witness :
  tokenMissing Scenarios.saveContext = false
  /\ exists docs, documents Scenarios.saveContext = Some docs.
Proof.
  destruct (every_batch_comes_from_the_documents Scenarios.rejectsFirstField
              Scenarios.saveContext
              (buildProperties Scenarios.flagsToSave))
    as (_ & Ht & _ & docs & Hd & _).
  - left. vm_compute. left. reflexivity.
  - split; [exact Ht|]. now exists docs.
Defined.

(** *** A store that names its missing fields *)

Lemma deleteAll_filter (names : StringSet) :
  forall b : Batch,
  UpdateDocumentsLoop.deleteAll names b
  = filter (fun kv => negb (existsb (String.eqb (fst kv)) names)) b.
Proof.
  unfold UpdateDocumentsLoop.deleteAll.
  induction names as [|n names IH]; intro b; cbn [fold_left existsb].
  - symmetry. now apply ChecklistFacts.filter_all.
  - rewrite IH. unfold remove. clear IH.
    induction b as [|kv b IHb]; [reflexivity|]. cbn [filter].
    destruct (String.eqb (fst kv) n); cbn [negb orb filter];
      [exact IHb|].
    destruct (negb (existsb (String.eqb (fst kv)) names)); now rewrite IHb.
Qed.

Lemma remove_absent (k : string) (b : Batch) :
  ~ In k (keys b) -> remove k b = b.
Proof.
  intro H. unfold remove. apply ChecklistFacts.filter_all.
  intros kv Hkv. apply negb_true_iff, String.eqb_neq. intros <-.
  apply H. unfold keys. now apply in_map.
Qed.

Lemma get_defined (b : Batch) (k : string) :
  (forall kv, In kv b -> isUndefined (snd kv) = false) ->
  isUndefined (get b k) = true -> ~ In k (keys b).
Proof.
  intros Hd Hu Hk. unfold get in Hu.
  destruct (lookup k b) as [v|] eqn:L.
  - assert (In (k, v) b) as Hin.
    { clear - L. induction b as [|[k' v'] r IH]; [discriminate|].
      cbn in L. destruct (String.eqb_spec k' k) as [->|_].
      - injection L as ->. now left.
      - right. auto. }
    apply Hd in Hin. cbn in Hin. congruence.
  - apply GroupingFacts.lookup_None_keys in L. contradiction.
Qed.

Lemma deleteDefined_deleteAll (names : StringSet) :
  forall b : Batch,
  (forall kv, In kv b -> isUndefined (snd kv) = false) ->
  UpdateDocuments.deleteDefined names b
  = UpdateDocumentsLoop.deleteAll names b.
Proof.
  unfold UpdateDocuments.deleteDefined, UpdateDocumentsLoop.deleteAll.
  induction names as [|n names IH]; intros b Hd; cbn [fold_left];
    [reflexivity|].
  destruct (isUndefined (get b n)) eqn:U.
  - rewrite (remove_absent n b (get_defined b n Hd U)). now apply IH.
  - apply IH. intros kv Hkv. apply Hd. now apply remove_incl in Hkv.
Qed.

Lemma setAddAll_fresh (names : list string) :
  forall failed : StringSet,
  NoDup (failed ++ names) -> setAddAll failed names = (failed ++ names)%list.
Proof.
  unfold setAddAll.
  induction names as [|n names IH]; intros failed H; cbn [fold_left].
  - now rewrite app_nil_r.
  - assert (setAdd failed n = (failed ++ [n])%list) as ->.
    { unfold setAdd.
      destruct (existsb (String.eqb n) failed) eqn:E; [|reflexivity].
      apply existsb_exists in E. destruct E as (y & Hy & Ey).
      apply String.eqb_eq in Ey. subst y.
      apply NoDup_remove_2 in H. elim H. apply in_or_app. now left. }
    rewrite IH; rewrite <- app_assoc; [reflexivity|exact H].
Qed.

Lemma built_values_defined (docs : Dict JsValue) (kv : string * JsValue) :
  In kv (buildProperties docs) -> isUndefined (snd kv) = false.
Proof.
  destruct kv as [k v]. intro H.
  apply (GroupingFacts.lookup_In k v _ (buildProperties_NoDup docs)) in H.
  rewrite lookup_buildProperties in H. exact (storedText_defined _ _ H).
Qed.

Lemma keys_knownEntries (known : string -> bool) (b : Batch) :
  keys (knownEntries known b) = filter known (keys b).
Proof.
  unfold knownEntries, keys.
  induction b as [|kv b IH]; [reflexivity|]. cbn [filter map].
  destruct (known (fst kv)); cbn [map]; now rewrite IH.
Qed.

Lemma no_unknown_left (known : string -> bool) (b : Batch) :
  filter (fun k => negb (known k)) (keys (knownEntries known b)) = [].
Proof.
  rewrite keys_knownEntries.
  induction (keys b) as [|k ks IH]; [reflexivity|]. cbn [filter].
  destruct (known k) eqn:E; [|exact IH]. cbn [filter]. now rewrite E.
Qed.

Lemma unknown_none (known : string -> bool) (b : Batch) :
  filter (fun k => negb (known k)) (keys b) = [] <-> knownEntries known b = b.
Proof.
  unfold knownEntries, keys.
  induction b as [|kv b IH]; [tauto|]. cbn [map filter].
  destruct (known (fst kv)) eqn:E; cbn [negb].
  - rewrite IH. split; [now intros ->|]. intro H. now injection H.
  - split; [discriminate|]. intro H.
    assert (List.length (filter (fun kv0 => known (fst kv0)) b)
            <= List.length b) as L by apply ChecklistFacts.filter_length_le.
    rewrite H in L. cbn in L. lia.
Qed.

Lemma deleteAll_unknown (known : string -> bool) (b : Batch) :
  UpdateDocumentsLoop.deleteAll (filter (fun k => negb (known k)) (keys b)) b
  = knownEntries known b.
Proof.
  rewrite deleteAll_filter. unfold knownEntries. apply filter_ext_in.
  intros kv Hkv.
  destruct (known (fst kv)) eqn:E.
  - apply negb_true_iff. apply CalculatorFacts.existsb_false_iff.
    intros k Hk. apply filter_In in Hk. destruct Hk as [_ Hk].
    apply String.eqb_neq. intros <-. rewrite E in Hk. discriminate Hk.
  - apply negb_false_iff. apply existsb_exists. exists (fst kv).
    split; [|apply String.eqb_refl].
    apply filter_In. rewrite E. split; [|reflexivity].
    unfold keys. now apply in_map.
Qed.

Lemma names_of_missingFields (unknown : list string) :
  NoDup unknown ->
  UpdateDocuments.failedPropertiesOf (body (missingFields unknown)) = unknown
  /\ UpdateDocumentsLoop.extractFailedProperties (missingFields unknown)
     = unknown.
Proof.
  intro H.
  unfold UpdateDocuments.failedPropertiesOf,
    UpdateDocumentsLoop.extractFailedProperties, missingFields.
  cbn [body fold_left].
  unfold UpdateDocuments.addFromEntry, UpdateDocumentsLoop.addFromEntry,
    contextNames.
  cbn [context_propertyName entry_name entry_message truthyString].
  now rewrite (setAddAll_fresh unknown [] H).
Qed.

(** X21: against a store that rejects a batch by naming every field it
    does not have, both texts of the save function succeed: in one call
    when the store has every field of the batch, in two calls otherwise,
    the second batch being the first without the fields the store named;
    when the store has none of the fields the save is skipped after one
    call, with a success. *)
Theorem a_store_that_names_its_missing_fields_is_written
    (known : string -> bool) (ctx : Context) (docs : Dict JsValue) :
  tokenMissing ctx = false ->
  documents ctx = Some docs ->
  isEmpty (objectInstanceId ctx) = false ->
  buildProperties docs <> [] ->
  let store := namingStore known in
  let batch := buildProperties docs in
  let kept := knownEntries known batch in
  let written := updatedSuccessfully (mkUpdateResponse (Some "123")) in
  (kept = batch ->
   UpdateDocuments.main store ctx = (written, [batch])
   /\ UpdateDocumentsLoop.main store ctx = (written, [batch]))
  /\ (kept = [] ->
      UpdateDocuments.main store ctx
      = (UpdateDocuments.updateSkipped, [batch])
      /\ UpdateDocumentsLoop.main store ctx
         = (UpdateDocumentsLoop.updateSkipped, [batch]))
  /\ (kept <> batch -> kept <> [] ->
      UpdateDocuments.main store ctx = (written, [batch; kept])
      /\ UpdateDocumentsLoop.main store ctx = (written, [batch; kept])).
Proof.
  intros Ht Hd Hi Hne. cbv zeta.
  destruct (FullSaveFacts.main_runs_the_retries (namingStore known) ctx docs
              Ht Hd Hi Hne) as [-> ->].
  set (batch := buildProperties docs) in *.
  set (unknown := filter (fun k => negb (known k)) (keys batch)).
  assert (NoDup unknown) as Hnd
      by (apply NoDup_filter, buildProperties_NoDup).
  assert (UpdateDocumentsLoop.deleteAll unknown batch
          = knownEntries known batch) as Dl by apply deleteAll_unknown.
  assert (UpdateDocuments.deleteDefined unknown batch
          = knownEntries known batch) as Dd.
  { rewrite deleteDefined_deleteAll; [exact Dl|].
    intros kv. apply built_values_defined. }
  destruct (names_of_missingFields unknown Hnd) as [N1 N2].
  assert (forall n, namingStore known n (knownEntries known batch)
                    = Scenarios.accepted) as Accepts.
  { intro n. unfold namingStore. now rewrite no_unknown_left. }
  assert (namingStore known 0 batch
          = match unknown with
            | [] => Scenarios.accepted
            | _ :: _ => Thrown (missingFields unknown)
            end) as First
      by (unfold namingStore; fold unknown; now destruct unknown).
  pose proof (unknown_none known batch) as None. fold unknown in None.
  clearbody unknown. clearbody batch.
  unfold UpdateDocuments.updateWithRetry.
  cbn [UpdateDocumentsLoop.updateLoop].
  rewrite First.
  destruct unknown as [|n ns].
  - assert (knownEntries known batch = batch) as K by now apply None.
    split; [intros _; split; reflexivity|].
    split; [intro E; rewrite K in E; contradiction|].
    intros E. now elim E.
  - assert (knownEntries known batch <> batch) as K.
    { intro K. apply None in K. discriminate K. }
    rewrite N1, N2, Dd, Dl.
    cbn [statusCode code body missingFields isStatus bodyTruthy orb andb
         Z.eqb Pos.eqb].
    split; [intro E; contradiction|].
    split.
    + intros ->. split; reflexivity.
    + intros _ Hk.
      rewrite (FullSaveFacts.isEmptyBatch_false _ Hk). cbn [negb].
      unfold UpdateDocuments.firstRetry.
      rewrite !Accepts. split; reflexivity.
Qed.

Lemma a_store_that_names_its_missing_fields_is_written_witness :
  UpdateDocuments.main (namingStore (fun k => negb (String.eqb k "foo_required")))
                       Scenarios.saveContext
  = (updatedSuccessfully (mkUpdateResponse (Some "123")),
     [buildProperties Scenarios.flagsToSave;
      knownEntries (fun k => negb (String.eqb k "foo_required"))
                   (buildProperties Scenarios.flagsToSave)]).
Proof.
  assert (buildProperties Scenarios.flagsToSave <> []) as Hne
      by (vm_compute; discriminate).
  destruct (a_store_that_names_its_missing_fields_is_written
              (fun k => negb (String.eqb k "foo_required"))
              Scenarios.saveContext Scenarios.flagsToSave
              eq_refl eq_refl eq_refl Hne) as (_ & _ & H).
  apply H; vm_compute; discriminate.
Defined.

(** *** The record id *)

Lemma includes_char (c a : ascii) (r : string) :
  includes (String a r) (String c EmptyString)
  = Ascii.eqb c a || includes r (String c EmptyString).
Proof.
  cbn [includes prefix].
  destruct (ascii_dec c a) as [->|Hne].
  - rewrite Ascii.eqb_refl. now destruct r.
  - apply Ascii.eqb_neq in Hne. now rewrite Hne.
Qed.

Lemma split_last (sep : ascii) (s : string) :
  exists h t,
    split sep s = h :: t
    /\ (t = [] -> h = s)
    /\ includes (last (h :: t) EmptyString) (String sep EmptyString) = false
    /\ exists p, s = p ++ last (h :: t) EmptyString.
Proof.
  induction s as [|c r (h & t & E & Hone & Hno & p & Hp)].
  - exists EmptyString, []. cbn. split; [reflexivity|].
    split; [reflexivity|]. split; [reflexivity|]. now exists EmptyString.
  - cbn [split]. destruct (Ascii.eqb c sep) eqn:C.
    + exists EmptyString, (h :: t). rewrite E.
      split; [reflexivity|]. split; [discriminate|].
      change (last (EmptyString :: h :: t) EmptyString)
        with (last (h :: t) EmptyString).
      split; [exact Hno|]. exists (String c p). cbn [append]. f_equal. exact Hp.
    + rewrite E. exists (String c h), t. split; [reflexivity|].
      split; [intro T; now rewrite (Hone T)|].
      destruct t as [|h' t'].
      * cbn [last] in Hno |- *. split.
        -- rewrite includes_char, Hno.
           rewrite Ascii.eqb_sym, C. reflexivity.
        -- exists EmptyString. cbn. now rewrite (Hone eq_refl).
      * change (last (String c h :: h' :: t') EmptyString)
          with (last (h :: h' :: t') EmptyString).
        split; [exact Hno|]. exists (String c p). cbn [append]. f_equal. exact Hp.
Qed.

(** X22: the record id the save function works with holds no dash: it is
    the text of the id it was given when that holds none, and otherwise
    what follows the last dash; it is always the end of that text.  An
    id that is missing is not caught by the check of the parameters: its
    text is not empty, and with a token and documents to write the store
    is called. *)
Theorem record_id_is_the_part_after_the_last_dash (ctx : Context) :
  let text := toString (hs_object_id ctx) in
  includes (objectInstanceId ctx) "-" = false
  /\ (includes text "-" = false -> objectInstanceId ctx = text)
  /\ (exists before, text = before ++ objectInstanceId ctx)
  /\ (hs_object_id ctx = JsPrim SUndefined \/ hs_object_id ctx = JsPrim SNull ->
      isEmpty (objectInstanceId ctx) = false
      /\ forall store docs,
           tokenMissing ctx = false -> documents ctx = Some docs ->
           buildProperties docs <> [] ->
           hd_error (snd (UpdateDocuments.main store ctx))
           = Some (buildProperties docs)
           /\ hd_error (snd (UpdateDocumentsLoop.main store ctx))
              = Some (buildProperties docs)).
Proof.
  cbv zeta. unfold objectInstanceId.
  set (text := toString (hs_object_id ctx)).
  destruct (split_last "-" text) as (h & t & E & _ & Hno & before & Hb).
  split; [|split; [|split]].
  - destruct (includes text "-") eqn:I; [|exact I]. now rewrite E.
  - now intros ->.
  - destruct (includes text "-"); [|now exists EmptyString].
    rewrite E. now exists before.
  - intro Missing.
    assert (isEmpty (objectInstanceId ctx) = false) as Hi.
    { unfold objectInstanceId. fold text.
      assert (text = "undefined" \/ text = "null") as [T|T]
          by (unfold text; destruct Missing as [-> | ->]; cbn; auto);
        rewrite T; reflexivity. }
    split; [exact Hi|].
    intros store docs Ht Hd Hne.
    destruct (FullSaveFacts.main_runs_the_retries store ctx docs Ht Hd Hi Hne)
      as [-> ->].
    unfold UpdateDocuments.updateWithRetry.
    cbn [UpdateDocumentsLoop.updateLoop].
    destruct (store 0 (buildProperties docs)) as [r|e]; [split; reflexivity|].
    split.
    + destruct (isStatus 404 (statusCode e) || isStatus 404 (code e));
        [reflexivity|].
      destruct (isStatus 400 (statusCode e) && bodyTruthy (body e));
        [|reflexivity].
      destruct (UpdateDocuments.failedPropertiesOf (body e)); [reflexivity|].
      destruct (negb (isEmptyBatch _)); [|reflexivity].
      now destruct (UpdateDocuments.firstRetry store _).
    + destruct (isStatus 404 (statusCode e)); [reflexivity|].
      destruct (isStatus 400 (statusCode e)); [|reflexivity].
      destruct (UpdateDocumentsLoop.extractFailedProperties e);
        [reflexivity|].
      destruct (isEmptyBatch _); [reflexivity|].
      now destruct (match store 1 _ with Updated _ => _ | Thrown _ => _ end).
Qed.

End BatchFacts.

(** * The save of the aggregates *)

Module StatusFacts.

Import Js ErrorPayload Store UpdateCompletionStatus.

Lemma buildProperties_keys (ctx : Parameters) :
  NoDup (keys (buildProperties ctx))
  /\ List.length (buildProperties ctx) <= 3
  /\ forall k, In k (keys (buildProperties ctx)) ->
       k = "documents_completed" \/ k = "etat_du_dossier" \/ k = "missing_doc".
Proof.
  unfold buildProperties.
  destruct (isUndefined (completionStatus ctx)),
    (isNullish (dossierState ctx)), (isNullish (missingDoc ctx)); cbn;
    (split; [repeat constructor; cbn; intuition discriminate|]);
    (split; [lia|]); intuition.
Qed.

(** *** The updates field by field *)

Lemma writeEach_lists (store : RecordStore) (entries : Batch) :
  forall (attempt : nat) (updated : Batch) (failed : list string)
         (u : Batch) (f : list string) (sent : list Batch),
  NoDup (keys updated ++ keys entries) ->
  writeEach store attempt entries updated failed = (u, f, sent) ->
  sent = map (fun kv => [kv]) entries
  /\ (forall kv, In kv u ->
        In kv updated
        \/ (In kv entries /\ exists n r, store n [kv] = Updated r))
  /\ (forall k, In k f ->
        In k failed
        \/ exists v n e, In (k, v) entries /\ store n [(k, v)] = Thrown e)
  /\ Permutation (keys u ++ f) (keys updated ++ failed ++ keys entries).
Proof.
  induction entries as [|[key value] rest IH];
    intros attempt updated failed u f sent Hnd H; cbn [writeEach] in H.
  - injection H as <- <- <-. cbn [map keys]. rewrite !app_nil_r.
    repeat split; auto.
  - destruct (store attempt [(key, value)]) as [r|e] eqn:St.
    + destruct (writeEach store (S attempt) rest (Js.set key value updated)
                          failed) as [[u' f'] sent'] eqn:W.
      injection H as <- <- <-.
      assert (lookup key updated = None) as Fresh.
      { apply GroupingFacts.lookup_None_keys. intro Hin.
        apply NoDup_remove_2 in Hnd. apply Hnd. apply in_or_app. now left. }
      rewrite (SaveFacts.set_fresh key value updated Fresh) in W.
      apply IH in W.
      * destruct W as (Es & Hu & Hf & P). split; [cbn; now rewrite Es|].
        split; [|split].
        -- intros kv Hkv. apply Hu in Hkv. destruct Hkv as [Hkv|[Hkv Hx]].
           ++ apply in_app_or in Hkv. destruct Hkv as [Hkv|[<-|[]]]; auto.
              right. split; [now left|eauto].
           ++ right. split; [now right|exact Hx].
        -- intros k Hk. apply Hf in Hk.
           destruct Hk as [Hk|(v & n & e & Hin & Hx)]; auto.
           right. exists v, n, e. split; [now right|exact Hx].
        -- rewrite P. unfold keys. rewrite map_app. cbn [map fst].
           rewrite <- !app_assoc. apply Permutation_app_head.
           cbn [app]. apply Permutation_middle.
      * unfold keys in *. rewrite map_app. cbn [map fst].
        rewrite <- app_assoc. exact Hnd.
    + destruct (writeEach store (S attempt) rest updated
                          (failed ++ [key])%list) as [[u' f'] sent'] eqn:W.
      injection H as <- <- <-.
      apply IH in W.
      * destruct W as (Es & Hu & Hf & P). split; [cbn; now rewrite Es|].
        split; [|split].
        -- intros kv Hkv. apply Hu in Hkv. destruct Hkv as [Hkv|[Hkv Hx]];
             auto. right. split; [now right|exact Hx].
        -- intros k Hk. apply Hf in Hk.
           destruct Hk as [Hk|(v & n & e' & Hin & Hx)].
           ++ apply in_app_or in Hk. destruct Hk as [Hk|[<-|[]]]; auto.
              right. exists value, attempt, e. split; [now left|exact St].
           ++ right. exists v, n, e'. split; [now right|exact Hx].
        -- rewrite P. cbn [keys map fst]. apply Permutation_app_head.
           rewrite <- app_assoc. apply Permutation_app_head.
           reflexivity.
      * cbn [keys map fst] in Hnd. apply NoDup_remove_1 in Hnd. exact Hnd.
Qed.

Lemma fieldByField_reports (store : RecordStore) (attempt : nat)
    (tried : Batch) (err : ApiError) (res : Result) (sent : list Batch) :
  NoDup (keys tried) ->
  fieldByField store attempt tried err = (res, sent) ->
  sent = map (fun kv => [kv]) tried /\ Reported store tried err res.
Proof.
  intros Hnd H. unfold fieldByField in H.
  destruct (writeEach store attempt tried [] []) as [[u f] sent'] eqn:W.
  apply writeEach_lists in W; [|exact Hnd].
  destruct W as (Es & Hu & Hf & P). cbn [keys map app] in P.
  destruct u as [|kv0 u]; cbn [isEmptyBatch negb] in H;
    injection H as <- <-; (split; [exact Es|]).
  - right. split; [reflexivity|]. intros k v Hin.
    assert (In k f) as Hk.
    { cbn [keys map app] in P. apply (Permutation_in k (Permutation_sym P)).
      unfold keys. apply in_map_iff. now exists (k, v). }
    apply Hf in Hk. destruct Hk as [[]|(v' & n & e & Hin' & Hx)].
    assert (v' = v) as ->.
    { apply (GroupingFacts.lookup_In k v' tried Hnd) in Hin'.
      apply (GroupingFacts.lookup_In k v tried Hnd) in Hin. congruence. }
    eauto.
  - left. split; [reflexivity|]. exists (kv0 :: u), f.
    split; [reflexivity|]. split; [discriminate|]. split; [exact P|].
    split.
    + intros kv Hkv. apply Hu in Hkv. destruct Hkv as [[]|Hkv]. exact Hkv.
    + intros k Hk. apply Hf in Hk. destruct Hk as [[]|Hk]. exact Hk.
Qed.

Lemma remove_NoDup (k : string) (b : Batch) :
  NoDup (keys b) -> NoDup (keys (remove k b)).
Proof.
  intro H. rewrite FullSaveFacts.keys_remove. now apply NoDup_filter.
Qed.

Lemma remove_shorter (k : string) (b : Batch) :
  List.length (remove k b) <= List.length b.
Proof. unfold remove. apply ChecklistFacts.filter_length_le. Qed.

Lemma update_ends (store : RecordStore) (ctx : Parameters)
    (properties : Batch) (res : Result) (sent : list Batch) :
  NoDup (keys properties) ->
  update store ctx properties = (res, sent) ->
  Ends store ctx properties res sent.
Proof.
  intros Hnd H. unfold update in H. unfold Ends.
  destruct (store 0 properties) as [r|e] eqn:S0.
  { injection H as <- <-. left. eauto. }
  destruct (isStatus 404 (statusCode e)) eqn:E404.
  { injection H as <- <-. right. left. exists e. auto. }
  destruct (isStatus 400 (statusCode e)) eqn:E400.
  2:{ injection H as <- <-. right. right. left. exists e. auto. }
  assert (forall attempt tried before res' sent',
            NoDup (keys tried) ->
            fieldByField store attempt tried e = (res', sent') ->
            (tried = properties /\ before = [properties]
             \/ exists name,
                  findFailedProperty e = Some name
                  /\ tried = remove name properties
                  /\ (before = [properties]
                      \/ before = [properties; tried])) ->
            exists e0 tried0 before0,
              Thrown e = Thrown e0
              /\ isStatus 404 (statusCode e0) = false
              /\ isStatus 400 (statusCode e0) = true
              /\ (tried0 = properties /\ before0 = [properties]
                  \/ exists name,
                       findFailedProperty e0 = Some name
                       /\ tried0 = remove name properties
                       /\ (before0 = [properties]
                           \/ before0 = [properties; tried0]))
              /\ (before ++ sent')%list
                 = (before0 ++ map (fun kv => [kv]) tried0)%list
              /\ Reported store tried0 e0 res') as Fields.
  { intros attempt tried before res' sent' Hn Hf Hw.
    apply fieldByField_reports in Hf; [|exact Hn].
    destruct Hf as [-> R]. exists e, tried, before. auto 10. }
  right. right. right.
  destruct (findFailedProperty e) as [name|] eqn:F.
  - destruct (negb (isEmpty name)
              && negb (isUndefined (get properties name))) eqn:G.
    + destruct (negb (isEmptyBatch (remove name properties))) eqn:B.
      * destruct (store 1 (remove name properties)) as [r|e1] eqn:S1.
        -- injection H as <- <-. left. exists e, name, r.
           repeat split; auto.
           apply negb_true_iff in B. intro N. rewrite N in B.
           discriminate B.
        -- destruct (fieldByField store 2 (remove name properties) e)
             as [res' sent'] eqn:FF.
           injection H as <- <-. right.
           apply (Fields 2 (remove name properties)
                    [properties; remove name properties] res' sent');
             [now apply remove_NoDup|exact FF|].
           right. exists name. auto.
      * destruct (fieldByField store 1 (remove name properties) e)
          as [res' sent'] eqn:FF.
        injection H as <- <-. right.
        apply (Fields 1 (remove name properties) [properties] res' sent');
          [now apply remove_NoDup|exact FF|].
        right. exists name. auto.
    + destruct (fieldByField store 1 properties e) as [res' sent'] eqn:FF.
      injection H as <- <-. right.
      apply (Fields 1 properties [properties] res' sent');
        [exact Hnd|exact FF|]. now left.
  - destruct (fieldByField store 1 properties e) as [res' sent'] eqn:FF.
    injection H as <- <-. right.
    apply (Fields 1 properties [properties] res' sent');
      [exact Hnd|exact FF|]. now left.
Qed.

Lemma main_guards (store : RecordStore) (ctx : Parameters) :
  (snd (main store ctx) = [] /\ status (fst (main store ctx)) = "error")
  \/ (tokenMissing ctx = false /\ isEmpty (objectId ctx) = false
      /\ main store ctx = update store ctx (buildProperties ctx)).
Proof.
  unfold main.
  destruct (tokenMissing ctx); [left; split; reflexivity|].
  destruct (isEmpty (objectId ctx)); [left; split; reflexivity|].
  destruct (negb _ && _); [left; split; reflexivity|].
  right. auto.
Qed.

Lemma tried_entries (properties tried : Batch) (e : ApiError) :
  (tried = properties
   \/ exists name, findFailedProperty e = Some name
                   /\ tried = remove name properties) ->
  List.length tried <= List.length properties
  /\ forall kv, In kv tried -> In kv properties.
Proof.
  intros [->|(name & _ & ->)].
  - split; [lia|auto].
  - split; [apply remove_shorter|]. intros kv. apply BatchFacts.remove_incl.
Qed.

Lemma update_head (store : RecordStore) (ctx : Parameters)
    (properties : Batch) :
  hd_error (snd (update store ctx properties)) = Some properties.
Proof.
  unfold update. destruct (store 0 properties) as [r|e]; [reflexivity|].
  destruct (isStatus 404 (statusCode e)); [reflexivity|].
  destruct (isStatus 400 (statusCode e)); [|reflexivity].
  destruct (findFailedProperty e) as [name|].
  - destruct (negb (isEmpty name)
              && negb (isUndefined (get properties name))).
    + destruct (negb (isEmptyBatch (remove name properties))).
      * destruct (store 1 (remove name properties)); [reflexivity|].
        now destruct (fieldByField store 2 (remove name properties) e).
      * now destruct (fieldByField store 1 (remove name properties) e).
    + now destruct (fieldByField store 1 properties e).
  - now destruct (fieldByField store 1 properties e).
Qed.

(** The three parameter checks of [exports.main] decide whether the
    store is called. *)
Lemma main_checks (store : RecordStore) (ctx : Parameters) :
  (tokenMissing ctx = false /\ isEmpty (objectId ctx) = false
   /\ isUndefined (completionStatus ctx) = isUndefined (dossierState ctx)
   /\ main store ctx = update store ctx (buildProperties ctx))
  \/ (~ (tokenMissing ctx = false /\ isEmpty (objectId ctx) = false
         /\ isUndefined (completionStatus ctx)
            = isUndefined (dossierState ctx))
      /\ snd (main store ctx) = []
      /\ status (fst (main store ctx)) = "error").
Proof.
  unfold main.
  destruct (tokenMissing ctx);
    [right; split; [intros [H _]; discriminate H|split; reflexivity]|].
  destruct (isEmpty (objectId ctx));
    [right; split; [intros (_ & H & _); discriminate H|split; reflexivity]|].
  destruct (isUndefined (completionStatus ctx)),
    (isUndefined (dossierState ctx)); cbn [negb andb orb].
  - left. auto.
  - right. split; [intros (_ & _ & H); discriminate H|split; reflexivity].
  - right. split; [intros (_ & _ & H); discriminate H|split; reflexivity].
  - left. auto.
Qed.

(** X23: the save of the aggregates reports an error without calling
    the store when a parameter check fails (no token, an empty record
    id, or one of completionStatus and dossierState given without the
    other); when the checks pass it calls the store, and its first call
    carries the batch built from the parameters.  It calls the store at
    most twice with a batch and once per field, five calls at most, and
    every later call carries fields of the first batch with their
    values.  It reports success, partial success or error; it reports an
    error, after calling the store, only when the first call failed with
    a status other than 404 and either that status is not 400 or the
    store refused every field tried alone. *)
Theorem status_update_budget_and_outcomes
    (store : RecordStore) (ctx : Parameters) :
  let batch := buildProperties ctx in
  let res := fst (main store ctx) in
  let sent := snd (main store ctx) in
  let checksPass :=
    tokenMissing ctx = false /\ isEmpty (objectId ctx) = false
    /\ isUndefined (completionStatus ctx) = isUndefined (dossierState ctx) in
  (checksPass -> hd_error sent = Some batch)
  /\ (~ checksPass -> sent = [] /\ status res = "error")
  /\ List.length sent <= 2 + List.length batch
  /\ List.length batch <= 3
  /\ (status res = "success" \/ status res = "partial_success"
      \/ status res = "error")
  /\ (sent = [] -> status res = "error")
  /\ (sent <> [] -> hd_error sent = Some batch)
  /\ (forall later kv, In later sent -> In kv later -> In kv batch)
  /\ (status res = "error" -> sent <> [] ->
      exists e,
        store 0 batch = Thrown e
        /\ isStatus 404 (statusCode e) = false
        /\ (isStatus 400 (statusCode e) = false
            \/ exists tried,
                 (forall kv, In kv tried -> In kv batch)
                 /\ (forall k v, In (k, v) tried ->
                       exists n e', store n [(k, v)] = Thrown e'))).
Proof.
  cbv zeta.
  destruct (buildProperties_keys ctx) as (Hnd & Hlen & _).
  split.
  { intros (H1 & H2 & H3).
    destruct (main_checks store ctx) as [(_ & _ & _ & ->)|[N _]];
      [apply update_head|]. elim N. auto. }
  split.
  { intro N.
    destruct (main_checks store ctx) as [(H1 & H2 & H3 & _)|(_ & H)];
      [elim N; auto|exact H]. }
  split; [|split; [exact Hlen|]].
  - destruct (main_guards store ctx) as [[-> _]|(_ & _ & ->)]; [cbn; lia|].
    destruct (update store ctx (buildProperties ctx)) as [res sent] eqn:U.
    apply update_ends in U; [|exact Hnd]. cbn [snd].
    destruct U as [(r & _ & _ & ->)|[(e & _ & _ & _ & ->)|
                  [(e & _ & _ & _ & _ & ->)|
                  [(e & name & r & _ & _ & _ & _ & _ & _ & ->)|
                   (e & tried & before & _ & _ & _ & W & -> & _)]]]];
      cbn [List.length]; try lia.
    rewrite length_app, length_map.
    destruct W as [[-> ->]|(name & F & -> & [->| ->])]; cbn [List.length];
      [lia| |];
      pose proof (remove_shorter name (buildProperties ctx)); lia.
  - destruct (main_guards store ctx) as [[E S]|(_ & _ & E)].
    { rewrite E, S. repeat split; auto; try (intros N; now elim N);
        try (intros later kv []). }
    rewrite E.
    destruct (update store ctx (buildProperties ctx)) as [res sent] eqn:U.
    apply update_ends in U; [|exact Hnd]. cbn [fst snd].
    destruct U as [(r & S0 & St & ->)|[(e & S0 & E404 & -> & ->)|
                  [(e & S0 & E404 & E400 & -> & ->)|
                  [(e & name & r & S0 & E400 & F & S1 & Hne & St & ->)|
                   (e & tried & before & S0 & E404 & E400 & W & -> & R)]]]].
    + rewrite St. repeat split; auto; try discriminate.
      intros later kv [<-|[]] H. exact H.
    + cbn [status]. repeat split; auto; try discriminate.
      intros later kv [<-|[]] H. exact H.
    + cbn [status]. repeat split; auto; try discriminate.
      * intros later kv [<-|[]] H. exact H.
      * intros _ _. exists e. auto.
    + rewrite St. repeat split; auto; try discriminate.
      intros later kv [<-|[<-|[]]] H; [exact H|].
      now apply BatchFacts.remove_incl in H.
    + assert (tried = buildProperties ctx
              \/ exists name, findFailedProperty e = Some name
                              /\ tried = remove name (buildProperties ctx))
        as T by (destruct W as [[-> _]|(name & F & -> & _)]; eauto).
      destruct (tried_entries _ _ _ T) as [_ Incl].
      assert (hd_error (before ++ map (fun kv => [kv]) tried)
              = Some (buildProperties ctx)) as Hd
          by (destruct W as [[_ ->]|(name & _ & _ & [->| ->])]; reflexivity).
      assert (forall later kv,
                In later (before ++ map (fun kv0 => [kv0]) tried) ->
                In kv later -> In kv (buildProperties ctx)) as Later.
      { intros later kv Hl Hkv. apply in_app_or in Hl.
        destruct Hl as [Hl|Hl].
        - destruct W as [[_ ->]|(name & _ & Et & [->| ->])].
          + destruct Hl as [<-|[]]. exact Hkv.
          + destruct Hl as [<-|[]]. exact Hkv.
          + destruct Hl as [<-|[<-|[]]]; [exact Hkv|]. now apply Incl.
        - apply in_map_iff in Hl. destruct Hl as (kv' & <- & Hin).
          destruct Hkv as [<-|[]]. now apply Incl. }
      split; [|split; [|split; [|split]]].
      * destruct R as [[-> _]|[-> _]]; auto.
      * intro N. apply (f_equal (@List.length _)) in N.
        rewrite length_app in N.
        destruct W as [[_ ->]|(name & _ & _ & [->| ->])]; cbn in N; lia.
      * intros _. exact Hd.
      * exact Later.
      * intros St _. exists e. split; [exact S0|]. split; [exact E404|].
        right. exists tried. split; [exact Incl|].
        destruct R as [[P _]|[_ All]]; [|exact All].
        rewrite P in St. discriminate St.
Qed.

Lemma status_update_budget_and_outcomes_witness :
  hd_error (snd (main oneFieldAtATime bothAggregates))
  = Some [("documents_completed", JsPrim (SStr "true"));
          ("etat_du_dossier", JsPrim (SStr "Complet"))].
Proof.
  destruct (status_update_budget_and_outcomes oneFieldAtATime bothAggregates)
    as (H & _).
  apply H. split; [reflexivity|]. split; reflexivity.
Defined.

(** X24: when the save of the aggregates reports a partial success, the
    first call failed with status 400, at least one field was written,
    and the two lists of the report are, together, the fields tried
    alone (the fields of the batch, or of the batch without the field
    that the error named): every field listed as updated was accepted by
    the store in a call that wrote it alone, with its value of the batch,
    and every field listed as failed was refused in such a call. *)
Theorem partial_success_lists_what_was_written
    (store : RecordStore) (ctx : Parameters) :
  status (fst (main store ctx)) = "partial_success" ->
  let batch := buildProperties ctx in
  exists e tried updated failed,
    store 0 batch = Thrown e
    /\ isStatus 400 (statusCode e) = true
    /\ (tried = batch
        \/ exists name, findFailedProperty e = Some name
                        /\ tried = remove name batch)
    /\ data (fst (main store ctx)) = PartlyWritten updated failed
    /\ updated <> []
    /\ Permutation (keys updated ++ failed) (keys tried)
    /\ (forall kv, In kv updated ->
          In kv batch /\ exists n r, store n [kv] = Updated r)
    /\ (forall k, In k failed ->
          exists v n e', In (k, v) batch /\ store n [(k, v)] = Thrown e').
Proof.
  intro St. cbv zeta.
  destruct (buildProperties_keys ctx) as (Hnd & _ & _).
  destruct (main_guards store ctx) as [[_ S]|(_ & _ & E)];
    [rewrite S in St; discriminate St|].
  rewrite E in St |- *.
  destruct (update store ctx (buildProperties ctx)) as [res sent] eqn:U.
  apply update_ends in U; [|exact Hnd]. cbn [fst] in St |- *.
  destruct U as [(r & S0 & Ss & ->)|[(e & S0 & E404 & -> & ->)|
                [(e & S0 & E404 & E400 & -> & ->)|
                [(e & name & r & S0 & E400 & F & S1 & Hne & Ss & ->)|
                 (e & tried & before & S0 & E404 & E400 & W & -> & R)]]]];
    try (rewrite Ss in St; discriminate St); try discriminate St.
  assert (tried = buildProperties ctx
          \/ exists name, findFailedProperty e = Some name
                          /\ tried = remove name (buildProperties ctx))
    as T by (destruct W as [[-> _]|(name & F & -> & _)]; eauto).
  destruct (tried_entries _ _ _ T) as [_ Incl].
  destruct R as [(_ & updated & failed & D & Hu & P & Hup & Hfa)|[-> _]];
    [|discriminate St].
  exists e, tried, updated, failed.
  repeat match goal with |- _ /\ _ => split end; auto.
  - intros kv Hkv. destruct (Hup kv Hkv) as [Hin Hx]. auto.
  - intros k Hk. destruct (Hfa k Hk) as (v & n & e' & Hin & Hx).
    exists v, n, e'. auto.
Qed.

Lemma partial_success_lists_what_was_written_witness :
  data (fst (main oneFieldAtATime bothAggregates))
  = PartlyWritten [("documents_completed", JsPrim (SStr "true"))]
                  ["etat_du_dossier"].
Proof.
  destruct (partial_success_lists_what_was_written oneFieldAtATime
              bothAggregates eq_refl)
    as (e & tried & updated & failed & _ & _ & _ & D & _).
  reflexivity.
Defined.

End StatusFacts.

(** * The read function: what the component receives *)

Module ReadFacts.

Import Js ErrorPayload Evaluator DocumentList Checklist GetDocumentValues.

(** *** The list of properties and its slices *)

Lemma listed_In (prop : string) (l : list string) :
  listed prop l = true <-> In prop l.
Proof.
  unfold listed. rewrite existsb_exists. split.
  - intros (x & Hx & E). apply String.eqb_eq in E. now subst.
  - intro H. exists prop. split; [exact H|apply String.eqb_refl].
Qed.

Lemma add_missing (extra : list string) :
  forall (properties : list string) (p : string),
  In p (fold_left (fun properties prop =>
                     if negb (listed prop properties)
                     then (properties ++ [prop])%list else properties)
                  extra properties)
  <-> In p properties \/ In p extra.
Proof.
  induction extra as [|e extra IH]; intros properties p; cbn [fold_left].
  - cbn. tauto.
  - rewrite IH. destruct (listed e properties) eqn:L; cbn [negb].
    + apply listed_In in L. cbn. intuition (subst; auto).
    + rewrite in_app_iff. cbn. tauto.
Qed.

Lemma requested_In (ctx : Context) (p : string) :
  In p (requested ctx)
  <-> In p (match propertyNames ctx with
            | [] => ["passport_required"; "passport_provided"]
            | _ :: _ => propertyNames ctx
            end)
      \/ (includeCompletion ctx = true
          /\ (p = "documents_completed" \/ p = "etat_du_dossier"))
      \/ In p conditionalProperties.
Proof.
  unfold requested. rewrite add_missing.
  destruct (includeCompletion ctx).
  - rewrite in_app_iff. cbn [In]. intuition (subst; auto).
  - intuition discriminate.
Qed.

#[local] Opaque requested.

Lemma sorted_In (properties : list string) (p : string) :
  In p (sorted properties) <-> p = "sous_categorie" \/ In p properties.
Proof.
  unfold sorted. cbn [In]. rewrite filter_In, negb_true_iff, String.eqb_neq.
  destruct (string_dec p "sous_categorie") as [->|Hne]; intuition.
Qed.

Lemma slices_cover (size : nat) :
  0 < size ->
  forall (fuel : nat) (l : list string),
  List.length l <= fuel ->
  List.concat (slices fuel size l) = l
  /\ Forall (fun b => b <> [] /\ List.length b <= size) (slices fuel size l).
Proof.
  intros Hs. induction fuel as [|fuel IH]; intros l Hl.
  - destruct l; [split; [reflexivity|constructor]|cbn in Hl; lia].
  - cbn [slices]. destruct l as [|x r]; [split; [reflexivity|constructor]|].
    destruct (IH (skipn size (x :: r))) as [Ec Hf].
    { rewrite length_skipn. cbn [List.length] in *. lia. }
    cbn [List.concat]. rewrite Ec, firstn_skipn. split; [reflexivity|].
    constructor; [|exact Hf]. split.
    + destruct size; [lia|]. discriminate.
    + apply firstn_le_length.
Qed.

Lemma batches_shape (properties : list string) :
  List.concat (batches properties)
  = "sous_categorie"
    :: filter (fun p => negb (String.eqb p "sous_categorie")) properties
  /\ Forall (fun b => b <> [] /\ List.length b <= 100) (batches properties)
  /\ (exists rest later,
        batches properties = ("sous_categorie" :: rest) :: later)
  /\ (forall p, In p properties ->
        exists b, In b (batches properties) /\ In p b).
Proof.
  unfold batches.
  destruct (slices_cover BATCH_SIZE ltac:(unfold BATCH_SIZE; lia)
              (List.length (sorted properties)) (sorted properties)
              (le_n _)) as [Ec Hf].
  set (read := slices _ BATCH_SIZE _) in *. clearbody read.
  change BATCH_SIZE with 100 in Hf.
  assert (forall p, In p (List.concat read)
                    <-> p = "sous_categorie" \/ In p properties) as Hin
      by (intro p; rewrite Ec; apply sorted_In).
  unfold sorted in Ec.
  split; [exact Ec|]. split; [exact Hf|]. split.
  - destruct read as [|b later]; [discriminate Ec|].
    inversion Hf as [|? ? [Hb _] _]; subst.
    destruct b as [|x rest]; [now elim Hb|].
    apply (f_equal (hd EmptyString)) in Ec.
    cbn [List.concat app hd] in Ec. subst x. eauto.
  - intros p Hp.
    assert (In p (List.concat read)) as H by (apply Hin; auto).
    apply in_concat in H. destruct H as (b & Hb & Hb'). eauto.
Qed.

(** X25: the read function asks the store for the category, the names it
    was given (two default names when it was given none), the two
    aggregates on request and the conditional properties, in slices of
    one to a hundred names that, put end to end, are the category
    followed by the other names in the order of the request; the category
    is the first name read and is read once. *)
Theorem slices_cover_the_request (ctx : Context) :
  let properties := requested ctx in
  let read := batches properties in
  List.concat read
  = "sous_categorie"
    :: filter (fun p => negb (String.eqb p "sous_categorie")) properties
  /\ Forall (fun b => b <> [] /\ List.length b <= 100) read
  /\ (exists rest later, read = ("sous_categorie" :: rest) :: later)
  /\ (forall p, In p properties -> exists b, In b read /\ In p b)
  /\ (forall p, In p (propertyNames ctx) -> In p properties)
  /\ (forall p, In p conditionalProperties -> In p properties)
  /\ (includeCompletion ctx = true ->
      In "documents_completed" properties /\ In "etat_du_dossier" properties).
Proof.
  cbv zeta.
  destruct (batches_shape (requested ctx)) as (H1 & H2 & H3 & H4).
  split; [exact H1|]. split; [exact H2|]. split; [exact H3|].
  split; [exact H4|]. split; [|split].
  - intros p Hp. apply requested_In. left.
    destruct (propertyNames ctx); [now destruct Hp|exact Hp].
  - intros p Hp. apply requested_In. auto.
  - intro Hc. split; apply requested_In; right; left; auto.
Qed.

(** *** Reading a store that answers *)

Lemma lookup_assign (source : Properties) :
  NoDup (keys source) ->
  forall (acc : Properties) (p : string),
  lookup p (assign acc source)
  = match lookup p source with
    | Some v => Some v
    | None => lookup p acc
    end.
Proof.
  unfold assign.
  induction source as [|[k v] r IH]; intros Hnd acc p; cbn [fold_left];
    [reflexivity|].
  inversion Hnd as [|? ? Hnotin Hnd']; subst.
  rewrite (IH Hnd'). cbn [fst snd lookup].
  rewrite GroupingFacts.lookup_set.
  destruct (String.eqb_spec k p) as [->|_]; [|reflexivity].
  apply GroupingFacts.lookup_None_keys in Hnotin. now rewrite Hnotin.
Qed.

Lemma lookup_filter_keys {A : Type} (f : string -> bool) (d : Dict A)
    (p : string) :
  lookup p (filter (fun kv => f (fst kv)) d)
  = if f p then lookup p d else None.
Proof.
  induction d as [|[k v] r IH]; cbn [filter lookup fst];
    [now destruct (f p)|].
  destruct (f k) eqn:Fk; cbn [lookup].
  - destruct (String.eqb_spec k p) as [->|_]; [now rewrite Fk|exact IH].
  - destruct (String.eqb_spec k p) as [->|_]; [now rewrite IH, Fk|exact IH].
Qed.

Lemma keys_filter_NoDup {A : Type} (f : string * A -> bool) (d : Dict A) :
  NoDup (keys d) -> NoDup (keys (filter f d)).
Proof.
  unfold keys. induction d as [|kv r IH]; cbn [filter map]; intro H;
    [constructor|].
  inversion H as [|? ? Hnotin Hnd]; subst.
  destruct (f kv); [|now apply IH].
  cbn [map]. constructor; [|now apply IH].
  intro Hin. apply Hnotin. apply in_map_iff in Hin.
  destruct Hin as (kv' & E & Hf). apply filter_In in Hf.
  apply in_map_iff. exists kv'. tauto.
Qed.

Lemma listed_app (p : string) (a b : list string) :
  listed p (a ++ b) = listed p a || listed p b.
Proof. unfold listed. apply existsb_app. Qed.

Lemma readAll_record (record : Properties) :
  NoDup (keys record) ->
  forall (read : list (list string)) (acc : Properties),
  exists allProperties,
    readAll (recordReader record) read acc = Some allProperties
    /\ forall p,
         lookup p allProperties
         = match (if listed p (List.concat read) then lookup p record
                  else None) with
           | Some v => Some v
           | None => lookup p acc
           end.
Proof.
  intros Hnd. induction read as [|b read IH]; intro acc.
  - exists acc. split; reflexivity.
  - cbn [readAll]. unfold readBatch, recordReader.
    destruct (IH (assign acc (filter (fun kv => listed (fst kv) b) record)))
      as (allProperties & E & L).
    exists allProperties. split; [exact E|]. intro p. rewrite L.
    rewrite lookup_assign by (now apply keys_filter_NoDup).
    rewrite (lookup_filter_keys (fun k => listed k b)).
    cbn [List.concat]. rewrite listed_app.
    destruct (listed p (List.concat read)), (listed p b), (lookup p record);
      reflexivity.
Qed.

Lemma lookup_fold_set {A : Type} (f : string -> A) (properties : list string) :
  forall (acc : Dict A) (p : string),
  lookup p (fold_left (fun result prop => Js.set prop (f prop) result)
                      properties acc)
  = if listed p properties then Some (f p) else lookup p acc.
Proof.
  induction properties as [|q properties IH]; intros acc p; cbn [fold_left];
    [reflexivity|].
  rewrite IH. unfold listed. cbn [existsb].
  destruct (existsb (String.eqb p) properties); [now rewrite orb_true_r|].
  rewrite orb_false_r, GroupingFacts.lookup_set.
  rewrite (String.eqb_sym q p).
  destruct (String.eqb_spec p q) as [->|_]; reflexivity.
Qed.

Lemma lookup_resultOf (properties : list string) (allProperties : Properties)
    (p : string) :
  lookup p (resultOf properties allProperties)
  = if listed p properties
    then Some (normalise p (get allProperties p)) else None.
Proof.
  unfold resultOf.
  now rewrite (lookup_fold_set (fun prop => normalise prop (get allProperties prop))).
Qed.

Lemma keys_fold_set_NoDup {A : Type} (f : string -> A)
    (properties : list string) :
  forall acc : Dict A,
  NoDup (keys acc) ->
  NoDup (keys (fold_left (fun result prop => Js.set prop (f prop) result)
                         properties acc)).
Proof.
  induction properties as [|q properties IH]; intros acc H; [exact H|].
  cbn [fold_left]. apply IH. now apply SaveFacts.keys_set_NoDup.
Qed.

Lemma get_toResponse (result : Dict string) (p : string) :
  get (toResponse (AnswerProperties result)) p
  = match lookup p result with
    | Some v => JsPrim (SStr v)
    | None => undefined
    end.
Proof.
  unfold get, toResponse.
  rewrite (SaveFacts.lookup_map_entry (fun v => JsPrim (SStr v))).
  now destruct (lookup p result).
Qed.

Lemma listed_batches (properties : list string) (p : string) :
  listed p properties = true ->
  listed p (List.concat (batches properties)) = true.
Proof.
  intro H. apply listed_In in H. apply listed_In.
  unfold batches.
  destruct (slices_cover BATCH_SIZE ltac:(unfold BATCH_SIZE; lia)
              (List.length (sorted properties)) (sorted properties) (le_n _))
    as [-> _].
  apply sorted_In. auto.
Qed.

Lemma honest_answer
    (record : Properties) (ctx : Context) :
  NoDup (keys record) ->
  truthy (objectId ctx) = true ->
  tokenMissing ctx = false ->
  exists result,
    main (recordReader record) ctx = AnswerProperties result
    /\ NoDup (keys result)
    /\ (forall p, lookup p result
                  = if listed p (requested ctx)
                    then Some (normalise p (get record p)) else None)
    /\ (forall p s, In p (requested ctx) ->
          get record p = JsPrim (SStr s) -> s <> EmptyString ->
          get (toResponse (AnswerProperties result)) p = JsPrim (SStr s))
    /\ (forall p, In p (requested ctx) -> isBlank (get record p) = true ->
          get (toResponse (AnswerProperties result)) p
          = JsPrim (SStr (if isFlag p then "false" else EmptyString))).
Proof.
  intros Hnd Hid Htok. unfold main. rewrite Hid, Htok. cbn [negb orb].
  destruct (readAll_record record Hnd (batches (requested ctx)) [])
    as (allProperties & -> & L).
  exists (resultOf (requested ctx) allProperties).
  assert (forall p, listed p (requested ctx) = true ->
            get allProperties p = get record p) as G.
  { intros p Hp. unfold get. rewrite L, (listed_batches _ _ Hp).
    now destruct (lookup p record). }
  assert (forall p, lookup p (resultOf (requested ctx) allProperties)
                    = if listed p (requested ctx)
                      then Some (normalise p (get record p)) else None) as R.
  { intro p. rewrite lookup_resultOf.
    destruct (listed p (requested ctx)) eqn:Hp; [|reflexivity].
    now rewrite (G p Hp). }
  split; [reflexivity|]. split; [|split; [exact R|split]].
  - unfold resultOf. apply keys_fold_set_NoDup. constructor.
  - intros p s Hp Hs Hne. rewrite get_toResponse, R.
    rewrite (proj2 (listed_In p _) Hp), Hs.
    unfold normalise, isBlank.
    assert (isEmpty s = false) as -> by (destruct s; [now elim Hne|reflexivity]).
    now destruct (isFlag p).
  - intros p Hp Hb. rewrite get_toResponse, R.
    rewrite (proj2 (listed_In p _) Hp).
    unfold normalise. rewrite Hb. now destruct (isFlag p).
Qed.

(** X26: from a store that answers every read with what the record holds
    of the names asked for, the read function returns one text for each
    name of its list and for no other name: for a flag (a name with
    _required or _provided) the text false when the record holds nothing,
    null or the empty text under the name, and otherwise the text of the
    value; for another name the empty text in the first case, the items
    joined by semicolons for a list, and otherwise the text of the value.
    A non-empty text of the record comes back as it is. *)
Theorem an_honest_store_is_read_faithfully
    (record : Properties) (ctx : Context) :
  NoDup (keys record) ->
  truthy (objectId ctx) = true ->
  tokenMissing ctx = false ->
  exists result,
    main (recordReader record) ctx = AnswerProperties result
    /\ NoDup (keys result)
    /\ (forall p, lookup p result
                  = if listed p (requested ctx)
                    then Some (normalise p (get record p)) else None)
    /\ (forall p s, In p (requested ctx) ->
          get record p = JsPrim (SStr s) -> s <> EmptyString ->
          get (toResponse (AnswerProperties result)) p = JsPrim (SStr s))
    /\ (forall p, In p (requested ctx) -> isBlank (get record p) = true ->
          get (toResponse (AnswerProperties result)) p
          = JsPrim (SStr (if isFlag p then "false" else EmptyString))).
Proof. exact (honest_answer record ctx). Qed.

Lemma an_honest_store_is_read_faithfully_witness :
  exists result,
    main (recordReader Scenarios.bagY) (readContext ["d1_required"])
    = AnswerProperties result
    /\ lookup "d1_required" result = Some "true"
    /\ lookup "d1_provided" result = None.
Proof.
  assert (NoDup (keys Scenarios.bagY)) as Hnd
      by (cbn; repeat constructor; cbn; intuition discriminate).
  destruct (an_honest_store_is_read_faithfully Scenarios.bagY
              (readContext ["d1_required"]) Hnd eq_refl eq_refl)
    as (result & E & _ & R & _).
  exists result. split; [exact E|]. rewrite !R.
  split; vm_compute; reflexivity.
Defined.

(** *** Reading a store that fails *)

Lemma lookup_fillWithNull (batch : list string) :
  forall (acc : Properties) (p : string),
  lookup p (fillWithNull acc batch)
  = if listed p batch
    then match lookup p acc with
         | Some v => Some v
         | None => Some (JsPrim SNull)
         end
    else lookup p acc.
Proof.
  unfold fillWithNull.
  induction batch as [|q batch IH]; intros acc p; cbn [fold_left];
    [reflexivity|].
  rewrite IH. unfold listed, has. cbn [existsb].
  rewrite (String.eqb_sym p q).
  destruct (lookup q acc) as [v|] eqn:Lq.
  - destruct (String.eqb_spec q p) as [->|_]; cbn [orb]; [|reflexivity].
    rewrite Lq. now destruct (existsb (String.eqb p) batch).
  - rewrite GroupingFacts.lookup_set.
    destruct (String.eqb_spec q p) as [->|_]; cbn [orb]; [|reflexivity].
    rewrite Lq. now destruct (existsb (String.eqb p) batch).
Qed.

Lemma readAll_failing (statusCode : option Z) :
  isStatus 404 statusCode = false ->
  forall (read : list (list string)) (acc : Properties),
  exists allProperties,
    readAll (failingReader statusCode) read acc = Some allProperties
    /\ forall p,
         lookup p allProperties
         = match lookup p acc with
           | Some v => Some v
           | None => if listed p (List.concat read)
                     then Some (JsPrim SNull) else None
           end.
Proof.
  intro H. induction read as [|b read IH]; intro acc.
  - exists acc. split; [reflexivity|]. intro p. now destruct (lookup p acc).
  - cbn [readAll]. unfold readBatch, failingReader. rewrite H.
    destruct (IH (fillWithNull acc b)) as (allProperties & E & L).
    exists allProperties. split; [exact E|]. intro p.
    rewrite L, lookup_fillWithNull. cbn [List.concat]. rewrite listed_app.
    destruct (listed p b), (lookup p acc), (listed p (List.concat read));
      reflexivity.
Qed.

Lemma readAll_not_found (reader : RecordReader) (read : list (list string)) :
  forall acc : Properties,
  readAll reader read acc = None
  <-> exists b statusCode,
        In b read /\ readBatch reader b = ReadThrown statusCode
        /\ isStatus 404 statusCode = true.
Proof.
  induction read as [|b read IH]; intro acc; cbn [readAll].
  - split; [discriminate|]. intros (b & sc & [] & _).
  - destruct (readBatch reader b) as [[props|]|sc] eqn:R.
    + rewrite IH. split.
      * intros (b' & sc & Hin & Hr). exists b', sc. split; [now right|exact Hr].
      * intros (b' & sc & [<-|Hin] & Hr & H4); [congruence|].
        exists b', sc. auto.
    + rewrite IH. split.
      * intros (b' & sc & Hin & Hr). exists b', sc. split; [now right|exact Hr].
      * intros (b' & sc & [<-|Hin] & Hr & H4); [congruence|].
        exists b', sc. auto.
    + destruct (isStatus 404 sc) eqn:H4.
      * split; [|reflexivity]. intros _. exists b, sc. split; [now left|auto].
      * rewrite IH. split.
        -- intros (b' & sc' & Hin & Hr). exists b', sc'.
           split; [now right|exact Hr].
        -- intros (b' & sc' & [<-|Hin] & Hr & H4'); [congruence|].
           exists b', sc'. auto.
Qed.

(** *** What the component makes of it *)

Lemma allOff_get (bag : Properties) (p : string) :
  AllOff bag ->
  get bag p = JsPrim (SStr "false") \/ get bag p = JsPrim (SStr EmptyString)
  \/ get bag p = undefined.
Proof.
  intro A. unfold get. destruct (lookup p bag) as [v|] eqn:L; [|auto].
  destruct (A p v L); auto.
Qed.

Lemma allOff_toBool (bag : Properties) (p : string) :
  AllOff bag -> toBool (get bag p) = false.
Proof.
  intro A. destruct (allOff_get bag p A) as [-> |[-> | ->]]; reflexivity.
Qed.

Lemma allOff_category (bag : Properties) :
  AllOff bag ->
  resolveNatureDemande bag = "false" \/ resolveNatureDemande bag = EmptyString.
Proof.
  intro A.
  assert (forall v, (v = JsPrim (SStr "false") \/ v = JsPrim (SStr EmptyString)
                     \/ v = undefined) ->
            (if truthy v then trim (toString v) else EmptyString) = "false"
            \/ (if truthy v then trim (toString v) else EmptyString)
               = EmptyString) as Final
      by (intros v [-> |[-> | ->]]; cbn; auto).
  unfold resolveNatureDemande. apply Final.
  assert (getPropValue bag "sous_categorie" = JsPrim (SStr "false")
          \/ getPropValue bag "sous_categorie" = JsPrim (SStr EmptyString)
          \/ getPropValue bag "sous_categorie" = undefined) as P.
  { unfold getPropValue. destruct (find _ (keys bag)) as [k|]; [|auto].
    destruct (isEmpty k); [auto|]. now apply allOff_get. }
  pose proof (allOff_get bag "sous_categorie" A) as G.
  destruct (truthy (get bag "sous_categorie")) eqn:T1.
  - rewrite T1. exact G.
  - destruct (truthy (getPropValue bag "sous_categorie")); [exact P|].
    destruct (filter _ (keys bag)) as [|k ks]; [exact P|].
    now apply allOff_get.
Qed.

Lemma nothing_provided (docs : list Document) :
  (forall d, In d docs -> provided d = false) ->
  checkCompletion docs = false /\ calculateDossierState docs = TO_BUILD.
Proof.
  intro H.
  assert (existsb provided docs = false) as Ep
      by (apply CalculatorFacts.existsb_false_iff; exact H).
  unfold checkCompletion, calculateDossierState. rewrite Ep. split.
  - destruct (find _ docs) as [d|] eqn:F; [reflexivity|].
    destruct (existsb required docs) eqn:Er; [|reflexivity].
    apply existsb_exists in Er. destruct Er as (d & Hd & Hr).
    pose proof (find_none _ _ F d Hd) as N. cbv beta in N.
    rewrite Hr, (H d Hd) in N. discriminate N.
  - now destruct (existsb required docs).
Qed.

Lemma loaded_all_off (DOCUMENTS_CONFIG : list DocumentConfig) (s : Session)
    (bag : Properties) :
  AllOff bag ->
  let s' := loadProperties DOCUMENTS_CONFIG s bag in
  (forall d, In d (documents (state s')) -> provided d = false)
  /\ isCompleted s' = false
  /\ dossierState s' = DOSSIER_STATES TO_BUILD.
Proof.
  intro A. cbv zeta.
  destruct (SessionFacts.fetch_fields DOCUMENTS_CONFIG s bag)
    as (_ & F2 & F3 & _).
  cbv zeta in F2, F3.
  assert (forall d, In d (documents (state (loadProperties DOCUMENTS_CONFIG s bag))) ->
            provided d = false) as P.
  { unfold loadProperties. cbn [state documents].
    set (bag' := if negb (isEmpty (resolveNatureDemande bag))
                 then Js.set "sous_categorie"
                        (JsPrim (SStr (resolveNatureDemande bag))) bag
                 else bag).
    assert (AllOff bag') as A'.
    { unfold bag'. destruct (allOff_category bag A) as [-> | ->];
        cbn [isEmpty negb]; [|exact A].
      intros k v. rewrite GroupingFacts.lookup_set.
      destruct (String.eqb "sous_categorie" k); [|apply A].
      intro E. injection E as <-. now left. }
    intros d Hd. unfold fetchedDocuments in Hd. apply in_map_iff in Hd.
    destruct Hd as (d0 & <- & _). cbn [provided fetchedDocument].
    now apply allOff_toBool. }
  destruct (nothing_provided _ P) as [C D].
  split; [exact P|]. split; [now rewrite F2|now rewrite F3, D].
Qed.

(** X27: when every read of the store fails with a status other than
    404, the read function reports no error: it answers the text false
    for every flag of its list and the empty text for every other name.
    The component takes this answer for the record: after the fetch no
    document is provided, the checklist is not completed and the dossier
    is to be built.  When a slice ends with status 404, the answer is the
    error that the object was not found, and the component keeps its
    state. *)
Theorem a_store_that_fails_reads_as_an_empty_record
    (DOCUMENTS_CONFIG : list DocumentConfig) (s : Session) (ctx : Context)
    (statusCode : option Z) :
  truthy (objectId ctx) = true ->
  tokenMissing ctx = false ->
  isStatus 404 statusCode = false ->
  let answer := main (failingReader statusCode) ctx in
  let s' := fetchDocumentValues DOCUMENTS_CONFIG s (Fetched (toResponse answer)) in
  (exists result,
     answer = AnswerProperties result
     /\ forall p, lookup p result
                  = if listed p (requested ctx)
                    then Some (if isFlag p then "false" else EmptyString)
                    else None)
  /\ (forall d, In d (documents (state s')) -> provided d = false)
  /\ isCompleted s' = false
  /\ dossierState s' = DOSSIER_STATES TO_BUILD
  /\ (forall reader b notFound,
        In b (batches (requested ctx)) ->
        readBatch reader b = ReadThrown notFound ->
        isStatus 404 notFound = true ->
        main reader ctx = AnswerError "Object not found"
        /\ fetchDocumentValues DOCUMENTS_CONFIG s
             (Fetched (toResponse (main reader ctx))) = s).
Proof.
  intros Hid Htok H4. cbv zeta.
  assert (exists result,
            main (failingReader statusCode) ctx = AnswerProperties result
            /\ forall p, lookup p result
                         = if listed p (requested ctx)
                           then Some (if isFlag p then "false" else EmptyString)
                           else None) as (result & E & R).
  { unfold main. rewrite Hid, Htok. cbn [negb orb].
    destruct (readAll_failing statusCode H4 (batches (requested ctx)) [])
      as (allProperties & -> & L).
    eexists. split; [reflexivity|]. intro p. rewrite lookup_resultOf.
    destruct (listed p (requested ctx)) eqn:Hp; [|reflexivity].
    f_equal. unfold get. rewrite L. cbn [lookup].
    rewrite (listed_batches _ _ Hp). unfold normalise. cbn [isBlank].
    now destruct (isFlag p). }
  assert (AllOff (toResponse (AnswerProperties result))) as A.
  { intros k v. unfold toResponse.
    rewrite (SaveFacts.lookup_map_entry (fun v => JsPrim (SStr v))), R.
    destruct (listed k (requested ctx)); [|discriminate].
    cbn [option_map]. intro H. injection H as <-.
    destruct (isFlag k); auto. }
  split; [exists result; auto|]. rewrite E.
  assert (truthy (get (toResponse (AnswerProperties result)) "error") = false)
    as NoError.
  { rewrite get_toResponse, R.
    destruct (listed "error" (requested ctx)); vm_compute; reflexivity. }
  rewrite (SessionFacts.fetch_answered _ _ _ NoError).
  destruct (loaded_all_off DOCUMENTS_CONFIG s _ A) as (P & C & D).
  split; [exact P|]. split; [exact C|]. split; [exact D|].
  intros reader b notFound Hb Hr Hn.
  assert (main reader ctx = AnswerError "Object not found") as ->.
  { unfold main. rewrite Hid, Htok. cbn [negb orb].
    assert (readAll reader (batches (requested ctx)) [] = None) as ->
        by (apply readAll_not_found; eauto).
    reflexivity. }
  split; reflexivity.
Qed.

Lemma a_store_that_fails_reads_as_an_empty_record_witness :
  let s' := fetchDocumentValues Scenarios.catalogD1
              (initialSession Scenarios.catalogD1 "decret")
              (Fetched (toResponse
                          (main (failingReader (Some 500%Z))
                                (readContext ["d1_required"; "d1_provided"])))) in
  isCompleted s' = false /\ dossierState s' = DOSSIER_STATES TO_BUILD.
Proof.
  cbv zeta.
  destruct (a_store_that_fails_reads_as_an_empty_record Scenarios.catalogD1
              (initialSession Scenarios.catalogD1 "decret")
              (readContext ["d1_required"; "d1_provided"]) (Some 500%Z)
              eq_refl eq_refl eq_refl) as (_ & _ & C & D & _).
  split; assumption.
Defined.

(** *** From the save to the next fetch *)

Lemma not_requested (ctx : Context) (p : string) :
  ~ In p (propertyNames ctx) ->
  propertyNames ctx <> [] ->
  p <> "documents_completed" -> p <> "etat_du_dossier" ->
  ~ In p conditionalProperties ->
  ~ In p (requested ctx).
Proof.
  intros Hp Hne H1 H2 Hc Hin. apply requested_In in Hin.
  destruct Hin as [Hin|[[_ [E|E]]|Hin]]; auto.
  destruct (propertyNames ctx); [now elim Hne|auto].
Qed.

(** X28: from the save to the next fetch.  Let the documents saved be
    those of the catalog with property names that are distinct and are
    neither the category nor the name error; let the store hold, in a
    record without a repeated name, what the save function wrote; and let
    the component ask for the two names of every document.  Then the
    fetch that follows reads every provided flag as it was saved, and
    every required flag as it was saved too, except that a document with
    conditions comes back required exactly when its conditions are met in
    the bag of the fetch or it was saved required and provided. *)
Theorem saved_flags_survive_the_round_trip
    (DOCUMENTS_CONFIG : list DocumentConfig) (st : State) (s : Session)
    (docs : list Document) (record : Properties) (ctx : Context) :
  map unflagged docs = INITIAL_DOCUMENTS DOCUMENTS_CONFIG ->
  NoDup (flat_map Checklist.propertyNames docs) ->
  ~ In "sous_categorie" (flat_map Checklist.propertyNames docs) ->
  NoDup (keys record) ->
  Holds record
        (Store.buildProperties (documentsParameter DOCUMENTS_CONFIG st docs)) ->
  truthy (objectId ctx) = true ->
  tokenMissing ctx = false ->
  (forall p, In p (flat_map Checklist.propertyNames docs) -> In p (propertyNames ctx)) ->
  ~ In "error" (propertyNames ctx) ->
  propertyNames ctx <> [] ->
  let answer := main (recordReader record) ctx in
  let s' := fetchDocumentValues DOCUMENTS_CONFIG s (Fetched (toResponse answer)) in
  map flags (documents (state s'))
  = map (flagsReadBack (recordProperties (state s'))) docs.
Proof.
  intros Hc Hnd Hcat Hrec Hh Hid Htok Hask Herr Hne. cbv zeta.
  destruct (honest_answer record ctx Hrec Hid Htok)
    as (result & -> & _ & R & Text & _).
  assert (truthy (get (toResponse (AnswerProperties result)) "error") = false)
    as NoError.
  { rewrite get_toResponse, R.
    assert (listed "error" (requested ctx) = false) as ->; [|reflexivity].
    destruct (listed "error" (requested ctx)) eqn:L; [|reflexivity].
    apply listed_In in L. exfalso. revert L.
    apply not_requested; auto; try discriminate.
    cbn. intuition discriminate. }
  rewrite (SessionFacts.fetch_answered _ _ _ NoError).
  set (response := toResponse (AnswerProperties result)) in *.
  assert (documents (state (loadProperties DOCUMENTS_CONFIG s response))
          = fetchedDocuments DOCUMENTS_CONFIG
              (recordProperties
                 (state (loadProperties DOCUMENTS_CONFIG s response)))) as ->
      by reflexivity.
  apply (SaveFacts.flags_read_back DOCUMENTS_CONFIG st docs); auto.
  intros p v Hp.
  assert (In p (flat_map Checklist.propertyNames docs)) as Hin.
  { apply (SaveFacts.batch_keys DOCUMENTS_CONFIG st docs p).
    destruct (in_dec string_dec p
                (keys (Store.buildProperties
                         (documentsParameter DOCUMENTS_CONFIG st docs))))
      as [H|H]; [exact H|].
    apply GroupingFacts.lookup_None_keys in H. congruence. }
  assert (exists flag, v = flagText flag) as [flag ->].
  { rewrite SaveFacts.batch_of_the_save in Hp.
    destruct (winner p _) as [flag|]; [|discriminate Hp].
    injection Hp as <-. now exists flag. }
  assert (get response p = flagText flag) as G.
  { apply Text.
    - apply requested_In. left. pose proof (Hask p Hin) as Hq.
      destruct (propertyNames ctx); [destruct Hq|exact Hq].
    - exact (Hh p _ Hp).
    - now destruct flag. }
  unfold loadProperties. cbn [state recordProperties].
  destruct (negb (isEmpty (resolveNatureDemande response))); [|exact G].
  unfold get. rewrite GroupingFacts.lookup_set.
  destruct (String.eqb_spec "sous_categorie" p) as [<-|_];
    [contradiction|exact G].
Qed.

Lemma saved_flags_survive_the_round_trip_witness :
  let docs := map (fun d => withProvided d false)
                  (fetchedDocuments Scenarios.catalogD1 Scenarios.bagY) in
  let record := [("sous_categorie", JsPrim (SStr "Y"));
                 ("d1_required", JsPrim (SStr "true"));
                 ("d1_provided", JsPrim (SStr "false"))] in
  map flags
    (documents
       (state
          (fetchDocumentValues Scenarios.catalogD1
             (initialSession Scenarios.catalogD1 "decret")
             (Fetched (toResponse
                         (main (recordReader record)
                               (readContext ["d1_required"; "d1_provided"])))))))
  = [(false, false)].
Proof.
  cbv zeta.
  rewrite (saved_flags_survive_the_round_trip Scenarios.catalogD1
             (Scenarios.stateAfterFetch Scenarios.bagY "decret")
             (initialSession Scenarios.catalogD1 "decret")
             (map (fun d => withProvided d false)
                  (fetchedDocuments Scenarios.catalogD1 Scenarios.bagY))).
  - reflexivity.
  - reflexivity.
  - cbn. repeat constructor; cbn; intuition discriminate.
  - cbn. intuition discriminate.
  - cbn. repeat constructor; cbn; intuition discriminate.
  - intros p v. vm_compute Store.buildProperties. cbn [lookup].
    destruct (String.eqb_spec "d1_required" p) as [<-|_];
      [intro H; injection H as <-; reflexivity|].
    destruct (String.eqb_spec "d1_provided" p) as [<-|_];
      [intro H; injection H as <-; reflexivity|discriminate].
  - reflexivity.
  - reflexivity.
  - cbn. intros p [<-|[<-|[]]]; auto.
  - cbn. intuition discriminate.
  - discriminate.
Defined.

End ReadFacts.

(** * The aggregates that a save writes *)

Module PipelineFacts.

Import Js DocumentList Checklist Pipeline.



End PipelineFacts.
